(** * Basic-RAG: chunking, retry policy, collection bootstrap, extraction

    A shallow embedding of the parts of [app.py] and [ingest.py] that carry
    the design decisions of the pipeline, and the properties proved of them.

    Conventions.
    - Python [int] is [Z].  Python [str] is [string] where a message is
      built or searched, and [list A] where only slicing matters (the two
      chunkers are polymorphic in the character type).  A [string] is read
      as a sequence of code points below 256.
    - A raised exception is identified with its description [str(e)].
      Streamlit calls are recorded on a screen and do not raise; the
      pictographs of the interface's literals are left out.
    - External collaborators (vector store, embedding model, document
      parsers, random generator, temporary-file names) form a class of
      operations on an abstract state; nothing is assumed about what they
      answer. *)

From Stdlib Require Import ZArith String Ascii List Lia Bool.
From Stdlib Require Import DecimalString.
From stdpp Require Import base list strings gmap.

Open Scope string_scope.
Open Scope list_scope.
Open Scope Z_scope.

(* ===================================================================== *)
(** * Part I: definitions                                                 *)
(* ===================================================================== *)

(** ** Python built-ins used by the sources *)

Module Py.

(** [s[lo:hi]] for a sequence, with CPython's index adjustment: a negative
    index counts from the end, and both ends are clamped to [0, len]. *)
Definition adjust_index (len i : Z) : Z :=
  if i <? 0 then Z.max 0 (i + len) else Z.min i len.

Definition slice {A : Type} (l : list A) (lo hi : Z) : list A :=
  let n := Z.of_nat (length l) in
  let lo' := adjust_index n lo in
  let hi' := adjust_index n hi in
  take (Z.to_nat (hi' - lo')) (drop (Z.to_nat lo') l).

Definition len {A : Type} (l : list A) : Z := Z.of_nat (length l).

(** [x in [a, b, ...]] for strings *)
Definition in_list (x : string) (l : list string) : bool :=
  existsb (String.eqb x) l.

(** [os.path.splitext(p)[1]]: the text from the last dot of the last path
    component on, unless that component has only leading dots before it. *)
Fixpoint last_index (c : ascii) (l : list ascii) (i : Z) (found : Z) : Z :=
  match l with
  | [] => found
  | x :: l' => last_index c l' (i + 1) (if Ascii.eqb x c then i else found)
  end.

Definition splitext_ext (p : string) : string :=
  let chars := list_ascii_of_string p in
  let sepIndex := last_index "/"%char chars 0 (-1) in
  let dotIndex := last_index "."%char chars 0 (-1) in
  if sepIndex <? dotIndex then
    let stem := slice chars (sepIndex + 1) dotIndex in
    if forallb (Ascii.eqb "."%char) stem then EmptyString
    else string_of_list_ascii (drop (Z.to_nat dotIndex) chars)
  else EmptyString.

(** [range(n)] *)
Definition range (n : Z) : list Z := map Z.of_nat (seq 0 (Z.to_nat n)).

(** [str.isspace] on one code point below 256. *)
Definition isspace (c : ascii) : bool :=
  let n := nat_of_ascii c in
  ((9 <=? n) && (n <=? 13) || (28 <=? n) && (n <=? 32)
   || (n =? 133) || (n =? 160))%nat.

(** [s.strip()] over any character type, given its whitespace test. *)
Fixpoint lstrip {A : Type} (sp : A -> bool) (l : list A) : list A :=
  match l with
  | [] => []
  | c :: l' => if sp c then lstrip sp l' else l
  end.

Definition strip_list {A : Type} (sp : A -> bool) (l : list A) : list A :=
  rev (lstrip sp (rev (lstrip sp l))).

Definition strip (s : string) : string :=
  string_of_list_ascii (strip_list isspace (list_ascii_of_string s)).

(** Truthiness of a sequence: non-empty. *)
Definition truthy {A : Type} (l : list A) : bool :=
  match l with [] => false | _ => true end.

Definition str_truthy (s : string) : bool :=
  match s with EmptyString => false | _ => true end.

(** [str.lower] on code points below 256: A-Z and the Latin-1 capitals
    (U+00C0 to U+00DE except the multiplication sign) move up by 32. *)
Definition lower_char (c : ascii) : ascii :=
  let n := nat_of_ascii c in
  if ((65 <=? n) && (n <=? 90)
      || (192 <=? n) && (n <=? 222) && negb (n =? 215))%nat
  then ascii_of_nat (n + 32) else c.

Fixpoint lower (s : string) : string :=
  match s with
  | EmptyString => EmptyString
  | String c s' => String (lower_char c) (lower s')
  end.

(** [needle in hay] *)
Fixpoint contains (needle hay : string) : bool :=
  String.prefix needle hay ||
  match hay with
  | EmptyString => false
  | String _ hay' => contains needle hay'
  end.

(** [sep.join(parts)] *)
Definition join (sep : string) (parts : list string) : string :=
  String.concat sep parts.

(** [s.split('\n')] *)
Definition newline : ascii := ascii_of_nat 10.

Fixpoint split_lines_aux (cur : string) (s : string) : list string :=
  match s with
  | EmptyString => [cur]
  | String c s' =>
      if Ascii.eqb c newline then cur :: split_lines_aux EmptyString s'
      else split_lines_aux (String.append cur (String c EmptyString)) s'
  end.

Definition split_lines (s : string) : list string :=
  split_lines_aux EmptyString s.

(** [str(n)] and the [{n:,}] format of a non-negative or negative int. *)
Definition str_of_int (n : Z) : string :=
  NilZero.string_of_int (Z.to_int n).

Fixpoint group3 (fuel : nat) (digits_rev : list ascii) : list ascii :=
  match fuel with
  | O => digits_rev
  | S fuel' =>
      match digits_rev with
      | a :: b :: c :: (_ :: _) as rest =>
          a :: b :: c :: ","%char :: group3 fuel' rest
      | _ => digits_rev
      end
  end.

Definition format_thousands (n : Z) : string :=
  let digits := list_ascii_of_string (str_of_int (Z.abs n)) in
  let grouped := rev (group3 (length digits) (rev digits)) in
  String.append (if n <? 0 then "-" else EmptyString)
                (string_of_list_ascii grouped).

End Py.

(** ** Effects: exceptions, the screen, the clock, the disk *)

Module Eff.

(** The outcome of a call: a value, or a raised exception (its [str]). *)
Inductive result (A : Type) : Type :=
| Ok (a : A)
| Raise (e : string).
Arguments Ok {A} a.
Arguments Raise {A} e.

(** What streamlit is asked to show. *)
Inductive ui : Type :=
| StError (msg : string)
| StWarning (msg : string)
| StSuccess (msg : string)
| StInfo (msg : string)
| StMarkdown (msg : string)
| StProgress (num den : Z).

(** A stored point: [{"id": .., "vector": .., "payload": {..}}]. *)
Record point (V : Type) : Type := Point {
  point_id : Z;
  point_vector : V;
  point_payload : gmap string string
}.
Arguments Point {V} _ _ _.
Arguments point_id {V} _.
Arguments point_vector {V} _.
Arguments point_payload {V} _.

(** An id that [randint(1_000_000_000)] can return. *)
Definition id_in_range {V : Type} (p : point V) : Prop :=
  0 <= point_id p < 1000000000.

(** One shape of a slide: its text when it has one, its table cells (row by
    row) when it holds a table. *)
Record shape : Type := Shape {
  shape_text : option string;
  shape_table : option (list (list string))
}.

(** The external collaborators, as operations on their own state [E];
    [V] is the type of embedding vectors.  The three document parsers and
    the text decoder are functions of the file's bytes. *)
Class Collaborators (E V : Type) : Type := {
  COLLECTION_NAME : string;
  MAX_SEARCH_RESULTS : Z;
  (* vector store client *)
  get_collection : string -> E -> result unit * E;
  create_collection : string -> Z -> E -> result unit * E;
  upsert : string -> list (point V) -> E -> result unit * E;
  query_points : string -> V -> Z -> E -> result (list (point V)) * E;
  (* sentence-transformers model; the flag is [normalize_embeddings] *)
  encode : bool -> string -> E -> result V * E;
  get_sentence_embedding_dimension : E -> result Z * E;
  (* np.random.randint(high) *)
  randint : Z -> E -> Z * E;
  (* hosted LLM: the streamed [delta.content] fragments *)
  chat_completions : string -> E -> result (list (option string)) * E;
  (* the name tempfile picks for a new file with the given suffix *)
  temp_name : string -> E -> string * E;
  (* pypdf, python-docx, python-pptx, and open(..., errors='ignore').read() *)
  PdfReader : string -> result (list (option string));
  DocxDocument : string -> result (list string);
  Presentation : string -> result (list (list shape));
  read_text : string -> string
}.

(** The state a request runs in. *)
Record world (E : Type) : Type := World {
  services : E;                  (* the collaborators *)
  qdrant : bool;                 (* st.session_state.qdrant is set *)
  screen : list ui;              (* streamlit calls, oldest first *)
  sleeps : list Z;               (* time.sleep arguments, oldest first *)
  disk : gmap string string;     (* files by path *)
  temp_path : option string      (* the upload handler's local variable *)
}.
Arguments World {E} _ _ _ _ _ _.
Arguments services {E} _.
Arguments qdrant {E} _.
Arguments screen {E} _.
Arguments sleeps {E} _.
Arguments disk {E} _.
Arguments temp_path {E} _.

Definition M (E A : Type) : Type := world E -> result A * world E.

Definition ret {E A} (a : A) : M E A := fun w => (Ok a, w).

Definition bind {E A B} (m : M E A) (k : A -> M E B) : M E B :=
  fun w => match m w with
           | (Ok a, w') => k a w'
           | (Raise e, w') => (Raise e, w')
           end.

Definition raise {E A} (e : string) : M E A := fun w => (Raise e, w).

(** [try: body  except Exception as e: handler(str(e))] *)
Definition try_except {E A} (body : M E A) (handler : string -> M E A)
  : M E A :=
  fun w => match body w with
           | (Ok a, w') => (Ok a, w')
           | (Raise e, w') => handler e w'
           end.

(** A call to a collaborator. *)
Definition call {E A} (op : E -> result A * E) : M E A :=
  fun w => let '(r, e') := op (services w) in
           (r, World e' (qdrant w) (screen w) (sleeps w) (disk w)
                    (temp_path w)).

Definition call_total {E A} (op : E -> A * E) : M E A :=
  fun w => let '(a, e') := op (services w) in
           (Ok a, World e' (qdrant w) (screen w) (sleeps w) (disk w)
                       (temp_path w)).

Definition shown {E} (u : ui) (w : world E) : world E :=
  World (services w) (qdrant w) (screen w ++ [u]) (sleeps w) (disk w)
        (temp_path w).

Definition show {E} (u : ui) : M E unit := fun w => (Ok tt, shown u w).

Definition is_error_message (u : ui) : Prop := exists msg, u = StError msg.

Definition st_error {E} (msg : string) : M E unit := show (StError msg).
Definition st_warning {E} (msg : string) : M E unit := show (StWarning msg).
Definition st_success {E} (msg : string) : M E unit := show (StSuccess msg).
Definition st_info {E} (msg : string) : M E unit := show (StInfo msg).
Definition st_markdown {E} (msg : string) : M E unit := show (StMarkdown msg).

(** [time.sleep(seconds)]; a negative argument raises a [ValueError]. *)
Definition slept {E} (seconds : Z) (w : world E) : world E :=
  World (services w) (qdrant w) (screen w) (sleeps w ++ [seconds]) (disk w)
        (temp_path w).

Definition sleep {E} (seconds : Z) : M E unit :=
  fun w => if seconds <? 0
           then (Raise "sleep length must be non-negative", w)
           else (Ok tt, slept seconds w).

Definition get_qdrant {E} : M E bool := fun w => (Ok (qdrant w), w).

Definition get_temp_path {E} : M E (option string) :=
  fun w => (Ok (temp_path w), w).

Definition set_temp_path {E} (p : option string) : M E unit :=
  fun w => (Ok tt, World (services w) (qdrant w) (screen w) (sleeps w)
                         (disk w) p).

Definition errno2 (path : string) : string :=
  String.append "[Errno 2] No such file or directory: '"
                (String.append path "'").

(** Reading the bytes of a file; a missing file raises. *)
Definition read_bytes {E} (path : string) : M E string :=
  fun w => match disk w !! path with
           | Some bytes => (Ok bytes, w)
           | None => (Raise (errno2 path), w)
           end.

Definition write_bytes {E} (path bytes : string) : M E unit :=
  fun w => (Ok tt, World (services w) (qdrant w) (screen w) (sleeps w)
                         (<[path := bytes]> (disk w)) (temp_path w)).

(** [os.path.exists] *)
Definition path_exists {E} (path : string) : M E bool :=
  fun w => (Ok (bool_decide (is_Some (disk w !! path))), w).

(** [os.path.getsize] *)
Definition getsize {E} (path : string) : M E Z :=
  fun w => match disk w !! path with
           | Some bytes => (Ok (Z.of_nat (String.length bytes)), w)
           | None => (Raise (errno2 path), w)
           end.

(** [os.unlink] *)
Definition unlink {E} (path : string) : M E unit :=
  fun w => match disk w !! path with
           | Some _ => (Ok tt, World (services w) (qdrant w) (screen w)
                                     (sleeps w) (delete path (disk w))
                                     (temp_path w))
           | None => (Raise (errno2 path), w)
           end.

End Eff.

Import Eff.

Declare Scope py_scope.
Delimit Scope py_scope with py.
Notation "'let*' x ':=' m 'in' k" := (bind m (fun x => k))
  (at level 10, x name, m at level 100, k at level 200) : py_scope.
Notation "'let*' ' p ':=' m 'in' k" :=
  (bind m (fun x => match x with p => k end))
  (at level 10, p pattern, m at level 100, k at level 200) : py_scope.
Notation "m '>>' k" := (bind m (fun _ => k))
  (at level 190, right associativity) : py_scope.
Infix "+++" := String.append (at level 60, right associativity) : py_scope.
Open Scope py_scope.

Definition nl : string := String Py.newline EmptyString.
Definition dq : string := String (ascii_of_nat 34) EmptyString.

(* ===================================================================== *)
(** ** app.py                                                             *)
(* ===================================================================== *)

Module App.

(** *** Upload tab: the chunking loop (lines 910-916) *)

Section Chunking.
Context {A : Type}.

(** One turn of [while start < len(full_text)] per unit of fuel; [None]
    when the fuel runs out before the loop ends. *)
Fixpoint chunk_loop (fuel : nat) (full_text : list A)
    (chunk_size overlap start : Z) (chunks : list (list A))
  : option (list (list A)) :=
  match fuel with
  | O => None
  | S fuel' =>
      if start <? Py.len full_text then
        let end_ := start + chunk_size in
        chunk_loop fuel' full_text chunk_size overlap
                   (start + (chunk_size - overlap))
                   (chunks ++ [Py.slice full_text start end_])
      else Some chunks
  end.

Definition chunker (full_text : list A) (chunk_size overlap : Z)
  : option (list (list A)) :=
  chunk_loop (S (length full_text)) full_text chunk_size overlap 0 [].

End Chunking.

(** The upload tab fixes [chunk_size = 500] and [overlap = 100]. *)
Definition chunk_size : Z := 500.
Definition overlap : Z := 100.

Definition upload_chunks (full_text : string) : list string :=
  map string_of_list_ascii
      (default [] (chunker (list_ascii_of_string full_text)
                           chunk_size overlap)).

(** *** Failure classification *)

(** The test named [is_timeout] in [ensure_collection_exists] and in the
    upload tab's upsert loop. *)
Definition is_timeout (error_str : string) : bool :=
  Py.contains "timeout" error_str || Py.contains "handshake" error_str
  || Py.contains "ssl" error_str.

(** The test named [is_retryable] in [retry_qdrant_operation]. *)
Definition is_retryable (error_str : string) : bool :=
  Py.contains "timeout" error_str || Py.contains "handshake" error_str
  || Py.contains "ssl" error_str || Py.contains "connection" error_str.

(** The test named [is_not_found] in the upsert loop. *)
Definition is_not_found (error_str : string) : bool :=
  Py.contains "not found" error_str || Py.contains "doesn't exist" error_str
  || Py.contains "404" error_str.

(** [raise last_error]; raising [None] is a [TypeError]. *)
Definition raise_last {E A} (last_error : option string) : M E A :=
  match last_error with
  | Some e => raise e
  | None => raise "exceptions must derive from BaseException"
  end.

Section WithCollaborators.
Context {E V : Type} `{Collaborators E V}.

(** *** Embeddings (lines 104-112) *)

Definition embed (text : string) : M E V := call (encode true text).

Definition get_vector_size : M E Z := call get_sentence_embedding_dimension.

(** *** retry_qdrant_operation (lines 140-166) *)

(** The body of [wrapper]: [attempts] is what is left of
    [range(max_retries)]. *)
Fixpoint wrapper_loop {A : Type} (func : M E A) (max_retries delay : Z)
    (attempts : list Z) (last_error : option string) : M E A :=
  match attempts with
  | [] => raise_last last_error
  | attempt :: rest =>
      try_except func (fun e =>
        let error_str := Py.lower e in
        if is_retryable error_str && (attempt <? max_retries - 1) then
          sleep (delay * (attempt + 1)) >>
          wrapper_loop func max_retries delay rest (Some e)
        else raise e)
  end.

Definition retry_qdrant_operation {A : Type} (max_retries delay : Z)
    (func : M E A) : M E A :=
  wrapper_loop func max_retries delay (Py.range max_retries) None.

(** *** ensure_collection_exists (lines 171-228) *)

Definition ensure_collection_exists (silent : bool) : M E bool :=
  let* client := get_qdrant in
  if negb client then ret false else
  try_except
    (try_except
       (call (get_collection COLLECTION_NAME) >> ret true)
       (fun check_error =>
          let error_str := Py.lower check_error in
          if is_timeout error_str then ret true else
          try_except
            (let* vector_size := get_vector_size in
             call (create_collection COLLECTION_NAME vector_size) >>
             ret true)
            (fun create_error =>
               let create_error_str := Py.lower create_error in
               if Py.contains "already exists" create_error_str
                  || (Py.contains "collection" create_error_str
                      && Py.contains "exists" create_error_str)
               then ret true
               else if is_timeout create_error_str then ret true
               else
                 (if negb silent
                  then st_error ("Error ensuring collection exists: "
                                 +++ create_error)
                  else ret tt) >>
                 ret true)))
    (fun e =>
       let error_str := Py.lower e in
       if is_timeout error_str then ret true
       else
         (if negb silent
          then st_error ("Error ensuring collection exists: " +++ e)
          else ret tt) >>
         ret true).

(** *** extract_text_from_file (lines 509-585) *)

Definition open_with {R : Type} (parser : string -> result R)
    (file_path : string) : M E R :=
  let* bytes := read_bytes file_path in
  fun w => (parser bytes, w).

Definition non_blank (s : string) : bool := Py.str_truthy (Py.strip s).

Definition shape_runs (sh : shape) : list string :=
  (match shape_text sh with
   | Some t => if non_blank t then [t] else []
   | None => []
   end) ++
  (match shape_table sh with
   | Some rows => flat_map (fun row => List.filter non_blank row) rows
   | None => []
   end).

Definition word_error (e : string) : string :=
  "Error reading Word document. For .doc files, please convert to .docx format. Error: "
  +++ e.

Definition invalid_pptx_error (error_msg : string) : string :=
  "Invalid PowerPoint file. The file may be corrupted, incomplete, or not actually a PowerPoint file. If downloading from SharePoint, ensure you have a direct download link. Error: "
  +++ error_msg.

Definition legacy_ppt_error (error_msg : string) : string :=
  "Error reading PowerPoint file. Legacy .ppt format is not fully supported. Please convert to .pptx format. Error: "
  +++ error_msg.

Definition pptx_error (error_msg : string) : string :=
  "Error reading PowerPoint file: " +++ error_msg.

Definition extract_text_from_file (file_path file_extension : string)
  : M E (string * Z) :=
  let file_extension := Py.lower file_extension in
  if String.eqb file_extension ".pdf" then
    let* pages_read := open_with PdfReader file_path in
    let pages := map (fun t => default EmptyString t) pages_read in
    ret (Py.join nl pages, Py.len pages_read)
  else if Py.in_list file_extension [".docx"; ".doc"] then
    try_except
      (let* doc := open_with DocxDocument file_path in
       let paragraphs := List.filter non_blank doc in
       ret (Py.join nl paragraphs, Py.len doc))
      (fun e => raise (word_error e))
  else if Py.in_list file_extension [".pptx"; ".ppt"] then
    try_except
      (let* there := path_exists file_path in
       if negb there then raise ("File not found at path: " +++ file_path)
       else
         let* file_size := getsize file_path in
         if file_size =? 0 then raise "PowerPoint file is empty or corrupted"
         else
           let* prs := open_with Presentation file_path in
           let slide_count := Py.len prs in
           let text_runs := flat_map (flat_map shape_runs) prs in
           if negb (Py.truthy text_runs) then ret (EmptyString, slide_count)
           else ret (Py.join nl text_runs, slide_count))
      (fun error_msg =>
         if Py.contains "Package not found" error_msg
            || Py.contains "not a zip file" (Py.lower error_msg)
         then raise (invalid_pptx_error error_msg)
         else if String.eqb file_extension ".ppt"
         then raise (legacy_ppt_error error_msg)
         else raise (pptx_error error_msg))
  else if String.eqb file_extension ".txt" then
    let* bytes := read_bytes file_path in
    let content := read_text bytes in
    let lines := Py.split_lines content in
    ret (content, Py.len (List.filter non_blank lines))
  else raise ("Unsupported file format: " +++ file_extension).

(** *** generate_llm_answer (lines 590-618) *)

Definition prompt_of (query context : string) : string :=
  nl +++ "You are an expert assistant. Use ONLY the context below to answer."
  +++ nl +++ nl +++ "USER QUERY:" +++ nl +++ query +++ nl +++ nl
  +++ "CONTEXT:" +++ nl +++ context +++ nl +++ nl +++ "RULES:" +++ nl
  +++ "- Only use the provided context." +++ nl
  +++ "- If context is insufficient, respond: " +++ dq
  +++ "Not enough information in the document." +++ dq +++ nl.

Definition generate_llm_answer (query context : string) : M E string :=
  let prompt := prompt_of query context in
  try_except
    (let* stream := call (chat_completions prompt) in
     ret (fold_left (fun answer chunk => answer +++ default EmptyString chunk)
                    stream EmptyString))
    (fun e => ret ("Error generating answer: " +++ e)).

(** *** Search tab (lines 663-699) *)

Definition no_collection_warning : string :=
  "Collection doesn't exist. Please upload a document first.".

Definition no_results_warning : string :=
  "No results found. Please upload a document first.".

Definition payload_text (p : point V) : string :=
  default EmptyString (point_payload p !! "text").

(** What runs when the search button is pressed with a non-empty query. *)
Definition search (query : string) : M E unit :=
  if negb (non_blank query) then st_warning "Please enter a question!"
  else
    try_except
      (let* exists_ := ensure_collection_exists false in
       if negb exists_ then st_warning no_collection_warning
       else
         let* qvec := embed query in
         let* hits := call (query_points COLLECTION_NAME qvec
                                         MAX_SEARCH_RESULTS) in
         if negb (Py.truthy hits) then st_warning no_results_warning
         else
           let chunks := map payload_text hits in
           let context := Py.join (nl +++ nl) chunks in
           let* answer := generate_llm_answer query context in
           st_markdown "### AI Response" >>
           st_markdown ("<div class=" +++ dq +++ "ai-response" +++ dq
                        +++ ">" +++ answer +++ "</div>"))
      (fun e => st_error ("Error during search: " +++ e)).

(** *** Upload tab (lines 853-1016) *)

(** Lines 922-929: one point per chunk, its id drawn at random. *)
Fixpoint build_points (i total : Z) (chunks : list string)
    (points : list (point V)) : M E (list (point V)) :=
  match chunks with
  | [] => ret points
  | chunk :: rest =>
      let* vec := embed chunk in
      let* id := call_total (randint 1000000000) in
      show (StProgress (i + 1) total) >>
      build_points (i + 1) total rest
                   (points ++ [Point id vec {["text" := chunk]}])
  end.

(** Lines 939-991: the upsert loop; [attempts] is what is left of
    [range(max_retries)].  Reaching the end of the list is the loop ending
    with [upsert_success] still false. *)
Fixpoint upsert_attempts (points : list (point V)) (max_retries : Z)
    (attempts : list Z) (last_error : option string) : M E unit :=
  match attempts with
  | [] => raise_last last_error
  | attempt :: rest =>
      try_except
        (call (upsert COLLECTION_NAME points))
        (fun upsert_error =>
           let next := upsert_attempts points max_retries rest
                                       (Some upsert_error) in
           let error_str := Py.lower upsert_error in
           let lines_981_988 :=
             if is_timeout error_str && (attempt <? max_retries - 1) then
               sleep (2 * (attempt + 1)) >> next
             else if attempt =? max_retries - 1 then raise upsert_error
             else next in
           if is_not_found error_str then
             let* vector_size := get_vector_size in
             let* continue_ :=
               try_except
                 (call (create_collection COLLECTION_NAME vector_size) >>
                  ret true)
                 (fun create_err =>
                    let create_err_str := Py.lower create_err in
                    if Py.contains "already exists" create_err_str
                    then ret true
                    else if Py.contains "timeout" create_err_str
                            || Py.contains "handshake" create_err_str
                    then
                      if attempt <? max_retries - 1
                      then sleep (2 * (attempt + 1)) >> ret true
                      else ret false
                    else ret false) in
             if continue_ : bool then next else lines_981_988
           else lines_981_988)
  end.

Definition max_retries : Z := 3.

Definition upsert_with_retry (points : list (point V)) : M E unit :=
  upsert_attempts points max_retries (Py.range max_retries) None.

Definition file_type_names : gmap string string :=
  list_to_map
    [(".pdf", "PDF"); (".docx", "Word Document");
     (".doc", "Word Document (Legacy)");
     (".pptx", "PowerPoint Presentation");
     (".ppt", "PowerPoint Presentation (Legacy)"); (".txt", "Text File")].

(** Where the document comes from.  For an upload: the file's name and
    bytes.  For a URL: the download (lines 858-883, HTTP and SharePoint),
    any computation that stages the file and returns its path and
    extension. *)
Inductive file_source : Type :=
| FromUpload (name bytes : string)
| FromUrl (download : M E (string * string)).

(** Lines 886-891. *)
Definition stage_upload (name bytes : string) : M E (string * string) :=
  let file_extension := Py.splitext_ext name in
  let* tmp_file := call_total (temp_name file_extension) in
  write_bytes tmp_file EmptyString >>
  write_bytes tmp_file bytes >>
  ret (tmp_file, file_extension).

Definition is_url (src : file_source) : bool :=
  match src with FromUrl _ => true | FromUpload _ _ => false end.

Definition report (src : file_source) (filename file_type_name
    file_extension : string) (page_count : Z) (chunks : list string)
    (full_text : string) : M E unit :=
  st_success (file_type_name +++ " successfully ingested!") >>
  st_info ("**Filename:** " +++ filename) >>
  st_info ("**File Type:** " +++ file_type_name) >>
  (if is_url src then st_info "**Source:** URL" else ret tt) >>
  (if Py.in_list file_extension [".pdf"; ".pptx"; ".ppt"]
   then st_info ("**Pages/Slides:** " +++ Py.str_of_int page_count)
   else if Py.in_list file_extension [".docx"; ".doc"]
   then st_info ("**Paragraphs:** " +++ Py.str_of_int page_count)
   else if String.eqb file_extension ".txt"
   then st_info ("**Lines:** " +++ Py.str_of_int page_count)
   else ret tt) >>
  st_info ("**Chunks created:** " +++ Py.str_of_int (Py.len chunks)) >>
  st_info ("**Total characters:** "
           +++ Py.format_thousands (Z.of_nat (String.length full_text))).

(** What runs when "Upload & Ingest" is pressed. *)
Definition upload_and_ingest (src : file_source) (filename : string)
  : M E unit :=
  try_except
    (set_temp_path None >>
     let* '(path, file_extension) :=
       match src with
       | FromUrl download => download
       | FromUpload name bytes => stage_upload name bytes
       end in
     set_temp_path (Some path) >>
     let file_type_name :=
       default "Document" (file_type_names !! Py.lower file_extension) in
     let* '(full_text, page_count) :=
       extract_text_from_file path file_extension in
     if negb (non_blank full_text) then
       st_error ("No text could be extracted from the " +++ file_type_name
                 +++ ".")
     else
       let chunks := upload_chunks full_text in
       show (StProgress 0 1) >>
       let* points := build_points 0 (Py.len chunks) chunks [] in
       ensure_collection_exists true >>
       upsert_with_retry points >>
       unlink path >>
       report src filename file_type_name file_extension page_count chunks
              full_text)
    (fun e =>
       st_error ("Error processing document: " +++ e) >>
       let* temp := get_temp_path in
       match temp with
       | Some path =>
           if Py.str_truthy path
           then try_except (unlink path) (fun _ => ret tt)
           else ret tt
       | None => ret tt
       end).

End WithCollaborators.
End App.

(* ===================================================================== *)
(** ** ingest.py                                                          *)
(* ===================================================================== *)

Module Ingest.

(** *** chunk_text (lines 57-66) *)

Section Chunking.
Context {A : Type} (isspace : A -> bool).

Fixpoint chunk_text_loop (fuel : nat) (text : list A)
    (chunk_size chunk_overlap start : Z) (chunks : list (list A))
  : option (list (list A)) :=
  match fuel with
  | O => None
  | S fuel' =>
      if start <? Py.len text then
        let end_ := start + chunk_size in
        let chunk := Py.strip_list isspace (Py.slice text start end_) in
        chunk_text_loop fuel' text chunk_size chunk_overlap
                        (start + (chunk_size - chunk_overlap))
                        (if Py.truthy chunk then chunks ++ [chunk]
                         else chunks)
      else Some chunks
  end.

Definition chunk_text (text : list A) (chunk_size chunk_overlap : Z)
  : option (list (list A)) :=
  chunk_text_loop (S (length text)) text chunk_size chunk_overlap 0 [].

End Chunking.

Section WithCollaborators.
Context {E V : Type} `{Collaborators E V}.

(** *** embed (lines 34-37): [encode] without [normalize_embeddings] *)
Definition embed (text : string) : M E V := call (encode false text).

(** *** store_chunks (lines 98-115) *)
Fixpoint enumerate_points (idx : Z) (chunks : list string)
    (points : list (point V)) : M E (list (point V)) :=
  match chunks with
  | [] => ret points
  | chunk :: rest =>
      let* vec := embed chunk in
      enumerate_points (idx + 1) rest
                       (points ++ [Point idx vec {["text" := chunk]}])
  end.

Definition store_chunks (chunks : list string) : M E unit :=
  let* points := enumerate_points 0 chunks [] in
  call (upsert COLLECTION_NAME points).

End WithCollaborators.
End Ingest.

(* ===================================================================== *)
(** ** The specification's own words                                      *)
(* ===================================================================== *)

Module Spec.

(** [ceil(a / b)] for positive [b]. *)
Definition ceil_div (a b : Z) : Z := (a + b - 1) / b.

(** "start = 0, size-overlap, 2*(size-overlap), ... while start < len(T)":
    the multiples of the step that lie below [L]. *)
Definition starts (L step : Z) : list Z :=
  List.filter (fun start => start <? L)
              (map (fun k => Z.of_nat k * step) (seq 0 (Z.to_nat L))).

(** "emit text[start:start+size]" at each of them, left to right. *)
Definition window {A : Type} (text : list A) (size start : Z) : list A :=
  Py.slice text start (start + size).

Definition chunks {A : Type} (text : list A) (size overlap : Z)
  : list (list A) :=
  map (window text size) (starts (Py.len text) (size - overlap)).

(** The [m] multiples of the step from the [j]-th on. *)
Definition multiples (step : Z) (j m : nat) : list Z :=
  map (fun k => Z.of_nat k * step) (seq j m).

(** "concatenating the chunks with the leading [overlap] characters of
    every chunk after the first removed". *)
Definition stitch {A : Type} (overlap : Z) (cs : list (list A)) : list A :=
  match cs with
  | [] => []
  | first :: others => first ++ concat (map (drop (Z.to_nat overlap)) others)
  end.

(** "ceil((L - overlap) / (size - overlap)) when L > overlap, else 1 (for
    L > 0), else 0". *)
Definition claimed_count (L size overlap : Z) : Z :=
  if overlap <? L then ceil_div (L - overlap) (size - overlap)
  else if 0 <? L then 1
  else 0.


End Spec.

(* ===================================================================== *)
(** ** A simulated environment                                            *)
(* ===================================================================== *)

(** A small in-memory vector store with fault injection, used to run the
    flows on concrete inputs.  Each store operation first consults its own
    list of injected faults ([Some e]: this call raises [e]; [None] or an
    exhausted list: the store answers as a healthy one would). *)

Module Sim.

Record env : Type := Env {
  collection : option (list (point Z));  (* absent, or its points *)
  get_faults : list (option string);
  create_faults : list (option string);
  upsert_faults : list (option string);
  query_faults : list (option string);
  draws : list Z;                         (* the generator's raw output *)
  calls : list string;                    (* store calls, oldest first *)
  temp_counter : Z
}.

Definition not_found : string :=
  "Not found: Collection `pdf_chunks` doesn't exist!".

Definition logged (name : string) (e : env) : env :=
  Env (collection e) (get_faults e) (create_faults e) (upsert_faults e)
      (query_faults e) (draws e) (calls e ++ [name]) (temp_counter e).

Definition with_collection (c : option (list (point Z))) (e : env) : env :=
  Env c (get_faults e) (create_faults e) (upsert_faults e) (query_faults e)
      (draws e) (calls e) (temp_counter e).

Definition sim_get_collection (_ : string) (e0 : env) : result unit * env :=
  let e := logged "get_collection" e0 in
  let e' := Env (collection e) (tail (get_faults e)) (create_faults e)
                (upsert_faults e) (query_faults e) (draws e) (calls e)
                (temp_counter e) in
  match get_faults e with
  | Some err :: _ => (Raise err, e')
  | _ => match collection e with
         | Some _ => (Ok tt, e')
         | None => (Raise not_found, e')
         end
  end.

Definition sim_create_collection (_ : string) (_ : Z) (e0 : env)
  : result unit * env :=
  let e := logged "create_collection" e0 in
  let e' := Env (collection e) (get_faults e) (tail (create_faults e))
                (upsert_faults e) (query_faults e) (draws e) (calls e)
                (temp_counter e) in
  match create_faults e with
  | Some err :: _ => (Raise err, e')
  | _ => match collection e with
         | Some _ => (Raise "Collection `pdf_chunks` already exists!", e')
         | None => (Ok tt, with_collection (Some []) e')
         end
  end.

Definition sim_upsert (_ : string) (points : list (point Z)) (e0 : env)
  : result unit * env :=
  let e := logged "upsert" e0 in
  let e' := Env (collection e) (get_faults e) (create_faults e)
                (tail (upsert_faults e)) (query_faults e) (draws e)
                (calls e) (temp_counter e) in
  match upsert_faults e with
  | Some err :: _ => (Raise err, e')
  | _ =>
      match collection e with
      | Some old =>
          let kept :=
            List.filter
              (fun p => negb (existsb (fun q => point_id q =? point_id p)
                                      points)) old in
          (Ok tt, with_collection (Some (kept ++ points)) e')
      | None => (Raise not_found, e')
      end
  end.

Definition sim_query_points (_ : string) (_ : Z) (limit : Z) (e0 : env)
  : result (list (point Z)) * env :=
  let e := logged "query_points" e0 in
  let e' := Env (collection e) (get_faults e) (create_faults e)
                (upsert_faults e) (tail (query_faults e)) (draws e)
                (calls e) (temp_counter e) in
  match query_faults e with
  | Some err :: _ => (Raise err, e')
  | _ => match collection e with
         | Some ps => (Ok (take (Z.to_nat limit) ps), e')
         | None => (Raise not_found, e')
         end
  end.

Definition sim_randint (high : Z) (e : env) : Z * env :=
  (hd 0 (draws e) mod high,
   Env (collection e) (get_faults e) (create_faults e) (upsert_faults e)
       (query_faults e) (tail (draws e)) (calls e) (temp_counter e)).

Definition sim_temp_name (suffix : string) (e : env) : string * env :=
  ("/tmp/tmp" +++ Py.str_of_int (temp_counter e) +++ suffix,
   Env (collection e) (get_faults e) (create_faults e) (upsert_faults e)
       (query_faults e) (draws e) (calls e) (temp_counter e + 1)).

(** Toy document formats: a package is "PK" followed by its lines. *)
Definition package_lines (bytes : string) : result (list string) :=
  if String.prefix "PK" bytes
  then Ok (Py.split_lines (String.substring 2 (String.length bytes) bytes))
  else Raise "Package not found at '/tmp/doc'".

Definition sim_presentation (bytes : string) : result (list (list shape)) :=
  match package_lines bytes with
  | Ok lines => Ok (map (fun l => [Shape (Some l) None]) lines)
  | Raise e => Raise e
  end.

Definition sim_pdf (bytes : string) : result (list (option string)) :=
  if String.prefix "%PDF" bytes
  then Ok [Some (String.substring 4 (String.length bytes) bytes)]
  else Raise "EOF marker not found".

#[global] Instance sim_collaborators : Collaborators env Z := {|
  COLLECTION_NAME := "pdf_chunks";
  MAX_SEARCH_RESULTS := 5;
  get_collection := sim_get_collection;
  create_collection := sim_create_collection;
  upsert := sim_upsert;
  query_points := sim_query_points;
  encode := fun _ text e => (Ok (Z.of_nat (String.length text)), e);
  get_sentence_embedding_dimension := fun e => (Ok 384, e);
  randint := sim_randint;
  chat_completions := fun _ e => (Ok [Some "An "; None; Some "answer."], e);
  temp_name := sim_temp_name;
  PdfReader := sim_pdf;
  DocxDocument := package_lines;
  Presentation := sim_presentation;
  read_text := fun bytes => bytes
|}.

(** A healthy environment with no collection yet. *)
Definition fresh : env := Env None [] [] [] [] [] [] 0.

Definition with_upsert_faults (fs : list (option string)) (e : env) : env :=
  Env (collection e) (get_faults e) (create_faults e) fs (query_faults e)
      (draws e) (calls e) (temp_counter e).

Definition with_create_faults (fs : list (option string)) (e : env) : env :=
  Env (collection e) (get_faults e) fs (upsert_faults e) (query_faults e)
      (draws e) (calls e) (temp_counter e).

Definition with_get_faults (fs : list (option string)) (e : env) : env :=
  Env (collection e) fs (create_faults e) (upsert_faults e) (query_faults e)
      (draws e) (calls e) (temp_counter e).

Definition with_draws (ds : list Z) (e : env) : env :=
  Env (collection e) (get_faults e) (create_faults e) (upsert_faults e)
      (query_faults e) ds (calls e) (temp_counter e).

(** The world of a session whose clients are initialised. *)
Definition session (e : env) : world env := World e true [] [] ∅ None.

(** The same session with a file already on disk. *)
Definition with_file (path bytes : string) (w : world env) : world env :=
  World (services w) (qdrant w) (screen w) (sleeps w)
        (<[path := bytes]> (disk w)) (temp_path w).

(** How often an operation was called. *)
Definition count_calls (name : string) (e : env) : nat :=
  length (List.filter (String.eqb name) (calls e)).

(** A session whose collection exists and whose next upserts fail as
    listed. *)
Definition failing_upserts (errors : list string) : world env :=
  session (with_upsert_faults (map Some errors)
             (with_collection (Some []) fresh)).

(** What a run shows: its outcome, the delays slept, the upserts tried. *)
Definition observed {R : Type} (run : result R * world env)
  : result R * list Z * nat :=
  (fst run, sleeps (snd run), count_calls "upsert" (services (snd run))).

Definition upsert_once : M env unit := call (upsert "pdf_chunks" []).

End Sim.

(* ===================================================================== *)
(** ** The embedding model's contract                                     *)
(* ===================================================================== *)

(** What the documentation of sentence-transformers says of [encode], as
    far as the pipeline relies on it: with [normalize_embeddings=True] the
    vector returned has length 1; and asking again for the same text, with
    the same flag and the model as the call left it, gives the same
    answer.  What length 1 means for a vector, and within which
    tolerance, is a predicate on [V]. *)
Module Model.

Section Contract.
Context {E V : Type} `{Collaborators E V}.

Record contract (unit_norm : V -> Prop) : Prop := Contract {
  normalizes : forall text e v e',
    encode true text e = (Ok v, e') -> unit_norm v;
  repeats : forall flag text e,
    fst (encode flag text (snd (encode flag text e)))
    = fst (encode flag text e)
}.

End Contract.

(** A model of two dimensions that keeps the contract: the raw vector of
    a text is [(len(text) + 2, 0)], its normalized form [(1, 0)]. *)
Definition squared_norm (v : list Z) : Z :=
  fold_right (fun x s => x * x + s) 0 v.

Definition unit_length (v : list Z) : Prop := squared_norm v = 1.

Definition two_dimensions : Collaborators unit (list Z) := {|
  COLLECTION_NAME := "pdf_chunks";
  MAX_SEARCH_RESULTS := 5;
  get_collection := fun _ e => (Ok tt, e);
  create_collection := fun _ _ e => (Ok tt, e);
  upsert := fun _ _ e => (Ok tt, e);
  query_points := fun _ _ _ e => (Ok [], e);
  encode := fun normalize text e =>
    (Ok (if normalize : bool then [1; 0]
         else [Z.of_nat (String.length text) + 2; 0]), e);
  get_sentence_embedding_dimension := fun e => (Ok 2, e);
  randint := fun _ e => (0, e);
  chat_completions := fun _ e => (Ok [], e);
  temp_name := fun suffix e => ("/tmp/tmp" +++ suffix, e);
  PdfReader := fun _ => Ok [];
  DocxDocument := fun _ => Ok [];
  Presentation := fun _ => Ok [];
  read_text := fun bytes => bytes
|}.

Definition session : world unit := World tt true [] [] ∅ None.

End Model.

(* ===================================================================== *)
(** ** app.py: staging a downloaded file                                  *)
(* ===================================================================== *)

(** [download_file_from_url] from line 470 on: the response body is
    written to a temporary file, which is then validated.  Lines 365-468
    (the request and the choice of the extension) are the caller's part
    here: the body they obtained and the extension they settled on are the
    arguments. *)

Module Download.

(** [bytes.lower]: only A-Z change. *)
Definition bytes_lower_char (c : ascii) : ascii :=
  let n := nat_of_ascii c in
  if ((65 <=? n) && (n <=? 90))%nat then ascii_of_nat (n + 32) else c.

Fixpoint bytes_lower (s : string) : string :=
  match s with
  | EmptyString => EmptyString
  | String c s' => String (bytes_lower_char c) (bytes_lower s')
  end.

(** What [response.iter_content] yields: the chunks received, and the
    [requests] exception that ended the stream early, if any. *)
Record response_body : Type := Body {
  received : list string;
  broken : option string
}.

(** [tmp_file.write(chunk)] on the open file *)
Definition append_bytes {E} (path chunk : string) : M E unit :=
  fun w => (Ok tt,
            World (services w) (qdrant w) (screen w) (sleeps w)
                  (<[path := default EmptyString (disk w !! path) +++ chunk]>
                     (disk w))
                  (temp_path w)).

Fixpoint write_chunks {E} (path : string) (chunks : list string)
  : M E unit :=
  match chunks with
  | [] => ret tt
  | chunk :: rest =>
      (if Py.str_truthy chunk then append_bytes path chunk else ret tt) >>
      write_chunks path rest
  end.

Definition download_failed (e : string) : string :=
  "Failed to download file from URL: " +++ e
  +++ ". Please ensure the URL is accessible and points to a downloadable file.".

Definition processing_failed (e : string) : string :=
  "Error processing URL: " +++ e.

Definition empty_download : string :=
  "Downloaded file is empty. The URL may require authentication or the file may not be accessible.".

Definition web_page_download : string :=
  "Downloaded content appears to be a web page (HTML/ASPX) rather than a document file. This usually means the URL requires authentication. Please try: 1) Getting a direct download link from SharePoint, or 2) Downloading the file manually and uploading from your computer.".

Definition not_a_pptx : string :=
  "Downloaded file does not appear to be a valid PowerPoint file. The file may be corrupted or the URL may not point to the actual file.".

(** The test of lines 488: markers of a web page in the bytes read. *)
Definition looks_like_web_page (first_bytes : string) : bool :=
  Py.contains "<html" (bytes_lower first_bytes)
  || Py.contains "<asp" (bytes_lower first_bytes)
  || Py.contains "<!doctype" (bytes_lower first_bytes).

Section WithCollaborators.
Context {E V : Type} `{Collaborators E V}.

(** Lines 478-500, inside the function's [try]. *)
Definition validate (temp_path file_extension : string)
  : M E (string * string) :=
  let* file_size := getsize temp_path in
  if file_size =? 0 then unlink temp_path >> raise empty_download
  else
    (if file_size <? 1024 then
       let* content := read_bytes temp_path in
       let first_bytes := String.substring 0 1024 content in
       if looks_like_web_page first_bytes
       then unlink temp_path >> raise web_page_download
       else ret tt
     else ret tt) >>
    (if String.eqb (Py.lower file_extension) ".pptx" then
       let* content := read_bytes temp_path in
       let first_bytes := String.substring 0 4 content in
       if negb (String.eqb (String.substring 0 2 first_bytes) "PK")
       then unlink temp_path >> raise not_a_pptx
       else ret tt
     else ret tt) >>
    ret (temp_path, file_extension).

(** Lines 470-504.  A stream that breaks raises a [RequestException],
    which the first handler re-raises; every failure of the validation is
    re-raised by the second. *)
Definition stage_response (body : response_body) (file_extension : string)
  : M E (string * string) :=
  let* temp_path := call_total (temp_name file_extension) in
  write_bytes temp_path EmptyString >>
  write_chunks temp_path (received body) >>
  match broken body with
  | Some e => raise (download_failed e)
  | None =>
      try_except (validate temp_path file_extension)
                 (fun e => raise (processing_failed e))
  end.

End WithCollaborators.
End Download.

(* ===================================================================== *)
(** ** ingest.py: the command-line ingestion                              *)
(* ===================================================================== *)

(** [load_pdf_text], [create_collection] and [ingest].  The [print] calls
    have no counterpart; [connect_qdrant] only builds the client object,
    which is the collaborators' state here. *)

Module IngestCli.

(** What ingest.py needs beyond the collaborators of app.py. *)
Class Probe (E : Type) : Type := {
  PDF_PATH : string;
  collection_exists : string -> E -> result bool * E
}.

Section WithCollaborators.
Context {E V : Type} `{Collaborators E V} `{Probe E}.

(** Lines 44-50. *)
Definition load_pdf_text (path : string) : M E string :=
  let* pages := App.open_with PdfReader path in
  ret (fold_left (fun text page => text +++ (default EmptyString page +++ nl))
                 pages EmptyString).

(** [chunk_text(text)] with its default size 500 and overlap 100. *)
Definition chunk_text (text : string) : list string :=
  map string_of_list_ascii
      (default [] (Ingest.chunk_text Py.isspace (list_ascii_of_string text)
                                     500 100)).

(** Lines 83-95; [VECTOR_SIZE] is the global that [load_model] set. *)
Definition create_collection (VECTOR_SIZE : Z) : M E unit :=
  let* exists_ := call (collection_exists COLLECTION_NAME) in
  if exists_ : bool then ret tt
  else call (Eff.create_collection COLLECTION_NAME VECTOR_SIZE).

(** Lines 122-140; [load_model()] is where [VECTOR_SIZE] gets the model's
    dimension. *)
Definition ingest : M E Z :=
  let* text := load_pdf_text PDF_PATH in
  let chunks := chunk_text text in
  let* VECTOR_SIZE := App.get_vector_size in
  create_collection VECTOR_SIZE >>
  Ingest.store_chunks chunks >>
  ret (Py.len chunks).

End WithCollaborators.

(** The simulated store answers the probe from its state. *)
#[global] Instance sim_probe : Probe Sim.env := {|
  PDF_PATH := "data/demo.pdf";
  collection_exists := fun _ e =>
    (Ok (bool_decide (is_Some (Sim.collection e))),
     Sim.logged "collection_exists" e)
|}.

End IngestCli.

(* ===================================================================== *)
(** ** Vocabulary of the properties                                       *)
(* ===================================================================== *)

Module Obs.

(** The computation leaves one component of the world as it found it. *)
Definition keeps {E A X : Type} (part : world E -> X) (m : M E A) : Prop :=
  forall w, part (snd (m w)) = part w.

(** A chunk with something in it and no whitespace at either end. *)
Definition trimmed {A : Type} (isspace : A -> bool) (c : list A) : Prop :=
  c <> []
  /\ (forall x, head c = Some x -> isspace x = false)
  /\ (forall x, last c = Some x -> isspace x = false).

(** The world after the upload tab has staged an uploaded file. *)
Definition staged {E V : Type} `{Collaborators E V} (name bytes : string)
    (w : world E) : world E :=
  let '(tmp, e') := temp_name (Py.splitext_ext name) (services w) in
  World e' (qdrant w) (screen w) (sleeps w) (<[tmp := bytes]> (disk w))
        (Some tmp).

(** The world after the upload tab has taken a download that arrived
    whole and was accepted. *)
Definition downloaded {E V : Type} `{Collaborators E V}
    (body : Download.response_body) (file_extension : string)
    (w : world E) : world E :=
  let '(tmp, e') := temp_name file_extension (services w) in
  World e' (qdrant w) (screen w) (sleeps w)
        (<[tmp := Py.join EmptyString (Download.received body)]> (disk w))
        (Some tmp).

(** The name the staged file gets. *)
Definition staged_path {E V : Type} `{Collaborators E V} (name : string)
    (w : world E) : string :=
  fst (temp_name (Py.splitext_ext name) (services w)).

(** The extraction came back with nothing but whitespace. *)
Definition blank_extraction (r : result (string * Z)) : bool :=
  match r with
  | Ok (full_text, _) => negb (App.non_blank full_text)
  | Raise _ => false
  end.

(** The staged file is still where the upload handler recorded it: the
    files are [d] and the handler's variable names [tmp]. *)
Definition still_staged {E : Type} (tmp : string) (d : gmap string string)
    (w : world E) : Prop :=
  disk w = d /\ temp_path w = Some tmp.

(** How the part of the upload flow after the extraction can end: done,
    with the staged file deleted and no other file touched; or failed,
    with the staged file still recorded for the handler. *)
Definition deletes_or_fails {E A : Type} (tmp : string)
    (d : gmap string string) (out : result A * world E) : Prop :=
  match fst out with
  | Ok _ => disk (snd out) = delete tmp d
  | Raise _ => still_staged tmp d (snd out)
  end.

End Obs.

(* ===================================================================== *)
(** * Part II: properties                                                 *)
(* ===================================================================== *)

(** ** Slicing and the arithmetic of windows *)

Lemma slice_window {A : Type} (l : list A) (s n : Z) :
  0 <= s -> 0 <= n ->
  Py.slice l s (s + n) = take (Z.to_nat n) (drop (Z.to_nat s) l).
Proof.
  intros Hs Hn. unfold Py.slice, Py.adjust_index.
  destruct (Z.ltb_spec s 0) as [?|_]; [lia|].
  destruct (Z.ltb_spec (s + n) 0) as [?|_]; [lia|].
  set (L := Z.of_nat (length l)).
  destruct (Z_le_gt_dec s L) as [Hle|Hgt].
  - rewrite (Z.min_l s L) by lia.
    destruct (Z_le_gt_dec (s + n) L) as [Hle'|Hgt'].
    + rewrite (Z.min_l (s + n) L) by lia. f_equal. lia.
    + rewrite (Z.min_r (s + n) L) by lia.
      rewrite !take_ge; [reflexivity| |]; rewrite length_drop; subst L; lia.
  - rewrite (Z.min_r s L), (Z.min_r (s + n) L) by lia.
    rewrite !drop_ge by (subst L; lia). now rewrite !take_nil.
Qed.

Lemma ceil_div_bounds (L step : Z) :
  0 <= L -> 0 < step ->
  0 <= Spec.ceil_div L step
  /\ (Spec.ceil_div L step - 1) * step < L <= Spec.ceil_div L step * step
  /\ Spec.ceil_div L step <= L.
Proof.
  intros HL Hstep. unfold Spec.ceil_div.
  pose proof (Z.div_mod (L + step - 1) step ltac:(lia)) as Hdm.
  pose proof (Z.mod_pos_bound (L + step - 1) step Hstep) as Hmod.
  set (q := (L + step - 1) / step) in *.
  assert (0 <= q) by (apply Z.div_pos; lia).
  repeat split; nia.
Qed.

Lemma filter_below_all (L step : Z) (j m : nat) :
  0 < step -> Z.of_nat (j + m) * step < L + step ->
  List.filter (fun start => start <? L) (Spec.multiples step j m)
  = Spec.multiples step j m.
Proof.
  intros Hstep. unfold Spec.multiples. revert j.
  induction m as [|m IH]; intros j Hb; [reflexivity|].
  cbn [seq map List.filter].
  destruct (Z.ltb_spec (Z.of_nat j * step) L) as [_|Hge]; [|nia].
  f_equal. apply IH. replace (S j + m)%nat with (j + S m)%nat by lia. exact Hb.
Qed.

Lemma filter_below_none (L step : Z) (j m : nat) :
  0 < step -> L <= Z.of_nat j * step ->
  List.filter (fun start => start <? L) (Spec.multiples step j m) = [].
Proof.
  intros Hstep. unfold Spec.multiples. revert j.
  induction m as [|m IH]; intros j Hb; [reflexivity|].
  cbn [seq map List.filter].
  destruct (Z.ltb_spec (Z.of_nat j * step) L) as [Hlt|_]; [lia|].
  apply IH. nia.
Qed.

(** The starts are the first [ceil(L / step)] multiples of the step. *)
Lemma starts_multiples (L step : Z) :
  0 <= L -> 0 < step ->
  Spec.starts L step
  = Spec.multiples step 0 (Z.to_nat (Spec.ceil_div L step)).
Proof.
  intros HL Hstep. unfold Spec.starts.
  destruct (ceil_div_bounds L step HL Hstep) as (Hn0 & [Hlo Hhi] & HnL).
  set (n := Spec.ceil_div L step) in *.
  replace (Z.to_nat L) with (Z.to_nat n + (Z.to_nat L - Z.to_nat n))%nat
    by lia.
  rewrite seq_app, map_app, List.filter_app.
  fold (Spec.multiples step 0 (Z.to_nat n)).
  fold (Spec.multiples step (0 + Z.to_nat n)
                       (Z.to_nat L - Z.to_nat n)).
  rewrite filter_below_all, filter_below_none; try assumption.
  - apply app_nil_r.
  - rewrite Nat.add_0_l, Z2Nat.id by lia. lia.
  - rewrite Nat.add_0_l, Z2Nat.id by lia. lia.
Qed.

Lemma length_multiples (step : Z) (j m : nat) :
  length (Spec.multiples step j m) = m.
Proof. unfold Spec.multiples. now rewrite length_map, length_seq. Qed.

Lemma filter_shorter {B : Type} (f : B -> bool) (l : list B) :
  (length (List.filter f l) <= length l)%nat.
Proof.
  induction l as [|x l IH]; cbn; [lia|]. destruct (f x); cbn; lia.
Qed.

(** ** The two chunkers *)

Section ChunkerFacts.
Context {A : Type}.
Variables (text : list A) (size overlap : Z).
Hypothesis size_pos : 0 < size.
Hypothesis overlap_ok : 0 <= overlap < size.

Local Abbreviation step := (size - overlap).
Local Abbreviation L := (Py.len text).
Local Abbreviation n := (Z.to_nat (Spec.ceil_div L step)).

Lemma n_bounds :
  (Z.of_nat n - 1) * step < L <= Z.of_nat n * step /\ (n <= length text)%nat.
Proof using size_pos overlap_ok.
  assert (Hs : 0 < step) by lia.
  assert (HL : 0 <= L) by (unfold Py.len; lia).
  destruct (ceil_div_bounds L step HL Hs) as (Hn0 & Hb & HnL).
  rewrite Z2Nat.id by lia. split; [exact Hb|].
  unfold Py.len in *. lia.
Qed.

Lemma chunks_as_windows :
  Spec.chunks text size overlap
  = map (Spec.window text size) (Spec.multiples step 0 n).
Proof using size_pos overlap_ok.
  unfold Spec.chunks.
  rewrite starts_multiples; [reflexivity | unfold Py.len; lia | lia].
Qed.

(** The upload tab's loop, started at the [j]-th multiple with [m] windows
    still to come, appends exactly those windows. *)
Lemma chunk_loop_run (m : nat) :
  forall (j fuel : nat) (acc : list (list A)),
    (j + m = n)%nat -> (m < fuel)%nat ->
    App.chunk_loop fuel text size overlap (Z.of_nat j * step) acc
    = Some (acc ++ map (Spec.window text size) (Spec.multiples step j m)).
Proof using size_pos overlap_ok.
  pose proof n_bounds as [Hn _]. unfold Spec.multiples.
  induction m as [|m IH]; intros j fuel acc Hj Hfuel;
    (destruct fuel as [|fuel]; [lia|]); cbn [App.chunk_loop].
  - destruct (Z.ltb_spec (Z.of_nat j * step) L) as [Hlt|_]; [nia|].
    cbn. now rewrite app_nil_r.
  - destruct (Z.ltb_spec (Z.of_nat j * step) L) as [_|Hge]; [|nia].
    replace (Z.of_nat j * step + step) with (Z.of_nat (S j) * step) by lia.
    rewrite IH by lia. cbn [seq map].
    unfold Spec.window at 2. now rewrite <- app_assoc.
Qed.

(** The same for [chunk_text], which strips each window and drops the
    ones that end up empty. *)
Lemma chunk_text_loop_run (isspace : A -> bool) (m : nat) :
  forall (j fuel : nat) (acc : list (list A)),
    (j + m = n)%nat -> (m < fuel)%nat ->
    Ingest.chunk_text_loop isspace fuel text size overlap
                           (Z.of_nat j * step) acc
    = Some (acc ++ List.filter Py.truthy
                     (map (Py.strip_list isspace)
                          (map (Spec.window text size)
                               (Spec.multiples step j m)))).
Proof using size_pos overlap_ok.
  pose proof n_bounds as [Hn _]. unfold Spec.multiples.
  induction m as [|m IH]; intros j fuel acc Hj Hfuel;
    (destruct fuel as [|fuel]; [lia|]); cbn [Ingest.chunk_text_loop].
  - destruct (Z.ltb_spec (Z.of_nat j * step) L) as [Hlt|_]; [nia|].
    cbn. now rewrite app_nil_r.
  - destruct (Z.ltb_spec (Z.of_nat j * step) L) as [_|Hge]; [|nia].
    replace (Z.of_nat j * step + step) with (Z.of_nat (S j) * step) by lia.
    rewrite IH by lia. cbn [seq map List.filter].
    unfold Spec.window at 3.
    destruct (Py.truthy _); [now rewrite <- app_assoc | reflexivity].
Qed.

(** Dropping the overlap from each window from the [j]-th on leaves the
    text from position [j*step + overlap] on. *)
Lemma stitch_tail (m : nat) :
  forall j : nat,
    (j + m = n)%nat ->
    concat (map (drop (Z.to_nat overlap))
                (map (Spec.window text size) (Spec.multiples step j m)))
    = drop (Z.to_nat (Z.of_nat j * step + overlap)) text.
Proof using size_pos overlap_ok.
  pose proof n_bounds as [Hn _]. unfold Spec.multiples.
  assert (Hstep : 0 < step) by lia.
  induction m as [|m IH]; intros j Hj.
  - cbn. symmetry. apply drop_ge.
    assert (Hj' : Z.of_nat j = Z.of_nat n) by lia. rewrite Hj'.
    unfold Py.len in *. lia.
  - cbn [seq map concat].
    rewrite IH by lia. unfold Spec.window.
    rewrite slice_window by nia.
    rewrite skipn_firstn_comm, drop_drop.
    replace (Z.to_nat (Z.of_nat (S j) * step + overlap))
      with ((Z.to_nat (Z.of_nat j * step) + Z.to_nat overlap)
            + (Z.to_nat size - Z.to_nat overlap))%nat by nia.
    rewrite <- (drop_drop text (Z.to_nat size - Z.to_nat overlap)).
    rewrite take_drop. f_equal. nia.
Qed.

Lemma stitch_chunks :
  Spec.stitch overlap (Spec.chunks text size overlap) = text.
Proof using size_pos overlap_ok.
  rewrite chunks_as_windows.
  destruct n as [|n'] eqn:En.
  - pose proof n_bounds as [Hn _]. rewrite En in Hn. cbn.
    destruct text; [reflexivity | unfold Py.len in Hn; cbn in Hn; lia].
  - unfold Spec.multiples. cbn [seq map Spec.stitch].
    fold (Spec.multiples step 1 n').
    rewrite (stitch_tail n' 1) by lia.
    unfold Spec.window. rewrite slice_window by lia. cbn [Z.to_nat drop].
    replace (Z.to_nat (Z.of_nat 1 * step + overlap)) with (Z.to_nat size)
      by lia.
    apply take_drop.
Qed.

Lemma chunk_loop_total (fuel : nat) :
  (length text < fuel)%nat ->
  App.chunk_loop fuel text size overlap 0 []
  = Some (Spec.chunks text size overlap).
Proof using size_pos overlap_ok.
  intros Hfuel. pose proof n_bounds as [_ Hn].
  rewrite chunks_as_windows.
  change 0 with (Z.of_nat 0 * step).
  now rewrite (chunk_loop_run n 0 fuel []) by lia.
Qed.

Lemma chunk_text_loop_total (isspace : A -> bool) (fuel : nat) :
  (length text < fuel)%nat ->
  Ingest.chunk_text_loop isspace fuel text size overlap 0 []
  = Some (List.filter Py.truthy
            (map (Py.strip_list isspace) (Spec.chunks text size overlap))).
Proof using size_pos overlap_ok.
  intros Hfuel. pose proof n_bounds as [_ Hn].
  rewrite chunks_as_windows.
  change 0 with (Z.of_nat 0 * step).
  now rewrite (chunk_text_loop_run isspace n 0 fuel []) by lia.
Qed.

Lemma length_chunks :
  Py.len (Spec.chunks text size overlap) = Spec.ceil_div L step.
Proof using size_pos overlap_ok.
  rewrite chunks_as_windows. unfold Py.len at 1.
  rewrite length_map, length_multiples.
  destruct (ceil_div_bounds L step) as (Hn0 & _);
    [unfold Py.len; lia | lia | lia].
Qed.

End ChunkerFacts.

(** C1 (as amended).  For every text and every valid size and overlap:
    the upload tab's chunking loop ends and emits exactly the windows
    [text[start:start+size]] at the multiples of [size - overlap] below
    [len(text)], left to right; stitching these windows with the leading
    [overlap] characters of all but the first removed gives the text back;
    the empty text gives no chunk.  [chunk_text] of ingest.py ends too and
    emits the same windows stripped of surrounding whitespace, leaving out
    those that strip to nothing. *)
Theorem C1_chunker_windows_and_stitching {A : Type} (isspace : A -> bool)
    (T : list A) (size overlap : Z) :
  0 < size -> 0 <= overlap < size ->
  (forall fuel : nat, (length T < fuel)%nat ->
     App.chunk_loop fuel T size overlap 0 []
     = Some (Spec.chunks T size overlap))
  /\ App.chunker T size overlap = Some (Spec.chunks T size overlap)
  /\ Spec.stitch overlap (Spec.chunks T size overlap) = T
  /\ App.chunker (@nil A) size overlap = Some []
  /\ Ingest.chunk_text isspace (@nil A) size overlap = Some []
  /\ (forall fuel : nat, (length T < fuel)%nat ->
        Ingest.chunk_text_loop isspace fuel T size overlap 0 []
        = Some (List.filter Py.truthy
                  (map (Py.strip_list isspace)
                       (Spec.chunks T size overlap)))).
Proof.
  intros Hsize Hov. repeat split.
  - intros fuel Hfuel. now apply chunk_loop_total.
  - unfold App.chunker. apply chunk_loop_total; [assumption..|lia].
  - now apply stitch_chunks.
  - intros fuel Hfuel. now apply chunk_text_loop_total.
Qed.

Lemma C1_witness :
  App.chunker (list_ascii_of_string "abcdefgh") 5 2
  = Some (map list_ascii_of_string ["abcde"; "defgh"; "gh"])
  /\ Spec.stitch 2 (map list_ascii_of_string ["abcde"; "defgh"; "gh"])
     = list_ascii_of_string "abcdefgh".
Proof.
  destruct (C1_chunker_windows_and_stitching
              Py.isspace (list_ascii_of_string "abcdefgh") 5 2
              ltac:(lia) ltac:(lia)) as (_ & Hc & Hs & _).
  split; [exact Hc | exact Hs].
Defined.

(** C1 as stated fails on [chunk_text]: the text " a" has the single window
    " a", but [chunk_text] emits "a", and stitching does not give the text
    back. *)
Lemma C1_counterexample :
  Ingest.chunk_text Py.isspace (list_ascii_of_string " a") 500 100
  = Some [list_ascii_of_string "a"]
  /\ Spec.chunks (list_ascii_of_string " a") 500 100
     = [list_ascii_of_string " a"]
  /\ Ingest.chunk_text Py.isspace (list_ascii_of_string " a") 500 100
     <> Some (Spec.chunks (list_ascii_of_string " a") 500 100)
  /\ Spec.stitch 100 [list_ascii_of_string "a"]
     <> list_ascii_of_string " a".
Proof.
  repeat split; try reflexivity; vm_compute; discriminate.
Qed.

(** C2 (as amended).  For every text of length L and every valid size and
    overlap the upload tab's loop produces [ceil(L / (size - overlap))]
    chunks (none when L = 0), which is never less than the count the
    specification states; [chunk_text] produces at most as many.  A text of
    1200 characters with size 500 and overlap 100 gives the three chunks at
    offsets 0, 400 and 800, the last of length 400. *)
Theorem C2_chunk_count {A : Type} (isspace : A -> bool) (T : list A)
    (size overlap : Z) :
  0 < size -> 0 <= overlap < size ->
  (exists chunks, App.chunker T size overlap = Some chunks
     /\ Py.len chunks = Spec.ceil_div (Py.len T) (size - overlap))
  /\ (exists chunks, Ingest.chunk_text isspace T size overlap = Some chunks
        /\ Py.len chunks <= Spec.ceil_div (Py.len T) (size - overlap))
  /\ (Py.len T = 0 -> Spec.ceil_div (Py.len T) (size - overlap) = 0)
  /\ Spec.claimed_count (Py.len T) size overlap
     <= Spec.ceil_div (Py.len T) (size - overlap)
  /\ (Py.len T = 1200 ->
      Spec.starts (Py.len T) (500 - 100) = [0; 400; 800]
      /\ App.chunker T 500 100
         = Some [Py.slice T 0 500; Py.slice T 400 900; Py.slice T 800 1300]
      /\ Py.len (Py.slice T 800 1300) = 400).
Proof.
  intros Hsize Hov.
  assert (HL : 0 <= Py.len T) by (unfold Py.len; lia).
  assert (Hstep : 0 < size - overlap) by lia.
  split; [|split; [|split; [|split]]].
  - exists (Spec.chunks T size overlap). split.
    + unfold App.chunker. apply chunk_loop_total; [assumption..|lia].
    + now apply length_chunks.
  - eexists. split.
    + unfold Ingest.chunk_text. apply chunk_text_loop_total;
        [assumption..|lia].
    + rewrite <- (length_chunks T size overlap) by assumption.
      unfold Py.len.
      pose proof (filter_shorter Py.truthy
                    (map (Py.strip_list isspace)
                         (Spec.chunks T size overlap))) as Hle.
      rewrite length_map in Hle. lia.
  - intros H0. rewrite H0. unfold Spec.ceil_div.
    apply Z.div_small. lia.
  - unfold Spec.claimed_count.
    destruct (ceil_div_bounds (Py.len T) (size - overlap) HL Hstep)
      as (Hn0 & [Hlo Hhi] & _).
    destruct (Z.ltb_spec overlap (Py.len T)) as [Hgt|Hle].
    + unfold Spec.ceil_div. apply Z.div_le_mono; lia.
    + destruct (Z.ltb_spec 0 (Py.len T)) as [Hpos|_]; [nia|lia].
  - intros H1200.
    assert (Hstarts : Spec.starts (Py.len T) (500 - 100) = [0; 400; 800])
      by (rewrite H1200; reflexivity).
    split; [exact Hstarts|]. split.
    + unfold App.chunker.
      rewrite chunk_loop_total by lia.
      unfold Spec.chunks. now rewrite Hstarts.
    + change 1300 with (800 + 500). rewrite slice_window by lia.
      unfold Py.len in *. rewrite length_take, length_drop. lia.
Qed.

Lemma C2_witness :
  (exists chunks, App.chunker (repeat "x"%char 1200) 500 100 = Some chunks
     /\ Py.len chunks = 3)
  /\ Py.len (Py.slice (repeat "x"%char 1200) 800 1300) = 400.
Proof.
  destruct (C2_chunk_count Py.isspace (repeat "x"%char 1200) 500 100
              ltac:(lia) ltac:(lia)) as (Hc & _ & _ & _ & Hs).
  split; [exact Hc|].
  destruct (Hs ltac:(vm_compute; reflexivity)) as (_ & _ & Hlast).
  exact Hlast.
Defined.

(** C2 as stated fails: a text of 450 characters gives two chunks (offsets
    0 and 400) where the stated formula gives ceil(350 / 400) = 1; and with
    size 5 and overlap 4 a text of 3 characters gives three chunks where
    the stated count is 1. *)
Lemma C2_counterexample :
  option_map Py.len (App.chunker (repeat "x"%char 450) 500 100) = Some 2
  /\ Spec.claimed_count (Py.len (repeat "x"%char 450)) 500 100 = 1
  /\ option_map Py.len (App.chunker (repeat "x"%char 3) 5 4) = Some 3
  /\ Spec.claimed_count (Py.len (repeat "x"%char 3)) 5 4 = 1.
Proof. repeat split; vm_compute; reflexivity. Qed.

(** ** Substring search and lower-casing *)

Lemma append_cons (c : ascii) (a b : string) :
  String c a +++ b = String c (a +++ b).
Proof. reflexivity. Qed.

Lemma append_empty (b : string) : EmptyString +++ b = b.
Proof. reflexivity. Qed.








(** ** The retry decorator, one attempt at a time *)

Section RetryFacts.
Context {E V : Type} `{Collaborators E V}.

Lemma wrapper_success {R : Type} (func : M E R) (max_retries delay : Z)
    (attempt : Z) (rest : list Z) (last : option string)
    (w w' : world E) (r : R) :
  func w = (Ok r, w') ->
  App.wrapper_loop func max_retries delay (attempt :: rest) last w
  = (Ok r, w').
Proof. intros Hf. cbn. unfold try_except. now rewrite Hf. Qed.





(** ** The upload tab's upsert loop, one attempt at a time *)

Lemma upsert_attempt_success (points : list (point V)) (max_retries : Z)
    (attempt : Z) (rest : list Z) (last : option string) (w : world E)
    (e' : E) :
  upsert COLLECTION_NAME points (services w) = (Ok tt, e') ->
  App.upsert_attempts points max_retries (attempt :: rest) last w
  = (Ok tt, World e' (qdrant w) (screen w) (sleeps w) (disk w)
                  (temp_path w)).
Proof.
  intros Hu. cbn [App.upsert_attempts]. unfold try_except, call.
  now rewrite Hu.
Qed.


(** Any other failure before the last attempt: the handler ends without
    raising and without sleeping, and the loop goes on to the next
    attempt. *)
Lemma upsert_attempt_falls_through (points : list (point V))
    (max_retries : Z) (attempt : Z) (rest : list Z) (last : option string)
    (w : world E) (e' : E) (err : string) :
  upsert COLLECTION_NAME points (services w) = (Raise err, e') ->
  App.is_not_found (Py.lower err) = false ->
  App.is_timeout (Py.lower err) = false -> attempt <> max_retries - 1 ->
  App.upsert_attempts points max_retries (attempt :: rest) last w
  = App.upsert_attempts points max_retries rest (Some err)
      (World e' (qdrant w) (screen w) (sleeps w) (disk w) (temp_path w)).
Proof.
  intros Hu Hnf Ht Ha. cbn [App.upsert_attempts]. unfold try_except, call.
  rewrite Hu, Hnf, Ht. cbn [andb].
  destruct (Z.eqb_spec attempt (max_retries - 1)); [lia|]. reflexivity.
Qed.

End RetryFacts.

(** ** The retry policy on concrete failure sequences *)


(** The decorator follows the policy on the three scenarios. *)
Example retry_decorator_scenarios :
  Sim.observed (App.retry_qdrant_operation 3 2 Sim.upsert_once
              (Sim.failing_upserts
                 ["Connection timeout while handshaking";
                  "Connection timeout while handshaking";
                  "Connection timeout while handshaking"]))
  = (Raise "Connection timeout while handshaking", [2; 4], 3%nat)
  /\ Sim.observed (App.retry_qdrant_operation 3 2 Sim.upsert_once
                 (Sim.failing_upserts ["Invalid payload schema"]))
     = (Raise "Invalid payload schema", [], 1%nat)
  /\ Sim.observed (App.retry_qdrant_operation 3 2 Sim.upsert_once
                 (Sim.failing_upserts ["handshake timeout"; "handshake timeout"]))
     = (Ok tt, [2; 4], 3%nat).
Proof. repeat split; vm_compute; reflexivity. Qed.

(** The upload tab's loop does so on the retryable scenarios. *)
Example upload_loop_retryable_scenarios :
  Sim.observed (App.upsert_with_retry []
              (Sim.failing_upserts
                 ["Connection timeout while handshaking";
                  "Connection timeout while handshaking";
                  "Connection timeout while handshaking"]))
  = (Raise "Connection timeout while handshaking", [2; 4], 3%nat)
  /\ Sim.observed (App.upsert_with_retry []
                 (Sim.failing_upserts ["handshake timeout"; "handshake timeout"]))
     = (Ok tt, [2; 4], 3%nat).
Proof. repeat split; vm_compute; reflexivity. Qed.

(** C3.  The upload tab's upsert loop on a permanent failure: where the
    policy (and the loop's own comment, and the decorator) raise on the
    first attempt, the loop tries three times without delay before it
    raises; when only the first attempt fails permanently, the failure is
    dropped and the second attempt's success is reported. *)
Theorem C3_upload_loop_retries_permanent_failure :
  Sim.observed (App.upsert_with_retry []
              (Sim.failing_upserts
                 ["Invalid payload schema"; "Invalid payload schema";
                  "Invalid payload schema"]))
  = (Raise "Invalid payload schema", [], 3%nat)
  /\ Sim.observed (App.upsert_with_retry []
                 (Sim.failing_upserts ["Invalid payload schema"]))
     = (Ok tt, [], 2%nat)
  /\ App.is_retryable (Py.lower "Invalid payload schema") = false
  /\ App.is_timeout (Py.lower "Invalid payload schema") = false.
Proof. repeat split; vm_compute; reflexivity. Qed.




(** ** The embedding functions and the model's contract *)

Lemma two_dimensions_contract :
  Model.contract (H := Model.two_dimensions) Model.unit_length.
Proof.
  split.
  - intros text e v e' Hrun. cbn in Hrun. injection Hrun as <- _.
    reflexivity.
  - intros flag text e. reflexivity.
Qed.

(** C5 (as amended).  Under the model's contract: [embed] of app.py asks
    for normalized vectors, so every vector it returns has length 1; two
    calls in a row with the same text return the same vector, for [embed]
    of app.py and for [embed] of ingest.py; and [embed] of ingest.py
    leaves [normalize_embeddings] at its default, so that what it returns
    is the model's raw vector, of which the contract says no length. *)
Theorem C5_embed_normalization {E V : Type} `{Collaborators E V}
    (unit_norm : V -> Prop) :
  Model.contract unit_norm ->
  (forall text w v w', App.embed text w = (Ok v, w') -> unit_norm v)
  /\ (forall text w a b w',
        (let* a := App.embed text in
         let* b := App.embed text in
         ret (a, b)) w = (Ok (a, b), w') ->
        a = b)
  /\ (forall text w a b w',
        (let* a := Ingest.embed text in
         let* b := Ingest.embed text in
         ret (a, b)) w = (Ok (a, b), w') ->
        a = b)
  /\ (forall text w,
        fst (Ingest.embed text w) = fst (encode false text (services w))
        /\ fst (App.embed text w) = fst (encode true text (services w))).
Proof.
  intros [Hnorm Hrep].
  assert (Htwice : forall flag text (w : world E) a b w',
            (let* a := call (encode flag text) in
             let* b := call (encode flag text) in
             ret (a, b)) w = (Ok (a, b), w') ->
            a = b).
  { intros flag text w a b w' Hrun. unfold bind, call, ret in Hrun.
    pose proof (Hrep flag text (services w)) as Hsame.
    destruct (encode flag text (services w)) as [[v1|e1] s1];
      [|discriminate].
    cbn [fst snd services] in *.
    destruct (encode flag text s1) as [[v2|e2] s2]; [|discriminate].
    cbn [fst] in Hsame. congruence. }
  split; [|split; [|split]].
  - intros text w v w' Hrun. unfold App.embed, call in Hrun.
    destruct (encode true text (services w)) as [r e'] eqn:Henc.
    injection Hrun as -> _. exact (Hnorm text (services w) v e' Henc).
  - intros text. exact (Htwice true text).
  - intros text. exact (Htwice false text).
  - intros text w. unfold Ingest.embed, App.embed, call.
    split; now destruct (encode _ text (services w)).
Qed.

Lemma C5_witness :
  Model.unit_length [1; 0]
  /\ App.embed (H := Model.two_dimensions) "hello" Model.session
     = (Ok [1; 0], Model.session).
Proof.
  destruct (C5_embed_normalization (H := Model.two_dimensions)
              Model.unit_length two_dimensions_contract) as (Hnorm & _).
  split; [|reflexivity].
  exact (Hnorm "hello" Model.session [1; 0] Model.session eq_refl).
Defined.

(** C5 as stated fails for ingest.py: on a model that keeps the contract,
    its [embed] returns a vector whose length is not 1. *)
Lemma C5_counterexample :
  Model.contract (H := Model.two_dimensions) Model.unit_length
  /\ Ingest.embed (H := Model.two_dimensions) "hello" Model.session
     = (Ok [7; 0], Model.session)
  /\ ~ Model.unit_length [7; 0].
Proof.
  split; [exact two_dimensions_contract|]. split; [reflexivity|].
  unfold Model.unit_length. cbn. discriminate.
Qed.

(** ** ensure_collection_exists *)

(** Unfolding the monad and splitting on what a collaborator answers and
    on the tests the code makes. *)
Ltac unfold_effects :=
  unfold bind, try_except, ret, raise, call, call_total, get_qdrant,
    st_error, st_warning, st_markdown, st_info, st_success, show, sleep
    in *.

Ltac split_on t := destruct t as [[?|?] ?] eqn:?.

Ltac split_run :=
  repeat
    (cbn [fst snd services qdrant screen sleeps disk temp_path shown slept
          negb andb orb] in *;
     match goal with
     | |- context [get_collection ?a ?e] => split_on (get_collection a e)
     | |- context [create_collection ?a ?b ?e] =>
         split_on (create_collection a b e)
     | |- context [upsert ?a ?b ?e] => split_on (upsert a b e)
     | |- context [query_points ?a ?b ?c ?e] =>
         split_on (query_points a b c e)
     | |- context [encode ?a ?b ?e] => split_on (encode a b e)
     | |- context [get_sentence_embedding_dimension ?e] =>
         split_on (get_sentence_embedding_dimension e)
     | |- context [chat_completions ?a ?e] =>
         split_on (chat_completions a e)
     | |- context [if ?b then _ else _] => destruct b eqn:?
     end).

Section GatewayFacts.
Context {E V : Type} `{Collaborators E V}.

(** With a client handle, every path returns [True]; the only thing shown
    is at most one error message. *)
Lemma ensure_collection_exists_true (silent : bool) (w : world E) :
  qdrant w = true ->
  exists w', App.ensure_collection_exists silent w = (Ok true, w')
    /\ qdrant w' = true
    /\ exists shown_, screen w' = screen w ++ shown_
         /\ Forall is_error_message shown_.
Proof.
  intros Hq. unfold App.ensure_collection_exists, App.get_vector_size.
  unfold_effects. rewrite Hq. split_run;
    (eexists; split; [reflexivity|]; cbn; split; [exact Hq|]);
    first [ exists []; split; [now rewrite app_nil_r | constructor]
          | eexists; split; [reflexivity|];
            repeat constructor; eexists; reflexivity ].
Qed.

Lemma ensure_collection_exists_no_client (silent : bool) (w : world E) :
  qdrant w = false ->
  App.ensure_collection_exists silent w = (Ok false, w).
Proof.
  intros Hq. unfold App.ensure_collection_exists. unfold_effects.
  now rewrite Hq.
Qed.

(** Pressing search never raises; with a client handle the "collection
    doesn't exist" warning is not among what is shown. *)
Lemma search_never_raises (query : string) (w : world E) :
  exists w', App.search query w = (Ok tt, w').
Proof.
  unfold App.search. destruct (App.non_blank query); cbn [negb];
    [|unfold_effects; eauto].
  destruct (qdrant w) eqn:Hq.
  - destruct (ensure_collection_exists_true false w Hq)
      as (w1 & Hens & _ & _).
    unfold App.generate_llm_answer, App.embed. unfold_effects.
    rewrite Hens. split_run; eauto.
  - unfold_effects. rewrite (ensure_collection_exists_no_client false w Hq).
    cbn. eauto.
Qed.

Lemma search_with_client (query : string) (w : world E) :
  qdrant w = true ->
  exists w' shown_, App.search query w = (Ok tt, w')
    /\ screen w' = screen w ++ shown_
    /\ ~ In (StWarning App.no_collection_warning) shown_.
Proof.
  intros Hq. unfold App.search. destruct (App.non_blank query); cbn [negb].
  - destruct (ensure_collection_exists_true false w Hq)
      as (w1 & Hens & _ & evs & Hscr & Herr).
    assert (Hevs : ~ In (StWarning App.no_collection_warning) evs).
    { intros Hin. rewrite Forall_forall in Herr.
      destruct (Herr _ (proj2 (list_elem_of_In _ _) Hin)) as [msg Hmsg].
      discriminate. }
    unfold App.generate_llm_answer, App.embed. unfold_effects.
    rewrite Hens. split_run;
      (eexists; eexists; split; [reflexivity|]; cbn; rewrite Hscr;
       rewrite <- ?app_assoc; split; [reflexivity|];
       rewrite ?in_app_iff; cbn;
       unfold App.no_collection_warning, App.no_results_warning;
       intuition discriminate).
  - unfold_effects. exists (shown (StWarning "Please enter a question!") w).
    eexists. split; [reflexivity|]. split; [reflexivity|].
    cbn. unfold App.no_collection_warning. intuition discriminate.
Qed.

(** The lookup fails with a description that mentions a timeout, a
    handshake or ssl: [True] at once, nothing is created. *)
Lemma ensure_skips_creation (silent : bool) (w : world E) (err : string)
    (e1 : E) :
  qdrant w = true ->
  get_collection COLLECTION_NAME (services w) = (Raise err, e1) ->
  App.is_timeout (Py.lower err) = true ->
  App.ensure_collection_exists silent w
  = (Ok true, World e1 (qdrant w) (screen w) (sleeps w) (disk w)
                    (temp_path w)).
Proof.
  intros Hq Hget Ht. unfold App.ensure_collection_exists.
  unfold_effects. rewrite Hq. cbn [negb]. rewrite Hget.
  cbn [fst snd services qdrant screen sleeps disk temp_path].
  rewrite Ht. now rewrite Hq.
Qed.

(** The lookup fails with any other description: the collection is
    created with the model's dimension. *)
Lemma ensure_creates (silent : bool) (w : world E) (err : string)
    (vector_size : Z) (e1 e2 e3 : E) :
  qdrant w = true ->
  get_collection COLLECTION_NAME (services w) = (Raise err, e1) ->
  App.is_timeout (Py.lower err) = false ->
  get_sentence_embedding_dimension e1 = (Ok vector_size, e2) ->
  create_collection COLLECTION_NAME vector_size e2 = (Ok tt, e3) ->
  App.ensure_collection_exists silent w
  = (Ok true, World e3 (qdrant w) (screen w) (sleeps w) (disk w)
                    (temp_path w)).
Proof.
  intros Hq Hget Ht Hdim Hcreate.
  unfold App.ensure_collection_exists, App.get_vector_size.
  unfold_effects. rewrite Hq. cbn [negb]. rewrite Hget.
  cbn [fst snd services qdrant screen sleeps disk temp_path].
  rewrite Ht.
  cbn [fst snd services qdrant screen sleeps disk temp_path].
  rewrite Hdim.
  cbn [fst snd services qdrant screen sleeps disk temp_path].
  rewrite Hcreate. now rewrite Hq.
Qed.

(** Whatever the creation answers, [True] is returned, in the state the
    creation left. *)
Lemma ensure_tries_creation (silent : bool) (w : world E) (err : string)
    (vector_size : Z) (e1 e2 e3 : E) (created : result unit) :
  qdrant w = true ->
  get_collection COLLECTION_NAME (services w) = (Raise err, e1) ->
  App.is_timeout (Py.lower err) = false ->
  get_sentence_embedding_dimension e1 = (Ok vector_size, e2) ->
  create_collection COLLECTION_NAME vector_size e2 = (created, e3) ->
  exists w1,
    App.ensure_collection_exists silent w = (Ok true, w1)
    /\ services w1 = e3.
Proof.
  intros Hq Hget Ht Hdim Hcreate.
  unfold App.ensure_collection_exists, App.get_vector_size.
  unfold_effects. rewrite Hq. cbn [negb]. rewrite Hget.
  cbn [fst snd services qdrant screen sleeps disk temp_path].
  rewrite Ht.
  cbn [fst snd services qdrant screen sleeps disk temp_path].
  rewrite Hdim.
  cbn [fst snd services qdrant screen sleeps disk temp_path].
  rewrite Hcreate. destruct created as [[]|ce];
    cbn [fst snd services qdrant screen sleeps disk temp_path].
  - eexists. split; reflexivity.
  - repeat match goal with
           | |- context [if ?b then _ else _] => destruct b
           end;
      cbn [fst snd services qdrant screen sleeps disk temp_path];
      eexists; split; reflexivity.
Qed.

(** After [ensure_collection_exists] has returned [True]: what the query
    of the store gives decides what is shown. *)
Lemma search_after_ensure (query : string) (w w1 : world E) (qvec : V)
    (e2 e3 : E) (r : result (list (point V))) :
  App.non_blank query = true ->
  App.ensure_collection_exists false w = (Ok true, w1) ->
  encode true query (services w1) = (Ok qvec, e2) ->
  query_points COLLECTION_NAME qvec MAX_SEARCH_RESULTS e2 = (r, e3) ->
  let queried := World e3 (qdrant w1) (screen w1) (sleeps w1) (disk w1)
                       (temp_path w1) in
  (r = Ok [] ->
   App.search query w
   = (Ok tt, shown (StWarning App.no_results_warning) queried))
  /\ (forall e, r = Raise e ->
      App.search query w
      = (Ok tt, shown (StError ("Error during search: " +++ e)) queried)).
Proof.
  intros Hnb Hens Henc Hquery queried. subst queried.
  split; [intros -> | intros e ->];
    unfold App.search, App.embed; rewrite Hnb; cbn [negb];
    unfold try_except at 1; unfold bind at 1; rewrite Hens; cbn [negb];
    unfold bind at 1; unfold call at 1; rewrite Henc;
    unfold bind at 1; unfold call at 1;
    cbn [fst snd services qdrant screen sleeps disk temp_path];
    rewrite Hquery; reflexivity.
Qed.

End GatewayFacts.

(** C10.  With a client handle, [ensure_collection_exists] ends and
    returns [True] on every path, whatever the store and the model answer,
    and never raises; it returns [False] exactly when the handle is absent.
    [True] is returned when the existence check times out, when creation
    fails with "already exists", and when creation fails for good, in
    which case the collection still does not exist. *)
Theorem C10_ensure_collection_exists_always_true :
  (forall (E V : Type) (C : Collaborators E V) (silent : bool)
          (w : world E),
     (qdrant w = true ->
      exists w', App.ensure_collection_exists silent w = (Ok true, w'))
     /\ (qdrant w = false ->
         App.ensure_collection_exists silent w = (Ok false, w))
     /\ (forall w', App.ensure_collection_exists silent w = (Ok false, w')
                    -> qdrant w = false)
     /\ (forall e w', App.ensure_collection_exists silent w
                      <> (Raise e, w')))
  /\ fst (App.ensure_collection_exists false
            (Sim.session (Sim.with_get_faults [Some "Read timeout"]
                            Sim.fresh))) = Ok true
  /\ fst (App.ensure_collection_exists false
            (Sim.session
               (Sim.with_get_faults [Some "502 Bad Gateway"]
                  (Sim.with_collection (Some []) Sim.fresh)))) = Ok true
  /\ (let run := App.ensure_collection_exists true
                   (Sim.session (Sim.with_create_faults [Some "Forbidden"]
                                   Sim.fresh)) in
      fst run = Ok true /\ Sim.collection (services (snd run)) = None).
Proof.
  split; [|repeat split; vm_compute; reflexivity].
  intros E V C silent w.
  assert (Htrue : qdrant w = true ->
                  exists w', App.ensure_collection_exists silent w
                             = (Ok true, w')).
  { intros Hq.
    destruct (ensure_collection_exists_true silent w Hq) as (w' & Hw & _).
    now exists w'. }
  split; [exact Htrue|]. split; [apply ensure_collection_exists_no_client|].
  split.
  - intros w' Hrun. destruct (qdrant w) eqn:Hq; [|reflexivity].
    destruct (Htrue eq_refl) as (w1 & Hw1). congruence.
  - intros e w' Hrun. destruct (qdrant w) eqn:Hq.
    + destruct (Htrue eq_refl) as (w1 & Hw1). congruence.
    + rewrite (ensure_collection_exists_no_client silent w Hq) in Hrun.
      discriminate.
Qed.

(** C6 (as amended).  Pressing search never raises.  With a client handle
    the "Collection doesn't exist" warning is never among what is shown;
    for a query that is not blank it is shown exactly when the handle is
    absent, and a query of whitespace only gets "Please enter a
    question!".  With a handle [ensure_collection_exists] returns [True].
    When the lookup does not find the collection: if the lookup's failure
    mentions a timeout, a handshake or ssl (the collection's name is part
    of the failure's text), [True] is returned at once and nothing is
    created; otherwise, given the model's dimension, the creation is
    tried, and [True] is returned whatever it answers.  Once
    [ensure_collection_exists] has returned, the query of the store
    decides: no hit shows "No results found. Please upload a document
    first.", and a failure of the query (as when the collection could not
    be created) is shown as "Error during search: ...".  So when the
    lookup's failure is of the second kind, the creation succeeds and the
    query finds nothing, the "No results found" warning is all that is
    shown; the simulated store without its collection is such a case, and
    ends with the collection created, empty. *)
Theorem C6_search_on_missing_collection :
  (forall (E V : Type) (C : Collaborators E V) (query : string)
          (w : world E),
     (exists w', App.search query w = (Ok tt, w'))
     /\ (qdrant w = true ->
         exists w' shown_, App.search query w = (Ok tt, w')
           /\ screen w' = screen w ++ shown_
           /\ ~ In (StWarning App.no_collection_warning) shown_)
     /\ (qdrant w = false -> App.non_blank query = true ->
         App.search query w
         = (Ok tt, shown (StWarning App.no_collection_warning) w))
     /\ (query <> EmptyString -> App.non_blank query = false ->
         App.search query w
         = (Ok tt, shown (StWarning "Please enter a question!") w))
     /\ (qdrant w = true ->
         exists w1, App.ensure_collection_exists false w = (Ok true, w1))
     /\ (forall err e1,
           qdrant w = true ->
           get_collection COLLECTION_NAME (services w) = (Raise err, e1) ->
           (App.is_timeout (Py.lower err) = true ->
            App.ensure_collection_exists false w
            = (Ok true, World e1 (qdrant w) (screen w) (sleeps w) (disk w)
                              (temp_path w)))
           /\ (App.is_timeout (Py.lower err) = false ->
               forall vector_size e2 created e3,
                 get_sentence_embedding_dimension e1
                 = (Ok vector_size, e2) ->
                 create_collection COLLECTION_NAME vector_size e2
                 = (created, e3) ->
                 (exists w1,
                    App.ensure_collection_exists false w = (Ok true, w1)
                    /\ services w1 = e3)
                 /\ (created = Ok tt ->
                     App.ensure_collection_exists false w
                     = (Ok true, World e3 (qdrant w) (screen w) (sleeps w)
                                       (disk w) (temp_path w)))))
     /\ (forall w1 qvec e2 r e3,
           App.non_blank query = true ->
           App.ensure_collection_exists false w = (Ok true, w1) ->
           encode true query (services w1) = (Ok qvec, e2) ->
           query_points COLLECTION_NAME qvec MAX_SEARCH_RESULTS e2
           = (r, e3) ->
           let queried := World e3 (qdrant w1) (screen w1) (sleeps w1)
                                (disk w1) (temp_path w1) in
           (r = Ok [] ->
            App.search query w
            = (Ok tt, shown (StWarning App.no_results_warning) queried))
           /\ (forall e, r = Raise e ->
               App.search query w
               = (Ok tt, shown (StError ("Error during search: " +++ e))
                               queried)))
     /\ (forall err e1 vector_size e2 e3 qvec e4 e5,
           qdrant w = true -> App.non_blank query = true ->
           get_collection COLLECTION_NAME (services w) = (Raise err, e1) ->
           App.is_timeout (Py.lower err) = false ->
           get_sentence_embedding_dimension e1 = (Ok vector_size, e2) ->
           create_collection COLLECTION_NAME vector_size e2 = (Ok tt, e3) ->
           encode true query e3 = (Ok qvec, e4) ->
           query_points COLLECTION_NAME qvec MAX_SEARCH_RESULTS e4
           = (Ok [], e5) ->
           App.search query w
           = (Ok tt,
              World e5 (qdrant w)
                    (screen w ++ [StWarning App.no_results_warning])
                    (sleeps w) (disk w) (temp_path w))))
  /\ (forall (e : Sim.env) (query : string),
        Sim.collection e = None -> Sim.get_faults e = [] ->
        Sim.create_faults e = [] -> Sim.query_faults e = [] ->
        App.non_blank query = true ->
        let run := App.search query (Sim.session e) in
        fst run = Ok tt
        /\ screen (snd run) = [StWarning App.no_results_warning]
        /\ Sim.collection (services (snd run)) = Some []).
Proof.
  split.
  - intros E V C query w. split; [apply search_never_raises|].
    split; [apply search_with_client|].
    split; [|split; [|split; [|split; [|split]]]].
    + intros Hq Hnb. unfold App.search. rewrite Hnb. cbn [negb].
      unfold_effects.
      now rewrite (ensure_collection_exists_no_client false w Hq).
    + intros _ Hnb. unfold App.search. now rewrite Hnb.
    + intros Hq.
      destruct (ensure_collection_exists_true false w Hq) as (w1 & Hw1 & _).
      now exists w1.
    + intros err e1 Hq Hget. split.
      * intros Ht. now apply ensure_skips_creation with (err := err).
      * intros Ht vector_size e2 created e3 Hdim Hcreate. split.
        -- exact (ensure_tries_creation false w err vector_size e1 e2 e3
                    created Hq Hget Ht Hdim Hcreate).
        -- intros ->.
           now apply ensure_creates
             with (err := err) (vector_size := vector_size) (e1 := e1)
                  (e2 := e2).
    + intros w1 qvec e2 r e3 Hnb Hens Henc Hquery.
      exact (search_after_ensure query w w1 qvec e2 e3 r Hnb Hens Henc
                                 Hquery).
    + intros err e1 vector_size e2 e3 qvec e4 e5 Hq Hnb Hget Ht Hdim
             Hcreate Henc Hquery.
      pose proof (ensure_creates false w err vector_size e1 e2 e3 Hq Hget
                                 Ht Hdim Hcreate) as Hens.
      destruct (search_after_ensure query w _ qvec e4 e5 (Ok []) Hnb Hens
                                    Henc Hquery) as [Hnone _].
      exact (Hnone eq_refl).
  - intros [c gf cf uf qf ds cs tc] query; cbn.
    intros -> -> -> -> Hnb.
    unfold App.search. rewrite Hnb. cbn [negb]. repeat split.
Qed.

Lemma C6_witness :
  (exists w' shown_,
     App.search "what is in the report?" (Sim.session Sim.fresh)
     = (Ok tt, w')
     /\ screen w' = [] ++ shown_
     /\ ~ In (StWarning App.no_collection_warning) shown_)
  /\ fst (App.ensure_collection_exists false
            (Sim.session
               (Sim.with_get_faults
                  [Some "Not found: Collection `ssl_docs` doesn't exist!"]
                  Sim.fresh)))
     = Ok true
  /\ Sim.collection
       (services
          (snd (App.ensure_collection_exists false
                  (Sim.session
                     (Sim.with_get_faults
                        [Some "Not found: Collection `ssl_docs` doesn't exist!"]
                        Sim.fresh)))))
     = None
  /\ Sim.collection
       (services
          (snd (App.ensure_collection_exists false
                  (Sim.session Sim.fresh))))
     = Some []
  /\ screen (snd (App.search "what is in the report?"
                    (Sim.session (Sim.with_create_faults [Some "Forbidden"]
                                    Sim.fresh))))
     = [StError "Error ensuring collection exists: Forbidden";
        StError "Error during search: Not found: Collection `pdf_chunks` doesn't exist!"].
Proof.
  destruct C6_search_on_missing_collection as [Hgen _].
  split; [|split; [|split; [|split]]].
  - destruct (Hgen Sim.env Z _ "what is in the report?"
                   (Sim.session Sim.fresh)) as (_ & Hc & _).
    exact (Hc eq_refl).
  - destruct (Hgen Sim.env Z _ EmptyString
                   (Sim.session
                      (Sim.with_get_faults
                         [Some "Not found: Collection `ssl_docs` doesn't exist!"]
                         Sim.fresh)))
      as (_ & _ & _ & _ & _ & Hens & _).
    destruct (Hens "Not found: Collection `ssl_docs` doesn't exist!" _
                   eq_refl eq_refl) as [Hskip _].
    now rewrite (Hskip eq_refl).
  - destruct (Hgen Sim.env Z _ EmptyString
                   (Sim.session
                      (Sim.with_get_faults
                         [Some "Not found: Collection `ssl_docs` doesn't exist!"]
                         Sim.fresh)))
      as (_ & _ & _ & _ & _ & Hens & _).
    destruct (Hens "Not found: Collection `ssl_docs` doesn't exist!" _
                   eq_refl eq_refl) as [Hskip _].
    now rewrite (Hskip eq_refl).
  - destruct (Hgen Sim.env Z _ EmptyString (Sim.session Sim.fresh))
      as (_ & _ & _ & _ & _ & Hens & _).
    destruct (Hens Sim.not_found _ eq_refl eq_refl) as [_ Hcreate].
    destruct (Hcreate eq_refl 384 _ _ _ eq_refl eq_refl) as [_ Hcreated].
    now rewrite (Hcreated eq_refl).
  - destruct (Hgen Sim.env Z _ "what is in the report?"
                   (Sim.session (Sim.with_create_faults [Some "Forbidden"]
                                   Sim.fresh)))
      as (_ & _ & _ & _ & _ & _ & Hquery & _).
    destruct (Hquery _ _ _ _ _ eq_refl eq_refl eq_refl eq_refl)
      as [_ Hfail].
    now rewrite (Hfail _ eq_refl).
Defined.

(** C6 as stated fails: on a healthy store without the collection the
    search shows the "No results found" warning, not the "Collection
    doesn't exist" one; and when the collection cannot be created the
    query's own failure is shown as an error. *)
Lemma C6_counterexample :
  screen (snd (App.search "what is in the report?"
                          (Sim.session Sim.fresh)))
  = [StWarning "No results found. Please upload a document first."]
  /\ screen (snd (App.search "what is in the report?"
                             (Sim.session Sim.fresh)))
     <> [StWarning App.no_collection_warning]
  /\ screen (snd (App.search "what is in the report?"
                    (Sim.session (Sim.with_create_faults [Some "Forbidden"]
                                    Sim.fresh))))
     = [StError "Error ensuring collection exists: Forbidden";
        StError "Error during search: Not found: Collection `pdf_chunks` doesn't exist!"].
Proof. repeat split; vm_compute; try reflexivity; discriminate. Qed.

Lemma C10_witness :
  exists w', App.ensure_collection_exists true (Sim.session Sim.fresh)
             = (Ok true, w').
Proof.
  destruct C10_ensure_collection_exists_always_true as [Hgen _].
  destruct (Hgen Sim.env Z _ true (Sim.session Sim.fresh)) as (Ht & _).
  exact (Ht eq_refl).
Defined.

(** ** extract_text_from_file on the legacy extensions *)

Section ExtractorFacts.
Context {E V : Type} `{Collaborators E V}.

Lemma extract_doc (file_path ext : string) (w : world E) :
  Py.lower ext = ".doc" ->
  App.extract_text_from_file file_path ext w
  = match disk w !! file_path with
    | Some bytes =>
        match DocxDocument bytes with
        | Ok doc => (Ok (Py.join nl (List.filter App.non_blank doc),
                         Py.len doc), w)
        | Raise e => (Raise (App.word_error e), w)
        end
    | None => (Raise (App.word_error (errno2 file_path)), w)
    end.
Proof.
  intros Hext. unfold App.extract_text_from_file. rewrite Hext.
  change (String.eqb ".doc" ".pdf") with false.
  change (Py.in_list ".doc" [".docx"; ".doc"]) with true. cbn iota.
  unfold App.open_with, read_bytes. unfold_effects.
  destruct (disk w !! file_path) as [bytes|]; [|reflexivity].
  now destruct (DocxDocument bytes).
Qed.

(** What the .pptx/.ppt branch raises for a .ppt file, given the message
    of the failure it caught. *)
Lemma extract_ppt (file_path ext : string) (w : world E) :
  Py.lower ext = ".ppt" ->
  let failure error_msg :=
    if Py.contains "Package not found" error_msg
       || Py.contains "not a zip file" (Py.lower error_msg)
    then App.invalid_pptx_error error_msg
    else App.legacy_ppt_error error_msg in
  App.extract_text_from_file file_path ext w
  = match disk w !! file_path with
    | None => (Raise (failure ("File not found at path: " +++ file_path)), w)
    | Some EmptyString =>
        (Raise (failure "PowerPoint file is empty or corrupted"), w)
    | Some bytes =>
        match Presentation bytes with
        | Ok prs =>
            let text_runs := flat_map (flat_map App.shape_runs) prs in
            (Ok (if Py.truthy text_runs then Py.join nl text_runs
                 else EmptyString, Py.len prs), w)
        | Raise e => (Raise (failure e), w)
        end
    end.
Proof.
  intros Hext failure. unfold App.extract_text_from_file. rewrite Hext.
  change (String.eqb ".ppt" ".pdf") with false.
  change (Py.in_list ".ppt" [".docx"; ".doc"]) with false.
  change (Py.in_list ".ppt" [".pptx"; ".ppt"]) with true.
  change (String.eqb ".ppt" ".ppt") with true. cbn iota.
  unfold App.open_with, read_bytes, path_exists, getsize. unfold_effects.
  destruct (disk w !! file_path) as [bytes|] eqn:Hfile.
  - rewrite bool_decide_eq_true_2 by eauto. cbn [negb]. rewrite Hfile.
    destruct bytes as [|c bytes].
    + change (Z.of_nat (String.length EmptyString) =? 0) with true. cbn [negb].
      subst failure. cbn [negb]. now destruct (_ || _).
    + replace (Z.of_nat (String.length (String c bytes)) =? 0) with false
        by (symmetry; apply Z.eqb_neq; cbn [String.length]; lia).
      cbn [negb]. rewrite Hfile.
      destruct (Presentation (String c bytes)) as [prs|e]; cbn [negb].
      * now destruct (Py.truthy _).
      * subst failure. cbn [negb]. now destruct (_ || _).
  - rewrite bool_decide_eq_false_2 by (intros [? ?]; discriminate).
    cbn [negb]. subst failure. cbn [negb]. now destruct (_ || _).
Qed.

End ExtractorFacts.

(** C8 (as amended).  A .doc or .ppt document is first handed to the
    parser of the modern format.  For .doc: the paragraphs are returned
    when the parse succeeds, and an error advising conversion to .docx is
    raised when it fails.  For .ppt: the slide texts are returned when the
    file exists, is not empty and parses; otherwise the failure is raised
    as the "Legacy .ppt format ... Please convert to .pptx" error, unless
    its message says "Package not found" or "not a zip file", in which
    case it is raised as the "Invalid PowerPoint file" error. *)
Theorem C8_legacy_extensions_are_parsed_first {E V : Type}
    `{Collaborators E V} (file_path ext : string) (w : world E) :
  (Py.lower ext = ".doc" ->
   App.extract_text_from_file file_path ext w
   = match disk w !! file_path with
     | Some bytes =>
         match DocxDocument bytes with
         | Ok doc => (Ok (Py.join nl (List.filter App.non_blank doc),
                          Py.len doc), w)
         | Raise e => (Raise (App.word_error e), w)
         end
     | None => (Raise (App.word_error (errno2 file_path)), w)
     end)
  /\ (Py.lower ext = ".ppt" ->
      let failure error_msg :=
        if Py.contains "Package not found" error_msg
           || Py.contains "not a zip file" (Py.lower error_msg)
        then App.invalid_pptx_error error_msg
        else App.legacy_ppt_error error_msg in
      App.extract_text_from_file file_path ext w
      = match disk w !! file_path with
        | None =>
            (Raise (failure ("File not found at path: " +++ file_path)), w)
        | Some EmptyString =>
            (Raise (failure "PowerPoint file is empty or corrupted"), w)
        | Some bytes =>
            match Presentation bytes with
            | Ok prs =>
                let text_runs := flat_map (flat_map App.shape_runs) prs in
                (Ok (if Py.truthy text_runs then Py.join nl text_runs
                     else EmptyString, Py.len prs), w)
            | Raise e => (Raise (failure e), w)
            end
        end).
Proof. split; [apply extract_doc | apply extract_ppt]. Qed.

Lemma C8_witness :
  App.extract_text_from_file "/tmp/minutes.DOC" ".DOC"
    (Sim.with_file "/tmp/minutes.DOC" "not a package"
       (Sim.session Sim.fresh))
  = (Raise (App.word_error "Package not found at '/tmp/doc'"),
     Sim.with_file "/tmp/minutes.DOC" "not a package"
       (Sim.session Sim.fresh)).
Proof.
  exact (proj1 (C8_legacy_extensions_are_parsed_first
                  "/tmp/minutes.DOC" ".DOC"
                  (Sim.with_file "/tmp/minutes.DOC" "not a package"
                     (Sim.session Sim.fresh))) eq_refl).
Defined.

(** C8 as stated fails: a .doc and a .ppt file whose bytes parse are
    extracted, not refused; and a .ppt file that is no package at all is
    refused as an invalid PowerPoint file, with no advice to convert. *)
Lemma C8_counterexample :
  fst (App.extract_text_from_file "/tmp/minutes.doc" ".doc"
         (Sim.with_file "/tmp/minutes.doc" "PKMinutes of the meeting"
            (Sim.session Sim.fresh)))
  = Ok ("Minutes of the meeting", 1)
  /\ fst (App.extract_text_from_file "/tmp/deck.ppt" ".ppt"
            (Sim.with_file "/tmp/deck.ppt" "PKFirst slide"
               (Sim.session Sim.fresh)))
     = Ok ("First slide", 1)
  /\ fst (App.extract_text_from_file "/tmp/deck.ppt" ".ppt"
            (Sim.with_file "/tmp/deck.ppt" "an old binary deck"
               (Sim.session Sim.fresh)))
     = Raise (App.invalid_pptx_error "Package not found at '/tmp/doc'")
  /\ Py.contains "convert"
       (Py.lower (App.invalid_pptx_error "Package not found at '/tmp/doc'"))
     = false.
Proof. repeat split; vm_compute; reflexivity. Qed.

(** ** The upload flow and the staged file *)

Section UploadFacts.
Context {E V : Type} `{Collaborators E V}.

(** Pressing "Upload & Ingest" never raises. *)
Lemma upload_never_raises (src : App.file_source) (filename : string)
    (w : world E) :
  exists w', App.upload_and_ingest src filename w = (Ok tt, w').
Proof.
  unfold App.upload_and_ingest. unfold try_except at 1.
  match goal with |- context [match ?body w with _ => _ end] =>
    destruct (body w) as [[[]|e] w1] end; [eauto|].
  unfold get_temp_path, unlink. unfold_effects. cbn.
  destruct (temp_path w1) as [path|]; [|eauto].
  destruct (Py.str_truthy path); [|eauto].
  cbn. destruct (disk w1 !! path); eauto.
Qed.

(** A text file with nothing but whitespace: the flow reports that no
    text could be extracted and returns with the staged file still on
    disk. *)
Lemma upload_blank_text_file (name bytes filename : string) (w : world E) :
  Py.lower (Py.splitext_ext name) = ".txt" ->
  App.non_blank (read_text bytes) = false ->
  let tmp := fst (temp_name (Py.splitext_ext name) (services w)) in
  exists w',
    App.upload_and_ingest (App.FromUpload name bytes) filename w
    = (Ok tt, w')
    /\ disk w' !! tmp = Some bytes
    /\ temp_path w' = Some tmp
    /\ screen w'
       = screen w
         ++ [StError "No text could be extracted from the Text File."].
Proof.
  intros Hext Hblank tmp. subst tmp.
  unfold App.upload_and_ingest, App.stage_upload.
  unfold write_bytes, set_temp_path. unfold_effects.
  cbn [fst snd services qdrant screen sleeps disk temp_path negb].
  destruct (temp_name (Py.splitext_ext name) (services w)) as [tmp e1].
  cbn [fst snd services qdrant screen sleeps disk temp_path negb].
  unfold App.extract_text_from_file. rewrite Hext.
  change (String.eqb ".txt" ".pdf") with false.
  change (Py.in_list ".txt" [".docx"; ".doc"]) with false.
  change (Py.in_list ".txt" [".pptx"; ".ppt"]) with false.
  change (String.eqb ".txt" ".txt") with true.
  replace (default "Document" (App.file_type_names !! ".txt"))
    with "Text File" by (vm_compute; reflexivity).
  unfold read_bytes. unfold_effects.
  cbn [fst snd services qdrant screen sleeps disk temp_path negb].
  rewrite insert_insert_eq, lookup_insert_eq.
  cbn [fst snd services qdrant screen sleeps disk temp_path negb].
  rewrite Hblank. cbn [negb].
  eexists. split; [reflexivity|].
  cbn [shown fst snd services qdrant screen sleeps disk temp_path].
  rewrite lookup_insert_eq. repeat split.
Qed.

End UploadFacts.

(** C9.  The upload flow on a text file that holds only whitespace (the
    empty-extraction exit): the flow shows "No text could be extracted",
    returns normally, and the file it staged is still on disk; nothing on
    this path deletes it, where the success path and the exception path
    both do. *)
Theorem C9_empty_extraction_leaves_staged_file {E V : Type}
    `{Collaborators E V} (name bytes filename : string) (w : world E) :
  Py.lower (Py.splitext_ext name) = ".txt" ->
  App.non_blank (read_text bytes) = false ->
  exists w',
    App.upload_and_ingest (App.FromUpload name bytes) filename w
    = (Ok tt, w')
    /\ disk w' !! fst (temp_name (Py.splitext_ext name) (services w))
       = Some bytes
    /\ screen w'
       = screen w
         ++ [StError "No text could be extracted from the Text File."].
Proof.
  intros Hext Hblank.
  destruct (upload_blank_text_file name bytes filename w Hext Hblank)
    as (w' & Hrun & Hdisk & _ & Hscreen).
  now exists w'.
Qed.

Lemma C9_witness :
  exists w',
    App.upload_and_ingest (App.FromUpload "notes.txt" "   ") "notes.txt"
                          (Sim.session Sim.fresh)
    = (Ok tt, w')
    /\ disk w' !! "/tmp/tmp0.txt" = Some "   "
    /\ screen w'
       = [StError "No text could be extracted from the Text File."].
Proof.
  exact (C9_empty_extraction_leaves_staged_file
           "notes.txt" "   " "notes.txt" (Sim.session Sim.fresh)
           eq_refl eq_refl).
Defined.

(** The two sibling exits do delete the staged file: a successful
    ingestion, and one whose upsert fails for good. *)
Example upload_other_exits_delete_staged_file :
  disk (snd (App.upload_and_ingest (App.FromUpload "notes.txt" "hello")
                                   "notes.txt" (Sim.session Sim.fresh)))
  = ∅
  /\ disk (snd (App.upload_and_ingest
                  (App.FromUpload "notes.txt" "hello") "notes.txt"
                  (Sim.session
                     (Sim.with_upsert_faults
                        [Some "Invalid payload schema";
                         Some "Invalid payload schema";
                         Some "Invalid payload schema"] Sim.fresh))))
     = ∅.
Proof. split; vm_compute; reflexivity. Qed.

(** ** Point ids *)

Section IdFacts.
Context {E V : Type} `{Collaborators E V}.

(** app.py: each new point's id is what [randint(1_000_000_000)] returned
    for it. *)
Lemma build_points_ids_in_range :
  (forall high e, 0 < high -> 0 <= fst (randint high e) < high) ->
  forall (chunks : list string) (i total : Z) (points ps : list (point V))
         (w w' : world E),
    App.build_points i total chunks points w = (Ok ps, w') ->
    exists new, ps = points ++ new /\ length new = length chunks
                /\ Forall id_in_range new.
Proof.
  intros Hrand. induction chunks as [|chunk rest IH];
    intros i total points ps w w' Hrun.
  - cbn in Hrun. unfold ret in Hrun. injection Hrun as <- _.
    exists []. now rewrite app_nil_r.
  - cbn [App.build_points] in Hrun. unfold App.embed in Hrun.
    unfold_effects.
    destruct (encode true chunk (services w)) as [[vec|e] e1];
      [|discriminate].
    cbn [fst snd services qdrant screen sleeps disk temp_path] in Hrun.
    pose proof (Hrand 1000000000 e1 ltac:(lia)) as Hid.
    destruct (randint 1000000000 e1) as [id e2].
    cbn [fst snd services qdrant screen sleeps disk temp_path] in Hrun, Hid.
    destruct (IH _ _ _ _ _ _ Hrun) as (new & -> & Hlen & Hall).
    exists (Point id vec {["text" := chunk]} :: new).
    rewrite <- app_assoc. split; [reflexivity|]. split; [cbn; lia|].
    constructor; [exact Hid | exact Hall].
Qed.

(** ingest.py: each point's id is its position in the chunk list. *)
Lemma enumerate_points_ids (chunks : list string) :
  forall (idx : Z) (points ps : list (point V)) (w w' : world E),
    Ingest.enumerate_points idx chunks points w = (Ok ps, w') ->
    map point_id ps
    = map point_id points
      ++ map (fun k => idx + Z.of_nat k) (seq 0 (length chunks)).
Proof.
  induction chunks as [|chunk rest IH]; intros idx points ps w w' Hrun.
  - cbn in Hrun. unfold ret in Hrun. injection Hrun as <- _.
    cbn. now rewrite app_nil_r.
  - cbn [Ingest.enumerate_points] in Hrun. unfold Ingest.embed in Hrun.
    unfold_effects.
    destruct (encode false chunk (services w)) as [[vec|e] e1];
      [|discriminate].
    rewrite (IH _ _ _ _ _ Hrun), map_app, <- app_assoc.
    f_equal. cbn [length seq map point_id app]. f_equal; [lia|].
    rewrite <- seq_shift, map_map.
    apply map_ext. intros k. lia.
Qed.

End IdFacts.

Lemma sim_randint_in_range (high : Z) (e : Sim.env) :
  0 < high -> 0 <= fst (randint high e) < high.
Proof. intros Hhigh. cbn. now apply Z.mod_pos_bound. Qed.

(** In the simulated environment the upload tab's ids are exactly the next
    draws of the generator. *)
Lemma sim_build_points_ids (chunks : list string) :
  forall (ids later : list Z) (i total : Z) (points : list (point Z))
         (w : world Sim.env),
    length ids = length chunks ->
    Forall (fun id => 0 <= id < 1000000000) ids ->
    Sim.draws (services w) = ids ++ later ->
    exists ps w',
      App.build_points i total chunks points w = (Ok ps, w')
      /\ map point_id ps = map point_id points ++ ids.
Proof.
  induction chunks as [|chunk rest IH];
    intros ids later i total points w Hlen Hrange Hdraws.
  - destruct ids; [|discriminate]. exists points, w.
    split; [reflexivity | now rewrite app_nil_r].
  - destruct ids as [|id ids]; [discriminate|].
    apply Forall_cons in Hrange as [Hid Hrange].
    cbn [App.build_points]. unfold App.embed. unfold_effects.
    cbn [encode randint Sim.sim_collaborators Sim.sim_randint fst snd
         services qdrant screen sleeps disk temp_path].
    rewrite Hdraws. cbn [hd tail app]. rewrite (Z.mod_small id) by exact Hid.
    edestruct (IH ids later) as (ps & w' & Hrun & Hids);
      [now injection Hlen | exact Hrange | |rewrite Hrun].
    + cbn. reflexivity.
    + exists ps, w'. split; [reflexivity|].
      rewrite Hids, map_app, <- app_assoc. reflexivity.
Qed.

Lemma sim_enumerate_points_total (chunks : list string) :
  forall (idx : Z) (points : list (point Z)) (w : world Sim.env),
    exists ps, Ingest.enumerate_points idx chunks points w = (Ok ps, w).
Proof.
  induction chunks as [|chunk rest IH]; intros idx points w.
  - now exists points.
  - cbn [Ingest.enumerate_points]. unfold Ingest.embed. unfold_effects.
    cbn [encode Sim.sim_collaborators].
    destruct (IH (idx + 1)
                 (points ++ [Point idx (Z.of_nat (String.length chunk))
                                   {["text" := chunk]}])
                 (World (services w) (qdrant w) (screen w) (sleeps w)
                        (disk w) (temp_path w))) as (ps & Hrun).
    rewrite Hrun. exists ps. now destruct w.
Qed.

(** C7 (as amended).  In the upload tab each point id is the value that
    [np.random.randint(1_000_000_000)] returned for that chunk: it lies in
    [0, 10^9) when the generator keeps its contract, and it does not
    depend on the chunk's position (any sequence of ids in that range
    comes out of some generator state).  In ingest.py's [store_chunks] the
    id of a chunk is
    its position in the chunk list, whatever the environment. *)
Theorem C7_point_ids :
  (forall (E V : Type) (C : Collaborators E V),
     (forall high e, 0 < high -> 0 <= fst (randint high e) < high) ->
     forall (chunks : list string) (ps : list (point V)) (w w' : world E),
       App.build_points 0 (Py.len chunks) chunks [] w = (Ok ps, w') ->
       length ps = length chunks /\ Forall id_in_range ps)
  /\ (forall (chunks : list string) (ids : list Z),
        length ids = length chunks ->
        Forall (fun id => 0 <= id < 1000000000) ids ->
        exists ps w',
          App.build_points 0 (Py.len chunks) chunks []
                           (Sim.session (Sim.with_draws ids Sim.fresh))
          = (Ok ps, w')
          /\ map point_id ps = ids)
  /\ (forall (E V : Type) (C : Collaborators E V) (chunks : list string)
             (ps : list (point V)) (w w' : world E),
        Ingest.enumerate_points 0 chunks [] w = (Ok ps, w') ->
        map point_id ps = Py.range (Py.len chunks))
  /\ (forall (chunks : list string) (w : world Sim.env),
        exists ps,
          Ingest.enumerate_points 0 chunks [] w = (Ok ps, w)
          /\ map point_id ps = Py.range (Py.len chunks)).
Proof.
  assert (Hpos : forall (E V : Type) (C : Collaborators E V)
                        (chunks : list string) (ps : list (point V))
                        (w w' : world E),
             Ingest.enumerate_points 0 chunks [] w = (Ok ps, w') ->
             map point_id ps = Py.range (Py.len chunks)).
  { intros E V C chunks ps w w' Hrun.
    rewrite (enumerate_points_ids chunks 0 [] ps w w' Hrun).
    unfold Py.range, Py.len. now rewrite Nat2Z.id. }
  split; [|split; [|split]].
  - intros E V C Hrand chunks ps w w' Hrun.
    destruct (build_points_ids_in_range Hrand _ _ _ _ _ _ _ Hrun)
      as (new & -> & Hlen & Hall).
    split; [exact Hlen | exact Hall].
  - intros chunks ids Hlen Hrange.
    destruct (sim_build_points_ids chunks ids [] 0 (Py.len chunks) []
                (Sim.session (Sim.with_draws ids Sim.fresh)) Hlen Hrange)
      as (ps & w' & Hrun & Hids).
    + cbn. now rewrite app_nil_r.
    + now exists ps, w'.
  - exact Hpos.
  - intros chunks w.
    destruct (sim_enumerate_points_total chunks 0 [] w) as (ps & Hrun).
    exists ps. split; [exact Hrun|]. exact (Hpos _ _ _ _ _ _ _ Hrun).
Qed.

Lemma C7_witness :
  (exists ps w',
     App.build_points 0 2 ["first chunk"; "second chunk"] []
       (Sim.session (Sim.with_draws [731245908; 12] Sim.fresh))
     = (Ok ps, w')
     /\ map point_id ps = [731245908; 12])
  /\ (forall ps w',
        App.build_points 0 2 ["first chunk"; "second chunk"] []
          (Sim.session (Sim.with_draws [-4; 5000000000] Sim.fresh))
        = (Ok ps, w') ->
        length ps = 2%nat /\ Forall id_in_range ps).
Proof.
  destruct C7_point_ids as (Hrange & Hany & _). split.
  - apply (Hany ["first chunk"; "second chunk"] [731245908; 12] eq_refl).
    repeat constructor; lia.
  - intros ps w'.
    apply (Hrange Sim.env Z _ sim_randint_in_range
                  ["first chunk"; "second chunk"]).
Defined.

(** C7 as stated fails on ingest.py: two ingestions of the same two chunks,
    under different generator states, both store the ids 0 and 1; the
    upload tab stores what the generator drew. *)
Lemma C7_counterexample :
  option_map (map point_id)
    (Sim.collection (services (snd
       (Ingest.store_chunks ["first chunk"; "second chunk"]
          (Sim.session (Sim.with_draws [731245908; 12]
                          (Sim.with_collection (Some []) Sim.fresh)))))))
  = Some [0; 1]
  /\ option_map (map point_id)
       (Sim.collection (services (snd
          (Ingest.store_chunks ["first chunk"; "second chunk"]
             (Sim.session (Sim.with_draws [5; 99]
                             (Sim.with_collection (Some []) Sim.fresh)))))))
     = Some [0; 1].
Proof. split; vm_compute; reflexivity. Qed.

(* ===================================================================== *)
(** * Part III: further properties of the code                            *)
(* ===================================================================== *)

(** ** The chunkers: lengths, overlap, divergence, whitespace *)

Lemma nth_error_multiples (step : Z) (m k j : nat) (s : Z) :
  nth_error (Spec.multiples step j m) k = Some s ->
  (k < m)%nat /\ s = Z.of_nat (j + k) * step.
Proof.
  unfold Spec.multiples. revert k j.
  induction m as [|m IH]; intros k j Hk; [destruct k; discriminate|].
  destruct k as [|k]; cbn in Hk.
  - injection Hk as <-. split; [lia|]. f_equal. lia.
  - destruct (IH k (S j) Hk) as [Hlt ->]. split; [lia|]. f_equal. lia.
Qed.

Lemma nth_error_chunks {A : Type} (T : list A) (size overlap : Z) (k : nat)
    (c : list A) :
  0 < size -> 0 <= overlap < size ->
  nth_error (Spec.chunks T size overlap) k = Some c ->
  Z.of_nat k * (size - overlap) < Py.len T
  /\ c = take (Z.to_nat size)
              (drop (Z.to_nat (Z.of_nat k * (size - overlap))) T).
Proof.
  intros Hsize Hov Hk.
  rewrite (chunks_as_windows T size overlap Hsize Hov) in Hk.
  rewrite nth_error_map in Hk.
  destruct (nth_error (Spec.multiples _ _ _) k) as [s|] eqn:Hs;
    [|discriminate].
  injection Hk as <-.
  destruct (nth_error_multiples _ _ _ _ _ Hs) as [Hlt ->].
  destruct (n_bounds T size overlap Hsize Hov) as [[Hlo _] _].
  split; [cbn [Nat.add]; nia|].
  unfold Spec.window. cbn [Nat.add]. now rewrite slice_window by nia.
Qed.

(** X1.  For valid parameters, the [k]-th chunk of the upload tab's
    chunker holds [min(size, len(text) - k * (size - overlap))]
    characters; in particular no chunk is empty and none is longer than
    [size]. *)
Theorem X1_chunk_lengths {A : Type} (T : list A) (size overlap : Z)
    (cs : list (list A)) (k : nat) (c : list A) :
  0 < size -> 0 <= overlap < size ->
  App.chunker T size overlap = Some cs ->
  nth_error cs k = Some c ->
  Py.len c = Z.min size (Py.len T - Z.of_nat k * (size - overlap))
  /\ 0 < Py.len c <= size.
Proof.
  intros Hsize Hov Hrun Hk. unfold App.chunker in Hrun.
  rewrite (chunk_loop_total T size overlap Hsize Hov) in Hrun by lia.
  injection Hrun as <-.
  destruct (nth_error_chunks T size overlap k c Hsize Hov Hk) as [Hlt ->].
  assert (0 <= Z.of_nat k * (size - overlap)) by nia.
  unfold Py.len in *. rewrite length_take, length_drop. lia.
Qed.

Lemma X1_witness :
  Py.len (list_ascii_of_string "gh") = Z.min 5 (8 - 2 * (5 - 2))
  /\ 0 < Py.len (list_ascii_of_string "gh") <= 5.
Proof.
  exact (X1_chunk_lengths (list_ascii_of_string "abcdefgh") 5 2
           (map list_ascii_of_string ["abcde"; "defgh"; "gh"]) 2
           (list_ascii_of_string "gh")
           ltac:(lia) ltac:(lia) eq_refl eq_refl).
Defined.

(** X2.  For valid parameters, two consecutive chunks of the upload tab's
    chunker overlap: what a chunk holds from position [size - overlap] on
    is what the next chunk starts with (its first [overlap] characters). *)
Theorem X2_consecutive_chunks_overlap {A : Type} (T : list A)
    (size overlap : Z) (cs : list (list A)) (k : nat) (a b : list A) :
  0 < size -> 0 <= overlap < size ->
  App.chunker T size overlap = Some cs ->
  nth_error cs k = Some a -> nth_error cs (S k) = Some b ->
  drop (Z.to_nat (size - overlap)) a = take (Z.to_nat overlap) b.
Proof.
  intros Hsize Hov Hrun Ha Hb. unfold App.chunker in Hrun.
  rewrite (chunk_loop_total T size overlap Hsize Hov) in Hrun by lia.
  injection Hrun as <-.
  destruct (nth_error_chunks T size overlap k a Hsize Hov Ha) as [_ ->].
  destruct (nth_error_chunks T size overlap (S k) b Hsize Hov Hb) as [_ ->].
  rewrite skipn_firstn_comm, drop_drop, take_take.
  replace (Z.to_nat (Z.of_nat k * (size - overlap))
           + Z.to_nat (size - overlap))%nat
    with (Z.to_nat (Z.of_nat (S k) * (size - overlap))) by nia.
  f_equal. lia.
Qed.

Lemma X2_witness :
  drop (Z.to_nat (5 - 2)) (list_ascii_of_string "abcde")
  = take (Z.to_nat 2) (list_ascii_of_string "defgh").
Proof.
  exact (X2_consecutive_chunks_overlap (list_ascii_of_string "abcdefgh") 5 2
           (map list_ascii_of_string ["abcde"; "defgh"; "gh"]) 0
           (list_ascii_of_string "abcde") (list_ascii_of_string "defgh")
           ltac:(lia) ltac:(lia) eq_refl eq_refl eq_refl).
Defined.

(** X3.  When the overlap is not smaller than the chunk size, neither
    chunking loop ends on a non-empty text: [start] never moves forward,
    so no amount of fuel yields a result. *)
Theorem X3_chunking_diverges_without_progress {A : Type}
    (isspace : A -> bool) (T : list A) (size overlap : Z) (fuel : nat) :
  T <> [] -> size <= overlap ->
  App.chunk_loop fuel T size overlap 0 [] = None
  /\ Ingest.chunk_text_loop isspace fuel T size overlap 0 [] = None.
Proof.
  intros HT Hstep.
  assert (HL : 0 < Py.len T)
    by (destruct T; [congruence | unfold Py.len; cbn; lia]).
  split.
  - assert (Hloop : forall (start : Z) (acc : list (list A)),
               start <= 0 ->
               App.chunk_loop fuel T size overlap start acc = None).
    { induction fuel as [|fuel IH]; intros start acc Hstart;
        [reflexivity|]. cbn [App.chunk_loop].
      destruct (Z.ltb_spec start (Py.len T)); [apply IH; lia | lia]. }
    now apply Hloop.
  - assert (Hloop : forall (start : Z) (acc : list (list A)),
               start <= 0 ->
               Ingest.chunk_text_loop isspace fuel T size overlap start acc
               = None).
    { induction fuel as [|fuel IH]; intros start acc Hstart;
        [reflexivity|]. cbn [Ingest.chunk_text_loop].
      destruct (Z.ltb_spec start (Py.len T)); [apply IH; lia | lia]. }
    now apply Hloop.
Qed.

Lemma X3_witness :
  App.chunk_loop 1000 (list_ascii_of_string "abc") 100 100 0 [] = None
  /\ Ingest.chunk_text_loop Py.isspace 1000 (list_ascii_of_string "abc")
       100 100 0 [] = None.
Proof.
  exact (X3_chunking_diverges_without_progress Py.isspace
           (list_ascii_of_string "abc") 100 100 1000
           ltac:(discriminate) ltac:(lia)).
Defined.

(** *** Stripping *)

Lemma lstrip_head {A : Type} (sp : A -> bool) (l : list A) (x : A) :
  head (Py.lstrip sp l) = Some x -> sp x = false.
Proof.
  induction l as [|c l IH]; cbn; [discriminate|].
  destruct (sp c) eqn:Hc; [exact IH|]. cbn. now intros [= <-].
Qed.

Lemma lstrip_suffix {A : Type} (sp : A -> bool) (l : list A) :
  exists pre, l = pre ++ Py.lstrip sp l.
Proof.
  induction l as [|c l [pre IH]]; cbn; [now exists []|].
  destruct (sp c); [|now exists []].
  exists (c :: pre). cbn. now rewrite <- IH.
Qed.

Lemma lstrip_all_space {A : Type} (sp : A -> bool) (l : list A) :
  Forall (fun x => sp x = true) l -> Py.lstrip sp l = [].
Proof. induction 1 as [|c l Hc _ IH]; cbn; [reflexivity|now rewrite Hc]. Qed.

Lemma lstrip_no_space {A : Type} (sp : A -> bool) (l : list A) :
  Forall (fun x => sp x = false) l -> Py.lstrip sp l = l.
Proof. destruct 1 as [|c l Hc _]; cbn; [reflexivity|now rewrite Hc]. Qed.

Lemma strip_all_space {A : Type} (sp : A -> bool) (l : list A) :
  Forall (fun x => sp x = true) l -> Py.strip_list sp l = [].
Proof.
  intros Hl. unfold Py.strip_list. now rewrite (lstrip_all_space sp l Hl).
Qed.

Lemma strip_no_space {A : Type} (sp : A -> bool) (l : list A) :
  Forall (fun x => sp x = false) l -> Py.strip_list sp l = l.
Proof.
  intros Hl. unfold Py.strip_list. rewrite (lstrip_no_space sp l Hl).
  rewrite lstrip_no_space; [apply rev_involutive|].
  now apply Forall_rev.
Qed.

(** What [strip] returns is empty or trimmed. *)
Lemma strip_trimmed {A : Type} (sp : A -> bool) (l : list A) :
  Py.strip_list sp l <> [] -> Obs.trimmed sp (Py.strip_list sp l).
Proof.
  unfold Py.strip_list. set (m := Py.lstrip sp l).
  set (r := Py.lstrip sp (rev m)). intros Hne.
  assert (Hr : r <> []) by (intros Hr; apply Hne; now rewrite Hr).
  split; [exact Hne|]. split.
  - intros x Hx.
    destruct (lstrip_suffix sp (rev m)) as [pre Hpre]. fold r in Hpre.
    assert (Hlast : last r = Some x).
    { destruct (rev r) as [|y q] eqn:Hq; [discriminate|].
      cbn in Hx. injection Hx as ->.
      rewrite <- (rev_involutive r), Hq. cbn [rev]. apply last_snoc. }
    assert (Hlm : last (rev m) = Some x).
    { rewrite Hpre. apply last_Some in Hlast as [r0 ->].
      rewrite app_assoc. apply last_snoc. }
    destruct m as [|y m'] eqn:Hm.
    + cbn in Hlm. discriminate.
    + cbn [rev] in Hlm. rewrite last_snoc in Hlm. injection Hlm as ->.
      apply (lstrip_head sp l). fold m. now rewrite Hm.
  - intros x Hx. destruct r as [|y r'] eqn:Hr'; [congruence|].
    cbn [rev] in Hx. rewrite last_snoc in Hx. injection Hx as ->.
    apply (lstrip_head sp (rev m)). fold r. now rewrite Hr'.
Qed.

Lemma filter_strip_trimmed {A : Type} (sp : A -> bool)
    (ws : list (list A)) :
  Forall (Obs.trimmed sp)
         (List.filter Py.truthy (map (Py.strip_list sp) ws)).
Proof.
  induction ws as [|w ws IH]; cbn; [constructor|].
  destruct (Py.strip_list sp w) as [|x s] eqn:Hs; cbn; [exact IH|].
  constructor; [|exact IH]. rewrite <- Hs. apply strip_trimmed.
  now rewrite Hs.
Qed.

(** Every window is a non-empty stretch of the text. *)
Lemma chunks_are_stretches {A : Type} (T : list A) (size overlap : Z)
    (c : list A) :
  0 < size -> 0 <= overlap < size ->
  In c (Spec.chunks T size overlap) ->
  c <> [] /\ exists i j, c = take i (drop j T).
Proof.
  intros Hsize Hov Hin.
  destruct (In_nth_error _ _ Hin) as [k Hk].
  destruct (nth_error_chunks T size overlap k c Hsize Hov Hk) as [Hlt Hc].
  split; [|rewrite Hc; eauto].
  intros ->. apply (f_equal (@length A)) in Hc.
  rewrite length_take, length_drop in Hc. unfold Py.len in Hlt.
  assert (0 <= Z.of_nat k * (size - overlap)) by nia. cbn in Hc. lia.
Qed.

Lemma filter_map_unchanged {B : Type} (f : B -> B) (keep : B -> bool)
    (l : list B) :
  (forall x, In x l -> f x = x /\ keep x = true) ->
  List.filter keep (map f l) = l.
Proof.
  induction l as [|x l IH]; intros Hl; [reflexivity|]. cbn.
  destruct (Hl x (or_introl eq_refl)) as [-> ->].
  f_equal. apply IH. intros y Hy. apply Hl. now right.
Qed.

Lemma filter_map_emptied {B : Type} (f : list B -> list B)
    (l : list (list B)) :
  (forall x, In x l -> f x = []) ->
  List.filter Py.truthy (map f l) = [].
Proof.
  induction l as [|x l IH]; intros Hl; [reflexivity|]. cbn.
  rewrite (Hl x (or_introl eq_refl)). cbn. apply IH.
  intros y Hy. apply Hl. now right.
Qed.

(** X4.  For valid parameters, [chunk_text] never emits an empty chunk
    nor one that begins or ends with whitespace. *)
Theorem X4_chunk_text_chunks_are_trimmed {A : Type} (isspace : A -> bool)
    (T : list A) (size overlap : Z) (cs : list (list A)) :
  0 < size -> 0 <= overlap < size ->
  Ingest.chunk_text isspace T size overlap = Some cs ->
  Forall (Obs.trimmed isspace) cs.
Proof.
  intros Hsize Hov Hrun. unfold Ingest.chunk_text in Hrun.
  rewrite (chunk_text_loop_total T size overlap Hsize Hov) in Hrun by lia.
  injection Hrun as <-. apply filter_strip_trimmed.
Qed.

Lemma X4_witness :
  Forall (Obs.trimmed Py.isspace)
         (map list_ascii_of_string ["ab c"; "c  d"; "d"]).
Proof.
  exact (X4_chunk_text_chunks_are_trimmed Py.isspace
           (list_ascii_of_string " ab c  d ") 5 2
           (map list_ascii_of_string ["ab c"; "c  d"; "d"])
           ltac:(lia) ltac:(lia) eq_refl).
Defined.

(** X5.  On a text without any whitespace the two chunkers agree:
    [chunk_text] returns exactly the chunks of the upload tab's loop. *)
Theorem X5_chunkers_agree_without_whitespace {A : Type}
    (isspace : A -> bool) (T : list A) (size overlap : Z) :
  0 < size -> 0 <= overlap < size ->
  Forall (fun x => isspace x = false) T ->
  Ingest.chunk_text isspace T size overlap = App.chunker T size overlap.
Proof.
  intros Hsize Hov Hns. unfold Ingest.chunk_text, App.chunker.
  rewrite (chunk_text_loop_total T size overlap Hsize Hov) by lia.
  rewrite (chunk_loop_total T size overlap Hsize Hov) by lia.
  f_equal. apply filter_map_unchanged. intros c Hc.
  destruct (chunks_are_stretches T size overlap c Hsize Hov Hc)
    as (Hne & i & j & ->).
  rewrite strip_no_space by now apply Forall_take, Forall_drop.
  split; [reflexivity|]. now destruct (take i (drop j T)).
Qed.

Lemma X5_witness :
  Ingest.chunk_text Py.isspace (list_ascii_of_string "abcdefgh") 5 2
  = App.chunker (list_ascii_of_string "abcdefgh") 5 2.
Proof.
  apply (X5_chunkers_agree_without_whitespace Py.isspace
           (list_ascii_of_string "abcdefgh") 5 2 ltac:(lia) ltac:(lia)).
  repeat constructor.
Defined.

(** Whitespace from end to end: every stretch strips to nothing. *)
Lemma chunk_text_whitespace {A : Type} (isspace : A -> bool)
    (T : list A) (size overlap : Z) :
  0 < size -> 0 <= overlap < size ->
  Forall (fun x => isspace x = true) T ->
  Ingest.chunk_text isspace T size overlap = Some [].
Proof.
  intros Hsize Hov Hsp. unfold Ingest.chunk_text.
  rewrite (chunk_text_loop_total T size overlap Hsize Hov) by lia.
  f_equal. apply filter_map_emptied. intros c Hc.
  destruct (chunks_are_stretches T size overlap c Hsize Hov Hc)
    as (_ & i & j & ->).
  apply strip_all_space. now apply Forall_take, Forall_drop.
Qed.

(** X6.  For valid parameters, a text made of whitespace only gives no
    chunk at all with [chunk_text], however long it is. *)
Theorem X6_chunk_text_of_whitespace {A : Type} (isspace : A -> bool)
    (T : list A) (size overlap : Z) :
  0 < size -> 0 <= overlap < size ->
  Forall (fun x => isspace x = true) T ->
  Ingest.chunk_text isspace T size overlap = Some [].
Proof. apply chunk_text_whitespace. Qed.

Lemma X6_witness :
  Ingest.chunk_text Py.isspace (repeat " "%char 1200) 500 100 = Some [].
Proof.
  apply (X6_chunk_text_of_whitespace Py.isspace (repeat " "%char 1200)
           500 100 ltac:(lia) ltac:(lia)).
  apply Forall_forall. intros x Hx.
  apply list_elem_of_In, repeat_spec in Hx. now subst.
Defined.

(** ** What a computation leaves untouched *)

Section FrameFacts.
Context {E : Type} {X : Type} (part : world E -> X).

Lemma keeps_ret {A : Type} (a : A) : Obs.keeps part (ret a).
Proof. now intros w. Qed.

Lemma keeps_raise {A : Type} (e : string) : Obs.keeps part (@raise E A e).
Proof. now intros w. Qed.

Lemma keeps_bind {A B : Type} (m : M E A) (k : A -> M E B) :
  Obs.keeps part m -> (forall a, Obs.keeps part (k a)) ->
  Obs.keeps part (bind m k).
Proof.
  intros Hm Hk w. unfold bind. specialize (Hm w).
  destruct (m w) as [[a|e] w1]; cbn in *; [|exact Hm].
  now rewrite (Hk a w1).
Qed.

Lemma keeps_try_except {A : Type} (body : M E A) (handler : string -> M E A) :
  Obs.keeps part body -> (forall e, Obs.keeps part (handler e)) ->
  Obs.keeps part (try_except body handler).
Proof.
  intros Hb Hh w. unfold try_except. specialize (Hb w).
  destruct (body w) as [[a|e] w1]; cbn in *; [exact Hb|].
  now rewrite (Hh e w1).
Qed.

Lemma keeps_if {A : Type} (b : bool) (m1 m2 : M E A) :
  Obs.keeps part m1 -> Obs.keeps part m2 ->
  Obs.keeps part (if b then m1 else m2).
Proof. now destruct b. Qed.

End FrameFacts.

(** The primitive effects, by the component they change. *)
Ltac keeps_primitive :=
  let w := fresh "w" in
  intros w;
  unfold call, call_total, show, sleep, st_error, st_warning, st_info,
    st_success, st_markdown, get_qdrant, get_temp_path, set_temp_path,
    read_bytes, path_exists, getsize;
  cbn;
  repeat match goal with
         | |- context [match ?x with _ => _ end] => destruct x
         end;
  reflexivity.

Ltac keeps_step :=
  first
    [ apply keeps_ret | apply keeps_raise
    | apply keeps_bind; [|intros ?] | apply keeps_try_except; [|intros ?]
    | apply keeps_if
    | match goal with
      | |- Obs.keeps _ (match ?x with _ => _ end) => destruct x
      | |- Obs.keeps _ (let '(_, _) := ?x in _) => destruct x
      end
    | progress cbv zeta
    | keeps_primitive ].

Ltac keeps_all := repeat keeps_step.

Section StoreFrame.
Context {E V : Type} `{Collaborators E V}.

Lemma ensure_keeps_sleeps (silent : bool) :
  Obs.keeps sleeps (App.ensure_collection_exists silent).
Proof.
  unfold App.ensure_collection_exists, App.get_vector_size. keeps_all.
Qed.

Lemma ensure_keeps_disk (silent : bool) :
  Obs.keeps disk (App.ensure_collection_exists silent).
Proof.
  unfold App.ensure_collection_exists, App.get_vector_size. keeps_all.
Qed.

Lemma ensure_keeps_temp_path (silent : bool) :
  Obs.keeps temp_path (App.ensure_collection_exists silent).
Proof.
  unfold App.ensure_collection_exists, App.get_vector_size. keeps_all.
Qed.

Lemma ensure_silent_keeps_screen :
  Obs.keeps screen (App.ensure_collection_exists true).
Proof.
  unfold App.ensure_collection_exists, App.get_vector_size. cbn [negb].
  keeps_all.
Qed.

End StoreFrame.

(** ** The retry decorator for any operation *)

Section DecoratorFacts.
Context {E V : Type} `{Collaborators E V}.

Lemma wrapper_sleeps_prefix {R : Type} (func : M E R)
    (max_retries delay : Z) :
  Obs.keeps sleeps func ->
  forall (m j : nat) (last : option string) (w : world E),
    exists k : nat,
      (k <= m)%nat
      /\ (k = 0%nat \/ Z.of_nat (j + k) <= max_retries - 1)
      /\ sleeps (snd (App.wrapper_loop func max_retries delay
                        (map Z.of_nat (seq j m)) last w))
         = sleeps w ++ map (fun i => delay * (Z.of_nat i + 1)) (seq j k).
Proof.
  intros Hfunc. induction m as [|m IH]; intros j last w.
  - exists 0%nat. split; [lia|]. split; [now left|].
    cbn. destruct last; cbn; now rewrite app_nil_r.
  - cbn [seq map App.wrapper_loop]. unfold try_except.
    pose proof (Hfunc w) as Hs.
    destruct (func w) as [[r|e] w1]; cbn [snd] in *.
    + exists 0%nat. split; [lia|]. split; [now left|].
      cbn. now rewrite app_nil_r.
    + destruct (App.is_retryable (Py.lower e)
                && (Z.of_nat j <? max_retries - 1)) eqn:Hgo.
      * apply andb_true_iff in Hgo as [_ Hlt]. apply Z.ltb_lt in Hlt.
        unfold bind, sleep.
        destruct (delay * (Z.of_nat j + 1) <? 0).
        { exists 0%nat. split; [lia|]. split; [now left|].
          cbn. now rewrite app_nil_r. }
        destruct (IH (S j) (Some e)
                     (slept (delay * (Z.of_nat j + 1)) w1))
          as (k & Hk & Hbound & Hsl).
        exists (S k). split; [lia|]. split; [right; lia|].
        rewrite Hsl. cbn [slept sleeps seq map]. rewrite Hs, <- app_assoc.
        reflexivity.
      * exists 0%nat. split; [lia|]. split; [now left|].
        cbn. now rewrite app_nil_r.
Qed.

(** X7.  Whatever the decorated operation does, as long as it does not
    sleep itself, the decorator's sleeps are an initial stretch of
    [delay * 1, delay * 2, ..., delay * (max_retries - 1)]: never more
    than [max_retries - 1] of them, and none after the last attempt. *)
Theorem X7_decorator_backoff_is_bounded {R : Type} (func : M E R)
    (max_retries delay : Z) (w : world E) :
  Obs.keeps sleeps func ->
  exists k : nat,
    Z.of_nat k <= Z.max 0 (max_retries - 1)
    /\ sleeps (snd (App.retry_qdrant_operation max_retries delay func w))
       = sleeps w ++ map (fun i => delay * (Z.of_nat i + 1)) (seq 0 k).
Proof.
  intros Hfunc. unfold App.retry_qdrant_operation, Py.range.
  destruct (wrapper_sleeps_prefix func max_retries delay Hfunc
              (Z.to_nat max_retries) 0 None w) as (k & Hk & Hb & Hsl).
  exists k. split; [|exact Hsl]. destruct Hb as [->|Hb]; lia.
Qed.

(** X8.  With [max_retries] zero or negative the decorated operation is
    never called: the decorator raises the [TypeError] of [raise None]
    and leaves the world as it was. *)
Theorem X8_decorator_without_attempts {R : Type} (func : M E R)
    (max_retries delay : Z) (w : world E) :
  max_retries <= 0 ->
  App.retry_qdrant_operation max_retries delay func w
  = (Raise "exceptions must derive from BaseException", w).
Proof.
  intros Hmax. unfold App.retry_qdrant_operation, Py.range.
  replace (Z.to_nat max_retries) with 0%nat by lia. reflexivity.
Qed.


End DecoratorFacts.

Lemma X7_witness :
  exists k : nat,
    Z.of_nat k <= Z.max 0 (3 - 1)
    /\ sleeps (snd (App.retry_qdrant_operation 3 2 Sim.upsert_once
                      (Sim.failing_upserts ["Read timeout"])))
       = [] ++ map (fun i => 2 * (Z.of_nat i + 1)) (seq 0 k).
Proof.
  apply (X7_decorator_backoff_is_bounded Sim.upsert_once 3 2
           (Sim.failing_upserts ["Read timeout"])).
  intros w. unfold Sim.upsert_once, call.
  now destruct (upsert _ _ _).
Defined.

Lemma X8_witness :
  App.retry_qdrant_operation 0 2 Sim.upsert_once (Sim.session Sim.fresh)
  = (Raise "exceptions must derive from BaseException",
     Sim.session Sim.fresh).
Proof.
  exact (X8_decorator_without_attempts Sim.upsert_once 0 2
           (Sim.session Sim.fresh) ltac:(lia)).
Defined.


(** ** The upload tab's upsert loop for any store *)

Section UpsertLoopFacts.
Context {E V : Type} `{Collaborators E V}.

Lemma upsert_attempts_sleeps (points : list (point V)) (max_retries : Z) :
  forall (attempts : list Z) (last : option string) (w : world E),
    exists added,
      sleeps (snd (App.upsert_attempts points max_retries attempts last w))
      = sleeps w ++ added
      /\ sublist added
           (map (fun a => 2 * (a + 1))
                (List.filter (fun a => a <? max_retries - 1) attempts)).
Proof.
  induction attempts as [|attempt rest IH]; intros last w.
  - exists []. split; [|constructor].
    destruct last; cbn; now rewrite app_nil_r.
  - cbn [App.upsert_attempts List.filter].
    unfold App.get_vector_size. unfold_effects.
    assert (Hnext : forall e0 (pre : list Z) (w0 : world E),
               sleeps w0 = sleeps w ++ pre ->
               (pre = []
                \/ (pre = [2 * (attempt + 1)]
                    /\ (attempt <? max_retries - 1) = true)) ->
               exists added,
                 sleeps (snd (App.upsert_attempts points max_retries rest
                                                  (Some e0) w0))
                 = sleeps w ++ added
                 /\ sublist added
                      (map (fun a => 2 * (a + 1))
                           (if attempt <? max_retries - 1
                            then attempt
                                 :: List.filter
                                      (fun a => a <? max_retries - 1) rest
                            else List.filter
                                   (fun a => a <? max_retries - 1) rest))).
    { intros e0 pre w0 Hw0 Hpre.
      destruct (IH (Some e0) w0) as (added & Hs & Hsub).
      exists (pre ++ added). rewrite Hs, Hw0, <- app_assoc.
      split; [reflexivity|].
      destruct Hpre as [->|[-> Hlt]].
      - cbn. destruct (attempt <? max_retries - 1); cbn;
          [now apply sublist_cons | exact Hsub].
      - rewrite Hlt. cbn. now apply sublist_skip. }
    assert (Hstop : forall (slept0 : list Z),
               slept0 = sleeps w ->
               exists added,
                 slept0 = sleeps w ++ added
                 /\ sublist added
                      (map (fun a => 2 * (a + 1))
                           (if attempt <? max_retries - 1
                            then attempt
                                 :: List.filter
                                      (fun a => a <? max_retries - 1) rest
                            else List.filter
                                   (fun a => a <? max_retries - 1) rest))).
    { intros slept0 Hw0. exists []. rewrite app_nil_r.
      split; [exact Hw0|]. apply sublist_nil_l. }
    destruct (upsert COLLECTION_NAME points (services w)) as [[[]|err] e1];
      cbn [fst snd services qdrant screen sleeps disk temp_path].
    { now apply Hstop. }
    destruct (App.is_not_found (Py.lower err));
      cbn [fst snd services qdrant screen sleeps disk temp_path].
    + destruct (get_sentence_embedding_dimension e1) as [[vs|ge] e2];
        cbn [fst snd services qdrant screen sleeps disk temp_path].
      2:{ now apply Hstop. }
      destruct (create_collection COLLECTION_NAME vs e2) as [[[]|ce] e3];
        cbn [fst snd services qdrant screen sleeps disk temp_path].
      * apply (Hnext err []); [now rewrite app_nil_r | now left].
      * destruct (Py.contains "already exists" (Py.lower ce));
          cbn [fst snd services qdrant screen sleeps disk temp_path].
        { apply (Hnext err []); [now rewrite app_nil_r | now left]. }
        destruct (Py.contains "timeout" (Py.lower ce)
                  || Py.contains "handshake" (Py.lower ce));
          cbn [fst snd services qdrant screen sleeps disk temp_path].
        -- destruct (attempt <? max_retries - 1) eqn:Hlt;
             cbn [fst snd services qdrant screen sleeps disk temp_path
                  slept andb].
           ++ destruct (2 * (attempt + 1) <? 0);
                cbn [fst snd services qdrant screen sleeps disk temp_path
                     slept];
                [now apply Hstop|].
              apply (Hnext err [2 * (attempt + 1)]); [reflexivity|].
              right. now split.
           ++ rewrite andb_false_r.
              destruct (attempt =? max_retries - 1);
                cbn [fst snd services qdrant screen sleeps disk temp_path].
              ** now apply Hstop.
              ** pose proof (Hnext err [] (World e3 (qdrant w) (screen w)
                                                 (sleeps w) (disk w)
                                                 (temp_path w))) as Hn.
                 apply Hn; [now rewrite app_nil_r|].
                 now left.
        -- destruct (attempt <? max_retries - 1) eqn:Hlt;
             destruct (App.is_timeout (Py.lower err));
             cbn [fst snd services qdrant screen sleeps disk temp_path
                  slept andb];
             try (destruct (2 * (attempt + 1) <? 0);
                  cbn [fst snd services qdrant screen sleeps disk temp_path
                       slept];
                  [now apply Hstop|];
                  apply (Hnext err [2 * (attempt + 1)]); [reflexivity|];
                  right; now split);
             destruct (attempt =? max_retries - 1);
             cbn [fst snd services qdrant screen sleeps disk temp_path];
             try (now apply Hstop);
             (pose proof (Hnext err [] (World e3 (qdrant w) (screen w)
                                              (sleeps w) (disk w)
                                              (temp_path w))) as Hn;
              apply Hn; [now rewrite app_nil_r|];
              now left).
    + destruct (attempt <? max_retries - 1) eqn:Hlt;
        destruct (App.is_timeout (Py.lower err));
        cbn [fst snd services qdrant screen sleeps disk temp_path
             slept andb];
        try (destruct (2 * (attempt + 1) <? 0);
             cbn [fst snd services qdrant screen sleeps disk temp_path
                  slept];
             [now apply Hstop|];
             apply (Hnext err [2 * (attempt + 1)]); [reflexivity|];
             right; now split);
        destruct (attempt =? max_retries - 1);
        cbn [fst snd services qdrant screen sleeps disk temp_path];
        try (now apply Hstop);
        (pose proof (Hnext err [] (World e1 (qdrant w) (screen w)
                                         (sleeps w) (disk w)
                                         (temp_path w))) as Hn;
         apply Hn; [now rewrite app_nil_r|];
         now left).
Qed.

(** X10.  Whatever the store answers, the upload tab's upsert sleeps at
    most once after the first attempt (2 seconds) and once after the
    second (4 seconds), and never after the third. *)
Theorem X10_upsert_backoff_is_bounded (points : list (point V))
    (w : world E) :
  exists added,
    sleeps (snd (App.upsert_with_retry points w)) = sleeps w ++ added
    /\ sublist added [2; 4].
Proof.
  exact (upsert_attempts_sleeps points App.max_retries
           (Py.range App.max_retries) None w).
Qed.

(** X11.  When an upsert fails because the collection is missing and the
    collection can then be created (or turns out to exist already), the
    loop goes to the next attempt without sleeping; if that was the last
    attempt, the "not found" failure is raised although the collection is
    there now. *)
Theorem X11_missing_collection_is_created (points : list (point V))
    (max_retries attempt : Z) (rest : list Z) (last : option string)
    (w : world E) (err : string) (vector_size : Z) (e1 e2 e3 : E)
    (created : result unit) :
  upsert COLLECTION_NAME points (services w) = (Raise err, e1) ->
  App.is_not_found (Py.lower err) = true ->
  get_sentence_embedding_dimension e1 = (Ok vector_size, e2) ->
  create_collection COLLECTION_NAME vector_size e2 = (created, e3) ->
  (created = Ok tt
   \/ exists ce, created = Raise ce
        /\ Py.contains "already exists" (Py.lower ce) = true) ->
  let w3 := World e3 (qdrant w) (screen w) (sleeps w) (disk w)
                  (temp_path w) in
  App.upsert_attempts points max_retries (attempt :: rest) last w
  = App.upsert_attempts points max_retries rest (Some err) w3
  /\ App.upsert_attempts points max_retries [attempt] last w
     = (Raise err, w3).
Proof.
  intros Hu Hnf Hdim Hcreate Hcreated w3.
  assert (Hstep : forall rest0,
             App.upsert_attempts points max_retries (attempt :: rest0)
                                 last w
             = App.upsert_attempts points max_retries rest0 (Some err) w3).
  { intros rest0. cbn [App.upsert_attempts].
    unfold App.get_vector_size. unfold_effects.
    rewrite Hu, Hnf.
    cbn [fst snd services qdrant screen sleeps disk temp_path].
    rewrite Hdim.
    cbn [fst snd services qdrant screen sleeps disk temp_path].
    rewrite Hcreate.
    destruct Hcreated as [->|(ce & -> & Hex)]; [reflexivity|].
    cbn [fst snd services qdrant screen sleeps disk temp_path].
    now rewrite Hex. }
  split; [apply Hstep|]. now rewrite Hstep.
Qed.

End UpsertLoopFacts.

Lemma X11_witness :
  App.upsert_attempts [] 3 [0; 1; 2] None (Sim.session Sim.fresh)
  = App.upsert_attempts [] 3 [1; 2] (Some Sim.not_found)
      (Sim.session
         (Sim.logged "create_collection"
            (Sim.logged "upsert"
               (Sim.with_collection (Some []) Sim.fresh))))
  /\ App.upsert_attempts [] 3 [0] None (Sim.session Sim.fresh)
     = (Raise Sim.not_found,
        Sim.session
          (Sim.logged "create_collection"
             (Sim.logged "upsert"
                (Sim.with_collection (Some []) Sim.fresh)))).
Proof.
  exact (X11_missing_collection_is_created
           (E := Sim.env) (V := Z) [] 3 0 [1; 2] None
           (Sim.session Sim.fresh) Sim.not_found 384 _ _ _ (Ok tt)
           eq_refl eq_refl eq_refl eq_refl (or_introl eq_refl)).
Defined.

(** ** ensure_collection_exists: what it leaves alone *)

(** X12.  [ensure_collection_exists] never sleeps and never touches the
    disk; in silent mode it shows nothing; and when the store finds the
    collection it does nothing but that lookup: no creation is tried and
    nothing is shown. *)
Theorem X12_ensure_collection_exists_side_effects {E V : Type}
    `{Collaborators E V} (silent : bool) (w : world E) :
  sleeps (snd (App.ensure_collection_exists silent w)) = sleeps w
  /\ disk (snd (App.ensure_collection_exists silent w)) = disk w
  /\ (silent = true ->
      screen (snd (App.ensure_collection_exists silent w)) = screen w)
  /\ (forall e', qdrant w = true ->
        get_collection COLLECTION_NAME (services w) = (Ok tt, e') ->
        App.ensure_collection_exists silent w
        = (Ok true, World e' (qdrant w) (screen w) (sleeps w) (disk w)
                          (temp_path w))).
Proof.
  split; [apply ensure_keeps_sleeps|]. split; [apply ensure_keeps_disk|].
  split; [intros ->; apply ensure_silent_keeps_screen|].
  intros e' Hq Hget. unfold App.ensure_collection_exists. unfold_effects.
  rewrite Hq. cbn [negb]. rewrite Hget. cbn. now rewrite Hq.
Qed.

Lemma X12_witness :
  screen (snd (App.ensure_collection_exists true
                 (Sim.session (Sim.with_create_faults [Some "Forbidden"]
                                 Sim.fresh))))
  = [].
Proof.
  exact (proj1 (proj2 (proj2 (X12_ensure_collection_exists_side_effects
                                true
                                (Sim.session
                                   (Sim.with_create_faults
                                      [Some "Forbidden"] Sim.fresh)))))
               eq_refl).
Defined.

(** ** extract_text_from_file: the other branches *)

Lemma lower_char_idempotent (c : ascii) :
  Py.lower_char (Py.lower_char c) = Py.lower_char c.
Proof. destruct c as [[] [] [] [] [] [] [] []]; reflexivity. Qed.

Lemma lower_idempotent (s : string) : Py.lower (Py.lower s) = Py.lower s.
Proof.
  induction s as [|c s IH]; cbn; [reflexivity|].
  now rewrite lower_char_idempotent, IH.
Qed.

Section ExtractorMore.
Context {E V : Type} `{Collaborators E V}.

Lemma extraction_keeps_world (file_path file_extension : string) :
  Obs.keeps (fun w : world E => w)
            (App.extract_text_from_file file_path file_extension).
Proof. unfold App.extract_text_from_file, App.open_with. keeps_all. Qed.

(** X13.  Extraction only reads: whatever the format and the outcome, the
    world it returns is the world it was given (no file is written or
    deleted, nothing is shown, no collaborator is called). *)
Theorem X13_extraction_is_read_only (file_path file_extension : string)
    (w : world E) :
  snd (App.extract_text_from_file file_path file_extension w) = w.
Proof. apply extraction_keeps_world. Qed.

(** X14.  The format is chosen by the extension whatever its letter case:
    extracting with an extension and with its lower-case form give the
    same outcome. *)
Theorem X14_extension_case_is_ignored (file_path file_extension : string)
    (w : world E) :
  App.extract_text_from_file file_path file_extension w
  = App.extract_text_from_file file_path (Py.lower file_extension) w.
Proof.
  unfold App.extract_text_from_file. now rewrite lower_idempotent.
Qed.

(** X15.  An extension other than .pdf, .docx, .doc, .pptx, .ppt and .txt
    is refused with "Unsupported file format: " followed by the lower-case
    extension, without looking at the file. *)
Theorem X15_unsupported_extension (file_path file_extension : string)
    (w : world E) :
  Py.in_list (Py.lower file_extension)
             [".pdf"; ".docx"; ".doc"; ".pptx"; ".ppt"; ".txt"] = false ->
  App.extract_text_from_file file_path file_extension w
  = (Raise ("Unsupported file format: " +++ Py.lower file_extension), w).
Proof.
  intros Hext. unfold App.extract_text_from_file, Py.in_list in *.
  cbn [existsb] in *.
  repeat (apply orb_false_iff in Hext as [? Hext]).
  repeat match goal with Heq : String.eqb _ _ = false |- _ =>
           rewrite Heq; clear Heq end.
  reflexivity.
Qed.

(** X16.  A .pptx file: a presentation without any text gives the empty
    text and its slide count, not an error; a missing file, an empty file
    or a failing parse is raised as "Invalid PowerPoint file" when the
    failure says "Package not found" or "not a zip file", and as "Error
    reading PowerPoint file: ..." otherwise, never with the advice for
    legacy files. *)
Theorem X16_modern_powerpoint (file_path ext : string) (w : world E) :
  Py.lower ext = ".pptx" ->
  let failure error_msg :=
    if Py.contains "Package not found" error_msg
       || Py.contains "not a zip file" (Py.lower error_msg)
    then App.invalid_pptx_error error_msg
    else App.pptx_error error_msg in
  App.extract_text_from_file file_path ext w
  = match disk w !! file_path with
    | None =>
        (Raise (failure ("File not found at path: " +++ file_path)), w)
    | Some EmptyString =>
        (Raise (failure "PowerPoint file is empty or corrupted"), w)
    | Some bytes =>
        match Presentation bytes with
        | Ok prs =>
            (Ok (Py.join nl (flat_map (flat_map App.shape_runs) prs),
                 Py.len prs), w)
        | Raise e => (Raise (failure e), w)
        end
    end.
Proof.
  intros Hext failure. unfold App.extract_text_from_file. rewrite Hext.
  change (String.eqb ".pptx" ".pdf") with false.
  change (Py.in_list ".pptx" [".docx"; ".doc"]) with false.
  change (Py.in_list ".pptx" [".pptx"; ".ppt"]) with true.
  change (String.eqb ".pptx" ".ppt") with false. cbn iota.
  unfold App.open_with, read_bytes, path_exists, getsize. unfold_effects.
  destruct (disk w !! file_path) as [bytes|] eqn:Hfile.
  - rewrite bool_decide_eq_true_2 by eauto. cbn [negb]. rewrite Hfile.
    destruct bytes as [|c bytes].
    + change (Z.of_nat (String.length EmptyString) =? 0) with true.
      cbn [negb]. subst failure. cbn [negb]. now destruct (_ || _).
    + replace (Z.of_nat (String.length (String c bytes)) =? 0) with false
        by (symmetry; apply Z.eqb_neq; cbn [String.length]; lia).
      cbn [negb]. rewrite Hfile.
      destruct (Presentation (String c bytes)) as [prs|e]; cbn [negb].
      * now destruct (flat_map (flat_map App.shape_runs) prs).
      * subst failure. cbn [negb]. now destruct (_ || _).
  - rewrite bool_decide_eq_false_2 by (intros [? ?]; discriminate).
    cbn [negb]. subst failure. cbn [negb]. now destruct (_ || _).
Qed.

End ExtractorMore.

Lemma X15_witness :
  App.extract_text_from_file "/tmp/sheet.XLSX" ".XLSX"
                             (Sim.session Sim.fresh)
  = (Raise "Unsupported file format: .xlsx", Sim.session Sim.fresh).
Proof.
  exact (X15_unsupported_extension "/tmp/sheet.XLSX" ".XLSX"
           (Sim.session Sim.fresh) eq_refl).
Defined.

Lemma X16_witness :
  App.extract_text_from_file "/tmp/deck.pptx" ".pptx"
    (Sim.with_file "/tmp/deck.pptx" "no package" (Sim.session Sim.fresh))
  = (Raise (App.invalid_pptx_error "Package not found at '/tmp/doc'"),
     Sim.with_file "/tmp/deck.pptx" "no package" (Sim.session Sim.fresh)).
Proof.
  exact (X16_modern_powerpoint "/tmp/deck.pptx" ".pptx"
           (Sim.with_file "/tmp/deck.pptx" "no package"
              (Sim.session Sim.fresh)) eq_refl).
Defined.

(** ** The answer and the search tab *)

Lemma append_assoc (a b c : string) : (a +++ b) +++ c = a +++ (b +++ c).
Proof.
  induction a as [|x a IH]; [reflexivity|].
  rewrite !append_cons. now rewrite IH.
Qed.

Lemma append_empty_r (a : string) : a +++ EmptyString = a.
Proof.
  induction a as [|x a IH]; [reflexivity|].
  rewrite append_cons. now rewrite IH.
Qed.

(** The fragments of a stream put together, a missing one counting as
    empty. *)
Lemma fold_fragments (stream : list (option string)) (answer : string) :
  fold_left (fun answer chunk => answer +++ default EmptyString chunk)
            stream answer
  = answer +++ fold_right (fun chunk rest =>
                             default EmptyString chunk +++ rest)
                          EmptyString stream.
Proof.
  revert answer. induction stream as [|chunk stream IH]; intros answer.
  - cbn. now rewrite append_empty_r.
  - cbn [fold_left fold_right]. now rewrite IH, append_assoc.
Qed.

Section AnswerFacts.
Context {E V : Type} `{Collaborators E V}.

(** One run of [generate_llm_answer], in closed form. *)
Lemma llm_answer_run (query context : string) (w : world E) :
  let outcome := chat_completions (App.prompt_of query context)
                                  (services w) in
  App.generate_llm_answer query context w
  = (Ok match fst outcome with
        | Ok stream =>
            fold_right (fun chunk rest => default EmptyString chunk +++ rest)
                       EmptyString stream
        | Raise e => "Error generating answer: " +++ e
        end,
     World (snd outcome) (qdrant w) (screen w) (sleeps w) (disk w)
           (temp_path w)).
Proof.
  cbv zeta. unfold App.generate_llm_answer. unfold_effects.
  destruct (chat_completions _ _) as [[stream|e] e1]; cbn; [|reflexivity].
  now rewrite fold_fragments.
Qed.

(** X17.  [generate_llm_answer] never raises.  When the stream arrives the
    answer is its fragments put together in order, a fragment without
    content counting as empty; when the call fails the answer is the text
    "Error generating answer: " followed by the failure.  Nothing is
    shown, slept or written. *)
Theorem X17_llm_answer_never_raises (query context : string)
    (w : world E) :
  let outcome := chat_completions (App.prompt_of query context)
                                  (services w) in
  App.generate_llm_answer query context w
  = (Ok match fst outcome with
        | Ok stream =>
            fold_right (fun chunk rest => default EmptyString chunk +++ rest)
                       EmptyString stream
        | Raise e => "Error generating answer: " +++ e
        end,
     World (snd outcome) (qdrant w) (screen w) (sleeps w) (disk w)
           (temp_path w)).
Proof. apply llm_answer_run. Qed.

(** What [ensure_collection_exists] shows: nothing, or one error; and
    nothing when the lookup finds the collection. *)
Lemma ensure_shows_at_most_one (silent : bool) (w : world E) :
  let w1 := snd (App.ensure_collection_exists silent w) in
  (screen w1 = screen w
   \/ exists e,
        screen w1
        = screen w ++ [StError ("Error ensuring collection exists: "
                                +++ e)])
  /\ (forall e',
        get_collection COLLECTION_NAME (services w) = (Ok tt, e') ->
        screen w1 = screen w).
Proof.
  cbv zeta. unfold App.ensure_collection_exists, App.get_vector_size.
  unfold_effects. destruct (qdrant w); cbn [negb].
  - split.
    + split_run; cbn;
        first [now left | right; eexists; reflexivity].
    + intros e' Hget. rewrite Hget. reflexivity.
  - split; [now left | reflexivity].
Qed.

(** X18.  When the store returns hits, the search adds the "AI Response"
    heading and one answer box to what [ensure_collection_exists] has
    shown before, which is nothing when the lookup finds the collection
    and at most one "Error ensuring collection exists" message otherwise.
    The context given to the LLM is the hits' texts in the store's
    order, separated by blank lines, a hit without a "text" entry
    counting as empty.  A failure of the LLM is shown inside the answer
    box, not as an error. *)
Theorem X18_search_with_hits (query : string) (w w1 : world E) (qvec : V)
    (hits : list (point V)) (e2 e3 : E) :
  App.non_blank query = true ->
  App.ensure_collection_exists false w = (Ok true, w1) ->
  encode true query (services w1) = (Ok qvec, e2) ->
  query_points COLLECTION_NAME qvec MAX_SEARCH_RESULTS e2 = (Ok hits, e3) ->
  hits <> [] ->
  let context := Py.join (nl +++ nl) (map App.payload_text hits) in
  let outcome := chat_completions (App.prompt_of query context) e3 in
  let answer := match fst outcome with
                | Ok stream =>
                    fold_right (fun chunk rest =>
                                  default EmptyString chunk +++ rest)
                               EmptyString stream
                | Raise e => "Error generating answer: " +++ e
                end in
  App.search query w
  = (Ok tt,
     World (snd outcome) (qdrant w1)
           (screen w1
            ++ [StMarkdown "### AI Response";
                StMarkdown ("<div class=" +++ dq +++ "ai-response" +++ dq
                            +++ ">" +++ answer +++ "</div>")])
           (sleeps w1) (disk w1) (temp_path w1))
  /\ (screen w1 = screen w
      \/ exists e,
           screen w1
           = screen w ++ [StError ("Error ensuring collection exists: "
                                   +++ e)])
  /\ (forall e',
        get_collection COLLECTION_NAME (services w) = (Ok tt, e') ->
        screen w1 = screen w).
Proof.
  intros Hnb Hens Henc Hq Hhits. cbv zeta. split.
  - unfold App.search. rewrite Hnb. cbn [negb].
    unfold try_except at 1. unfold bind at 1. rewrite Hens. cbn [negb].
    unfold App.embed. unfold bind at 1. unfold call at 1. rewrite Henc.
    unfold bind at 1. unfold call at 1.
    cbn [fst snd services qdrant screen sleeps disk temp_path].
    rewrite Hq. destruct hits as [|hit hits]; [congruence|].
    cbn [Py.truthy negb]. unfold bind at 1.
    rewrite llm_answer_run.
    cbn [fst snd services qdrant screen sleeps disk temp_path].
    unfold st_markdown, show, bind.
    cbn [shown fst snd services qdrant screen sleeps disk temp_path].
    unfold shown.
    cbn [fst snd services qdrant screen sleeps disk temp_path].
    now rewrite <- app_assoc.
  - pose proof (ensure_shows_at_most_one false w) as Hshown.
    cbv zeta in Hshown. now rewrite Hens in Hshown.
Qed.

End AnswerFacts.

Lemma X18_witness :
  screen (snd (App.search "what is in it?"
                 (Sim.session
                    (Sim.with_collection
                       (Some [Point 7 3 {["text" := "alpha"]};
                              Point 9 4 ∅;
                              Point 2 5 {["text" := "gamma"]}])
                       Sim.fresh))))
  = [StMarkdown "### AI Response";
     StMarkdown ("<div class=" +++ dq +++ "ai-response" +++ dq
                 +++ ">An answer.</div>")].
Proof.
  pose proof (X18_search_with_hits (E := Sim.env) (V := Z)
                "what is in it?"
                (Sim.session
                   (Sim.with_collection
                      (Some [Point 7 3 {["text" := "alpha"]};
                             Point 9 4 ∅;
                             Point 2 5 {["text" := "gamma"]}])
                      Sim.fresh))
                _ 14 _ _ _ eq_refl eq_refl eq_refl eq_refl
                ltac:(discriminate)) as Hrun.
  cbv zeta in Hrun. destruct Hrun as [Hrun _]. rewrite Hrun. reflexivity.
Defined.

(** ** The upload tab: points, the staged file, failures *)

Ltac keeps_with IH := repeat first [apply IH | keeps_step].

Section UploadMore.
Context {E V : Type} `{Collaborators E V}.

Lemma build_points_keeps_disk (chunks : list string) :
  forall (i total : Z) (points : list (point V)),
    Obs.keeps disk (App.build_points i total chunks points).
Proof.
  induction chunks as [|chunk rest IH]; intros i total points;
    cbn [App.build_points]; unfold App.embed; keeps_with IH.
Qed.

Lemma build_points_keeps_temp_path (chunks : list string) :
  forall (i total : Z) (points : list (point V)),
    Obs.keeps temp_path (App.build_points i total chunks points).
Proof.
  induction chunks as [|chunk rest IH]; intros i total points;
    cbn [App.build_points]; unfold App.embed; keeps_with IH.
Qed.

Lemma upsert_attempts_keeps_disk (points : list (point V))
    (max_retries : Z) (attempts : list Z) :
  forall last : option string, Obs.keeps disk
                 (App.upsert_attempts points max_retries attempts last).
Proof.
  induction attempts as [|attempt rest IH]; intros last;
    cbn [App.upsert_attempts]; unfold App.raise_last, App.get_vector_size;
    keeps_with IH.
Qed.

Lemma upsert_attempts_keeps_temp_path (points : list (point V))
    (max_retries : Z) (attempts : list Z) :
  forall last : option string, Obs.keeps temp_path
                 (App.upsert_attempts points max_retries attempts last).
Proof.
  induction attempts as [|attempt rest IH]; intros last;
    cbn [App.upsert_attempts]; unfold App.raise_last, App.get_vector_size;
    keeps_with IH.
Qed.

Lemma report_keeps_disk (src : @App.file_source E) (filename file_type_name
    file_extension : string) (page_count : Z) (chunks : list string)
    (full_text : string) :
  Obs.keeps disk (App.report src filename file_type_name file_extension
                             page_count chunks full_text).
Proof. unfold App.report. keeps_all. Qed.

Lemma report_never_raises (src : @App.file_source E) (filename file_type_name
    file_extension : string) (page_count : Z) (chunks : list string)
    (full_text : string) (w : world E) :
  fst (App.report src filename file_type_name file_extension page_count
                  chunks full_text w) = Ok tt.
Proof.
  unfold App.report. unfold_effects.
  repeat match goal with
         | |- context [if ?b then _ else _] => destruct b
         end; reflexivity.
Qed.

(** X19.  The points built for a document carry its chunks, in order, as
    their "text", one point per chunk; and the progress shown runs from
    the first chunk to the last. *)
Theorem X19_points_carry_the_chunks (chunks : list string) :
  forall (i total : Z) (points ps : list (point V)) (w w' : world E),
    App.build_points i total chunks points w = (Ok ps, w') ->
    map App.payload_text ps = map App.payload_text points ++ chunks
    /\ screen w'
       = screen w
         ++ map (fun k => StProgress (i + Z.of_nat k + 1) total)
                (seq 0 (length chunks)).
Proof.
  induction chunks as [|chunk rest IH]; intros i total points ps w w' Hrun.
  - cbn in Hrun. unfold ret in Hrun. injection Hrun as <- <-.
    cbn. now rewrite !app_nil_r.
  - cbn [App.build_points] in Hrun. unfold App.embed in Hrun.
    unfold_effects.
    destruct (encode true chunk (services w)) as [[vec|e] e1];
      [|discriminate].
    cbn [fst snd services qdrant screen sleeps disk temp_path] in Hrun.
    destruct (randint 1000000000 e1) as [id e2].
    cbn [fst snd services qdrant screen sleeps disk temp_path shown]
      in Hrun.
    destruct (IH _ _ _ _ _ _ Hrun) as [Htexts Hscreen]. split.
    + rewrite Htexts, map_app, <- app_assoc. now f_equal.
    + rewrite Hscreen. unfold shown. cbn [screen length seq map].
      rewrite <- app_assoc. cbn [app]. f_equal. f_equal.
      * f_equal. lia.
      * rewrite <- seq_shift, map_map. apply map_ext. intros k.
        f_equal. lia.
Qed.

(** One step of the flow that touches neither the files nor the handler's
    variable. *)
Lemma step_deletes_or_fails {A B : Type} (tmp : string)
    (d : gmap string string) (m : M E A) (k : A -> M E B) (w : world E) :
  Obs.keeps disk m -> Obs.keeps temp_path m ->
  Obs.still_staged tmp d w ->
  (forall a w1, Obs.still_staged tmp d w1 ->
                Obs.deletes_or_fails tmp d (k a w1)) ->
  Obs.deletes_or_fails tmp d (bind m k w).
Proof.
  intros Hd Ht [Hdw Htw] Hk. unfold bind.
  specialize (Hd w). specialize (Ht w).
  destruct (m w) as [[a|e] w1]; cbn [snd] in *.
  - apply Hk. split; congruence.
  - unfold Obs.deletes_or_fails. cbn [fst snd]. split; congruence.
Qed.

(** From the first progress mark to the report: the staged file is deleted,
    or a failure leaves it recorded. *)
Lemma ingest_deletes_or_fails (src : @App.file_source E) (filename
    file_type_name file_extension tmp bytes full_text : string)
    (page_count : Z) (d : gmap string string) (w : world E) :
  d !! tmp = Some bytes ->
  Obs.still_staged tmp d w ->
  let chunks := App.upload_chunks full_text in
  Obs.deletes_or_fails tmp d
    ((show (StProgress 0 1) >>
      let* points := App.build_points 0 (Py.len chunks) chunks [] in
      App.ensure_collection_exists true >>
      App.upsert_with_retry points >>
      unlink tmp >>
      App.report src filename file_type_name file_extension page_count
                 chunks full_text) w).
Proof.
  intros Hfile Hw chunks.
  apply step_deletes_or_fails; [keeps_all | keeps_all | exact Hw |].
  intros _ w1 Hw1.
  apply step_deletes_or_fails;
    [apply build_points_keeps_disk | apply build_points_keeps_temp_path
    | exact Hw1 |].
  intros points w2 Hw2.
  apply step_deletes_or_fails;
    [apply ensure_keeps_disk | apply ensure_keeps_temp_path | exact Hw2 |].
  intros _ w3 Hw3.
  apply step_deletes_or_fails;
    [apply upsert_attempts_keeps_disk | apply upsert_attempts_keeps_temp_path
    | exact Hw3 |].
  intros _ w4 [Hd4 Ht4].
  unfold Obs.deletes_or_fails, bind, unlink. cbv beta.
  rewrite Hd4, Hfile.
  match goal with |- context [App.report ?a ?b ?c ?e ?f ?g ?h ?w0] =>
    pose proof (report_never_raises a b c e f g h w0) as Hok;
    pose proof (report_keeps_disk a b c e f g h w0) as Hkeep
  end.
  rewrite Hok. rewrite Hkeep. reflexivity.
Qed.

(** The handler of the flow, entered with the staged file recorded: it
    shows the failure and deletes the file. *)
Lemma handler_deletes_staged (tmp bytes e : string)
    (d : gmap string string) (w : world E) :
  tmp <> EmptyString ->
  d !! tmp = Some bytes ->
  Obs.still_staged tmp d w ->
  exists w',
    (st_error ("Error processing document: " +++ e) >>
     let* temp := get_temp_path in
     match temp with
     | Some path =>
         if Py.str_truthy path
         then try_except (unlink path) (fun _ => ret tt)
         else ret tt
     | None => ret tt
     end) w = (Ok tt, w')
    /\ disk w' = delete tmp d.
Proof.
  intros Hname Hfile [Hd Ht].
  unfold st_error, show, get_temp_path, bind, try_except, unlink.
  cbn [shown fst snd services qdrant screen sleeps disk temp_path].
  rewrite Ht. destruct tmp as [|c tmp']; [congruence|].
  cbn [Py.str_truthy]. unfold shown. cbn [disk]. rewrite Hd, Hfile.
  eexists. split; reflexivity.
Qed.

(** The flow once the document is staged under [path], whatever staged
    it: it returns normally; a blank extraction leaves the files as they
    are, and every other outcome deletes the staged file and nothing
    else. *)
Lemma flow_after_staging (src : @App.file_source E) (filename path
    file_extension bytes : string) (w ws : world E) :
  match src with
  | App.FromUrl download => download
  | App.FromUpload name bytes => App.stage_upload name bytes
  end (World (services w) (qdrant w) (screen w) (sleeps w) (disk w) None)
  = (Ok (path, file_extension), ws) ->
  path <> EmptyString ->
  disk ws !! path = Some bytes ->
  let recorded := World (services ws) (qdrant ws) (screen ws) (sleeps ws)
                        (disk ws) (Some path) in
  exists w',
    App.upload_and_ingest src filename w = (Ok tt, w')
    /\ disk w'
       = if Obs.blank_extraction
              (fst (App.extract_text_from_file path file_extension recorded))
         then disk ws
         else delete path (disk ws).
Proof.
  intros Hstage Hname Hfile recorded.
  assert (Hrec : Obs.still_staged path (disk ws) recorded) by now split.
  unfold App.upload_and_ingest. unfold try_except at 1.
  unfold bind at 1. unfold set_temp_path at 1. cbv beta iota.
  unfold bind at 1. rewrite Hstage. cbv beta iota.
  unfold bind at 1. unfold set_temp_path at 1. cbv beta iota.
  fold recorded. unfold bind at 1.
  pose proof (extraction_keeps_world path file_extension recorded)
    as Hread.
  destruct (App.extract_text_from_file path file_extension recorded)
    as [[[full_text page_count]|e] w1]; cbn [snd] in Hread; subst w1;
    cbn [fst Obs.blank_extraction].
  - destruct (App.non_blank full_text); cbn [negb].
    + match goal with |- context [(show ?p >> ?k) recorded] =>
        pose proof (ingest_deletes_or_fails
                      src filename
                      (default "Document"
                         (App.file_type_names !! Py.lower file_extension))
                      file_extension path bytes full_text page_count
                      _ recorded Hfile Hrec) as Hout;
        cbv zeta in Hout;
        destruct ((show p >> k) recorded) as [[[]|e] w2]
      end; unfold Obs.deletes_or_fails in Hout; cbn [fst snd] in Hout.
      * now exists w2.
      * exact (handler_deletes_staged path bytes e _ w2 Hname Hfile Hout).
    + eexists. split; reflexivity.
  - exact (handler_deletes_staged path bytes e _ recorded Hname Hfile Hrec).
Qed.

(** X20.  What becomes of the file an upload stages.  The flow returns
    normally; when the extraction comes back with nothing but whitespace
    the staged file is left on disk with the uploaded bytes, and in every
    other case (ingested, or failed at any step, the extraction included)
    it is deleted.  No other file is touched. *)
Theorem X20_staged_file_after_upload (name bytes filename : string)
    (w : world E) :
  Obs.staged_path name w <> EmptyString ->
  let tmp := Obs.staged_path name w in
  let extraction :=
    fst (App.extract_text_from_file tmp (Py.splitext_ext name)
                                    (Obs.staged name bytes w)) in
  exists w',
    App.upload_and_ingest (App.FromUpload name bytes) filename w
    = (Ok tt, w')
    /\ disk w' = if Obs.blank_extraction extraction
                 then <[tmp := bytes]> (disk w)
                 else delete tmp (disk w).
Proof.
  intros Hname tmp extraction. subst tmp extraction.
  unfold Obs.staged_path, Obs.staged in *.
  destruct (temp_name (Py.splitext_ext name) (services w)) as [tmp e1]
    eqn:Htmp.
  cbn [fst] in *.
  destruct (flow_after_staging
              (App.FromUpload name bytes) filename tmp
              (Py.splitext_ext name) bytes w
              (World e1 (qdrant w) (screen w) (sleeps w)
                     (<[tmp := bytes]> (disk w)) None))
    as (w' & Hrun & Hdisk).
  - unfold App.stage_upload, write_bytes, call_total, bind, ret.
    cbn [services qdrant screen sleeps disk temp_path]. rewrite Htmp.
    cbn [services qdrant screen sleeps disk temp_path].
    now rewrite insert_insert_eq.
  - exact Hname.
  - apply lookup_insert_eq.
  - exists w'. split; [exact Hrun|].
    cbn [services qdrant screen sleeps disk temp_path] in Hdisk.
    now rewrite Hdisk, delete_insert_eq.
Qed.

End UploadMore.

Lemma X19_witness :
  exists ps w',
    App.build_points 0 2 ["alpha"; "beta"] [] (Sim.session Sim.fresh)
    = (Ok ps, w')
    /\ map App.payload_text ps = ["alpha"; "beta"]
    /\ screen w' = [StProgress 1 2; StProgress 2 2].
Proof.
  destruct (App.build_points 0 2 ["alpha"; "beta"] []
                             (Sim.session Sim.fresh))
    as [[ps|e] w'] eqn:Hrun; [|vm_compute in Hrun; discriminate].
  exists ps, w'. split; [reflexivity|].
  exact (X19_points_carry_the_chunks _ _ _ _ _ _ _ Hrun).
Defined.


Lemma X20_witness :
  exists w',
    App.upload_and_ingest (App.FromUpload "slides.ppt" "not a package")
                          "slides.ppt" (Sim.session Sim.fresh)
    = (Ok tt, w')
    /\ disk w' = ∅.
Proof.
  assert (Hname : Obs.staged_path "slides.ppt" (Sim.session Sim.fresh)
                  <> EmptyString)
    by (intros Heq; vm_compute in Heq; discriminate Heq).
  destruct (X20_staged_file_after_upload
              "slides.ppt" "not a package" "slides.ppt"
              (Sim.session Sim.fresh) Hname)
    as (w' & Hrun & Hdisk).
  exists w'. split; [exact Hrun|].
  rewrite Hdisk. vm_compute. reflexivity.
Defined.

(** ** Downloads *)

Lemma join_empty_cons (x : string) (xs : list string) :
  Py.join EmptyString (x :: xs) = x +++ Py.join EmptyString xs.
Proof.
  unfold Py.join. destruct xs as [|y ys]; cbn [String.concat].
  - now rewrite append_empty_r.
  - now rewrite append_empty.
Qed.

Lemma substring_all (s : string) (n : nat) :
  (String.length s <= n)%nat -> String.substring 0 n s = s.
Proof.
  revert n. induction s as [|c s IH]; intros [|n] Hlen; cbn in *;
    try reflexivity; try lia.
  now rewrite IH by lia.
Qed.

Lemma substring_substring (s : string) (n m : nat) :
  (n <= m)%nat ->
  String.substring 0 n (String.substring 0 m s) = String.substring 0 n s.
Proof.
  revert n m. induction s as [|c s IH]; intros [|n] [|m] Hle; cbn;
    try reflexivity; try lia.
  now rewrite IH by lia.
Qed.

Section DownloadFacts.
Context {E V : Type} `{Collaborators E V}.

(** Writing the chunks received appends them, in order, to the file. *)
Lemma write_chunks_run (path : string) (chunks : list string) :
  forall (content : string) (w : world E),
    disk w !! path = Some content ->
    Download.write_chunks path chunks w
    = (Ok tt,
       World (services w) (qdrant w) (screen w) (sleeps w)
             (<[path := content +++ Py.join EmptyString chunks]> (disk w))
             (temp_path w)).
Proof.
  induction chunks as [|chunk rest IH]; intros content w Hfile.
  - cbn. unfold ret. rewrite append_empty_r, insert_id by done.
    now destruct w.
  - cbn [Download.write_chunks]. unfold bind at 1.
    destruct chunk as [|c chunk']; cbn [Py.str_truthy].
    + unfold ret at 1. rewrite (IH content w Hfile).
      now rewrite join_empty_cons, append_empty.
    + unfold Download.append_bytes. rewrite Hfile. cbn [default].
      rewrite (IH (content +++ String c chunk'))
        by (cbn; apply lookup_insert_eq).
      cbn [services qdrant screen sleeps disk temp_path].
      now rewrite insert_insert_eq, join_empty_cons, append_assoc.
Qed.

(** The validation of a staged download: it accepts the file and leaves
    the world alone, or refuses it with one of three messages and deletes
    it. *)
Lemma validate_outcome (tmp file_extension content : string)
    (w : world E) :
  disk w !! tmp = Some content ->
  (Download.validate tmp file_extension w = (Ok (tmp, file_extension), w)
   /\ content <> EmptyString
   /\ ((String.length content < 1024)%nat ->
       Download.looks_like_web_page content = false)
   /\ (Py.lower file_extension = ".pptx" ->
       String.substring 0 2 content = "PK"))
  \/ (exists e,
        In e [Download.empty_download; Download.web_page_download;
              Download.not_a_pptx]
        /\ Download.validate tmp file_extension w
           = (Raise e,
              World (services w) (qdrant w) (screen w) (sleeps w)
                    (delete tmp (disk w)) (temp_path w))).
Proof.
  intros Hfile.
  unfold Download.validate, getsize, read_bytes, unlink, bind, raise, ret.
  repeat first [rewrite Hfile | progress cbv beta iota].
  destruct (Z.of_nat (String.length content) =? 0) eqn:Hzero;
    repeat first [rewrite Hfile | progress cbv beta iota].
  { right. exists Download.empty_download. split; [cbn; auto|reflexivity]. }
  assert (Hne : content <> EmptyString).
  { intros ->. cbn in Hzero. discriminate. }
  set (pptx_check :=
         (if String.eqb (Py.lower file_extension) ".pptx" then _ else _)
         : M E unit).
  assert (Hpptx :
    (pptx_check w = (Ok tt, w)
     /\ (Py.lower file_extension = ".pptx" ->
         String.substring 0 2 content = "PK"))
    \/ pptx_check w
       = (Raise Download.not_a_pptx,
          World (services w) (qdrant w) (screen w) (sleeps w)
                (delete tmp (disk w)) (temp_path w))).
  { subst pptx_check.
    destruct (String.eqb (Py.lower file_extension) ".pptx") eqn:Hpptx;
      repeat first [rewrite Hfile | progress cbv beta iota].
    - rewrite substring_substring by lia.
      destruct (String.eqb (String.substring 0 2 content) "PK") eqn:Hpk;
        cbn [negb]; repeat first [rewrite Hfile | progress cbv beta iota].
      + left. apply String.eqb_eq in Hpk. now split.
      + now right.
    - left. apply String.eqb_neq in Hpptx. split; [reflexivity|].
      intros Heq. contradiction. }
  clearbody pptx_check.
  destruct (Z.of_nat (String.length content) <? 1024) eqn:Hsmall;
    repeat first [rewrite Hfile | progress cbv beta iota].
  - rewrite substring_all by lia.
    destruct (Download.looks_like_web_page content) eqn:Hpage;
      repeat first [rewrite Hfile | progress cbv beta iota].
    { right. exists Download.web_page_download.
      split; [cbn; auto|reflexivity]. }
    destruct Hpptx as [[-> Hpk]| ->]; cbv beta iota.
    + left. repeat split; auto.
    + right. exists Download.not_a_pptx. split; [cbn; auto|reflexivity].
  - destruct Hpptx as [[-> Hpk]| ->]; cbv beta iota.
    + left. repeat split; auto. intros Hlt. lia.
    + right. exists Download.not_a_pptx. split; [cbn; auto|reflexivity].
Qed.

(** Up to the validation: the file is created and holds the chunks
    received, in order. *)
Lemma stage_response_run (body : Download.response_body)
    (file_extension : string) (w : world E) :
  let tmp := fst (temp_name file_extension (services w)) in
  let ws := World (snd (temp_name file_extension (services w))) (qdrant w)
                  (screen w) (sleeps w)
                  (<[tmp := Py.join EmptyString (Download.received body)]>
                     (disk w))
                  (temp_path w) in
  Download.stage_response body file_extension w
  = match Download.broken body with
    | Some e => (Raise (Download.download_failed e), ws)
    | None =>
        try_except (Download.validate tmp file_extension)
                   (fun e => raise (Download.processing_failed e)) ws
    end.
Proof.
  cbv zeta. unfold Download.stage_response.
  unfold bind at 1. unfold call_total at 1.
  destruct (temp_name file_extension (services w)) as [tmp e1].
  cbn [fst snd]. unfold bind at 1. unfold write_bytes at 1.
  cbv beta iota. unfold bind at 1.
  rewrite (write_chunks_run tmp (Download.received body) EmptyString)
    by (cbn; apply lookup_insert_eq).
  cbn [services qdrant screen sleeps disk temp_path].
  rewrite insert_insert_eq, append_empty.
  now destruct (Download.broken body).
Qed.

(** X21.  A download whose stream arrived whole is either accepted or
    refused.  Accepted: the path and the extension are returned, the file
    holds exactly the bytes received, it is not empty, it does not look
    like a web page if it is under 1024 bytes, and it starts with PK if
    the extension is .pptx.  Refused: the failure is "Error processing
    URL: " followed by one of three messages, and the file has been
    deleted.  No other file is touched. *)
Theorem X21_download_is_accepted_or_deleted (body : Download.response_body)
    (file_extension : string) (w : world E) :
  Download.broken body = None ->
  let tmp := fst (temp_name file_extension (services w)) in
  let content := Py.join EmptyString (Download.received body) in
  let out := Download.stage_response body file_extension w in
  (fst out = Ok (tmp, file_extension)
   /\ disk (snd out) = <[tmp := content]> (disk w)
   /\ content <> EmptyString
   /\ ((String.length content < 1024)%nat ->
       Download.looks_like_web_page content = false)
   /\ (Py.lower file_extension = ".pptx" ->
       String.substring 0 2 content = "PK"))
  \/ (exists e,
        In e [Download.empty_download; Download.web_page_download;
              Download.not_a_pptx]
        /\ fst out = Raise (Download.processing_failed e)
        /\ disk (snd out) = delete tmp (disk w)).
Proof.
  intros Hwhole tmp content out. subst out.
  rewrite stage_response_run, Hwhole. fold tmp content.
  match goal with |- context [try_except _ _ ?ws0] => set (ws := ws0) end.
  destruct (validate_outcome tmp file_extension content ws)
    as [(Hrun & Hne & Hweb & Hpk)|(e & Hin & Hrun)];
    [apply lookup_insert_eq| |]; unfold try_except; rewrite Hrun.
  - left. now repeat split.
  - right. exists e. repeat split; [exact Hin|].
    cbn. apply delete_insert_eq.
Qed.

(** X22.  A download whose stream breaks: the upload flow shows the
    failure and returns, and the file with the bytes received so far is
    left on disk, since the handler has no path to delete. *)
Theorem X22_broken_download_leaves_partial_file
    (body : Download.response_body) (file_extension filename e : string)
    (w : world E) :
  Download.broken body = Some e ->
  let tmp := fst (temp_name file_extension (services w)) in
  exists w',
    App.upload_and_ingest
      (App.FromUrl (Download.stage_response body file_extension))
      filename w
    = (Ok tt, w')
    /\ screen w'
       = screen w ++ [StError ("Error processing document: "
                               +++ Download.download_failed e)]
    /\ disk w'
       = <[tmp := Py.join EmptyString (Download.received body)]> (disk w).
Proof.
  intros Hbroken tmp. subst tmp.
  unfold App.upload_and_ingest. unfold try_except at 1.
  unfold bind at 1. unfold set_temp_path at 1. cbv beta iota.
  unfold bind at 1. rewrite stage_response_run, Hbroken.
  cbn [services qdrant screen sleeps disk temp_path]. cbv beta iota.
  unfold st_error, show, get_temp_path, bind, ret, shown.
  cbn [services qdrant screen sleeps disk temp_path].
  eexists. repeat split.
Qed.

(** X23.  A download whose stream arrived whole, then the flow: it
    returns normally; the downloaded file is left on disk, with the bytes
    received, exactly when the validation accepts it and the extraction
    then comes back with nothing but whitespace; in every other case
    (refused by the validation, ingested, or failed at a later step) it is
    deleted.  No other file is touched. *)
Theorem X23_staged_file_after_download (body : Download.response_body)
    (file_extension filename : string) (w : world E) :
  Download.broken body = None ->
  fst (temp_name file_extension (services w)) <> EmptyString ->
  let tmp := fst (temp_name file_extension (services w)) in
  let content := Py.join EmptyString (Download.received body) in
  let accepted :=
    match fst (Download.stage_response body file_extension
                                       (snd (set_temp_path None w))) with
    | Ok _ => true
    | Raise _ => false
    end in
  let blank :=
    Obs.blank_extraction
      (fst (App.extract_text_from_file
              tmp file_extension
              (Obs.downloaded body file_extension w))) in
  exists w',
    App.upload_and_ingest
      (App.FromUrl (Download.stage_response body file_extension))
      filename w
    = (Ok tt, w')
    /\ disk w' = if accepted && blank
                 then <[tmp := content]> (disk w)
                 else delete tmp (disk w).
Proof.
  intros Hwhole Hname tmp content accepted blank.
  subst accepted blank. unfold set_temp_path, Obs.downloaded. cbn [snd].
  pose proof (stage_response_run body file_extension
                (World (services w) (qdrant w) (screen w) (sleeps w)
                       (disk w) None)) as Hstage.
  cbv zeta in Hstage. rewrite Hwhole in Hstage.
  cbn [services qdrant screen sleeps disk temp_path] in Hstage.
  fold tmp content in Hstage. fold content.
  match type of Hstage with context [try_except _ _ ?ws0] =>
    set (ws := ws0) in * end.
  destruct (validate_outcome tmp file_extension content ws)
    as [(Hrun & _)|(e & _ & Hrun)];
    [apply lookup_insert_eq| |]; unfold try_except in Hstage;
    rewrite Hrun in Hstage; rewrite Hstage; cbn [fst andb].
  - destruct (flow_after_staging
                (App.FromUrl (Download.stage_response body file_extension))
                filename tmp file_extension content w ws Hstage Hname)
      as (w' & Hflow & Hdisk); [apply lookup_insert_eq|].
    exists w'. split; [exact Hflow|].
    subst ws tmp.
    destruct (temp_name file_extension (services w)) as [tmp e1].
    cbn [fst snd services qdrant screen sleeps disk temp_path] in *.
    rewrite Hdisk.
    match goal with |- (if ?b then _ else _) = _ => destruct b end;
      [reflexivity | apply delete_insert_eq].
  - unfold App.upload_and_ingest. unfold try_except at 1.
    unfold bind at 1. unfold set_temp_path at 1. cbv beta iota.
    unfold bind at 1. rewrite Hstage. unfold raise.
    unfold st_error, show, get_temp_path, bind, ret, shown.
    cbn [services qdrant screen sleeps disk temp_path].
    eexists. split; [reflexivity|]. apply delete_insert_eq.
Qed.

End DownloadFacts.

Lemma X21_witness :
  let out := Download.stage_response
               (Download.Body ["PK"; EmptyString; "slide one"] None)
               ".pptx" (Sim.session Sim.fresh) in
  fst out = Ok ("/tmp/tmp0.pptx", ".pptx")
  /\ disk (snd out) = {["/tmp/tmp0.pptx" := "PKslide one"]}.
Proof.
  destruct (X21_download_is_accepted_or_deleted
              (Download.Body ["PK"; EmptyString; "slide one"] None)
              ".pptx" (Sim.session Sim.fresh) eq_refl)
    as [(Hout & Hdisk & _)|(e & _ & Hout & _)].
  - split; [exact Hout|]. rewrite Hdisk. vm_compute. reflexivity.
  - vm_compute in Hout. discriminate Hout.
Defined.

Lemma X22_witness :
  exists w',
    App.upload_and_ingest
      (App.FromUrl
         (Download.stage_response
            (Download.Body ["par"; "tial"] (Some "Connection broken"))
            ".pdf"))
      "report.pdf" (Sim.session Sim.fresh)
    = (Ok tt, w')
    /\ screen w'
       = [StError ("Error processing document: "
                   +++ Download.download_failed "Connection broken")]
    /\ disk w' = {["/tmp/tmp0.pdf" := "partial"]}.
Proof.
  destruct (X22_broken_download_leaves_partial_file
              (Download.Body ["par"; "tial"] (Some "Connection broken"))
              ".pdf" "report.pdf" "Connection broken"
              (Sim.session Sim.fresh) eq_refl)
    as (w' & Hrun & Hscreen & Hdisk).
  exists w'. split; [exact Hrun|]. split; [exact Hscreen|].
  rewrite Hdisk. vm_compute. reflexivity.
Defined.

Lemma X23_witness :
  (exists w',
     App.upload_and_ingest
       (App.FromUrl
          (Download.stage_response (Download.Body ["hel"; "lo"] None)
                                   ".txt"))
       "hello.txt" (Sim.session Sim.fresh)
     = (Ok tt, w')
     /\ disk w' = ∅)
  /\ (exists w',
        App.upload_and_ingest
          (App.FromUrl
             (Download.stage_response (Download.Body [" "; "  "] None)
                                      ".txt"))
          "blank.txt" (Sim.session Sim.fresh)
        = (Ok tt, w')
        /\ disk w' = {["/tmp/tmp0.txt" := "   "]}).
Proof.
  assert (Hname : fst (temp_name ".txt" (services (Sim.session Sim.fresh)))
                  <> EmptyString)
    by (intros Heq; vm_compute in Heq; discriminate Heq).
  split.
  - destruct (X23_staged_file_after_download
                (Download.Body ["hel"; "lo"] None) ".txt" "hello.txt"
                (Sim.session Sim.fresh) eq_refl Hname)
      as (w' & Hrun & Hdisk).
    exists w'. split; [exact Hrun|]. rewrite Hdisk. vm_compute. reflexivity.
  - destruct (X23_staged_file_after_download
                (Download.Body [" "; "  "] None) ".txt" "blank.txt"
                (Sim.session Sim.fresh) eq_refl Hname)
      as (w' & Hrun & Hdisk).
    exists w'. split; [exact Hrun|]. rewrite Hdisk. vm_compute. reflexivity.
Defined.

(** ** ingest.py from end to end *)

Lemma lstrip_nil {A : Type} (sp : A -> bool) (l : list A) :
  Py.lstrip sp l = [] -> Forall (fun x => sp x = true) l.
Proof.
  induction l as [|c l IH]; cbn; [constructor|].
  destruct (sp c) eqn:Hc; [|discriminate].
  intros Hl. constructor; [exact Hc | exact (IH Hl)].
Qed.

Lemma strip_list_nil {A : Type} (sp : A -> bool) (l : list A) :
  Py.strip_list sp l = [] -> Forall (fun x => sp x = true) l.
Proof.
  unfold Py.strip_list. intros Hl.
  apply (f_equal (@rev A)) in Hl. rewrite rev_involutive in Hl. cbn in Hl.
  apply lstrip_nil, Forall_rev in Hl. rewrite rev_involutive in Hl.
  apply lstrip_nil.
  destruct (Py.lstrip sp l) as [|c m] eqn:Hm; [reflexivity|].
  assert (Hc : sp c = false)
    by (apply (lstrip_head sp l); now rewrite Hm).
  apply Forall_cons in Hl as [Hsp _]. congruence.
Qed.

(** What the upload tab calls blank is whitespace from end to end. *)
Lemma blank_is_whitespace (text : string) :
  App.non_blank text = false ->
  Forall (fun x => Py.isspace x = true) (list_ascii_of_string text).
Proof.
  unfold App.non_blank, Py.strip. intros Hblank.
  apply strip_list_nil.
  destruct (Py.strip_list Py.isspace (list_ascii_of_string text));
    [reflexivity|discriminate].
Qed.

(** The pages of a PDF, each followed by a newline. *)
Lemma fold_pages (pages : list (option string)) :
  pages <> [] ->
  forall text : string,
    fold_left (fun text page => text +++ (default EmptyString page +++ nl))
              pages text
    = text +++ (Py.join nl (map (fun t => default EmptyString t) pages)
                +++ nl).
Proof.
  induction pages as [|page rest IH]; intros Hne text; [congruence|].
  destruct rest as [|page' rest'].
  - reflexivity.
  - match goal with |- fold_left ?f _ _ = _ =>
      change (fold_left f (page' :: rest')
                        (text +++ (default EmptyString page +++ nl))
              = text +++ (Py.join nl (map (fun t => default EmptyString t)
                                          (page :: page' :: rest'))
                          +++ nl))
    end.
    rewrite IH by discriminate.
    unfold Py.join. cbn [map String.concat].
    now rewrite !append_assoc.
Qed.

Section IngestFacts.
Context {E V : Type} `{Collaborators E V}.

(** X24.  The two PDF loaders read the same text: [load_pdf_text] returns
    what the upload tab extracts from the file followed by one newline,
    the empty string for a PDF without pages, and fails where the upload
    tab's extraction fails, with the same failure. *)
Theorem X24_pdf_loaders_agree (path : string) (w : world E) :
  IngestCli.load_pdf_text path w
  = match App.extract_text_from_file path ".pdf" w with
    | (Ok (full_text, page_count), w') =>
        (Ok (if page_count =? 0 then EmptyString else full_text +++ nl), w')
    | (Raise e, w') => (Raise e, w')
    end.
Proof.
  unfold IngestCli.load_pdf_text, App.extract_text_from_file.
  change (String.eqb (Py.lower ".pdf") ".pdf") with true. cbv iota.
  unfold bind.
  destruct (App.open_with PdfReader path w) as [[pages|e] w1];
    [|reflexivity].
  unfold ret. f_equal. f_equal.
  destruct pages as [|page rest]; [reflexivity|].
  rewrite fold_pages by discriminate. rewrite append_empty.
  unfold Py.len.
  destruct (Z.of_nat (length (page :: rest)) =? 0) eqn:Hz; [|reflexivity].
  apply Z.eqb_eq in Hz. cbn [length] in Hz. lia.
Qed.

(** The points of [store_chunks]: one per chunk, in order, the chunk's
    position as id and the chunk as text. *)
Lemma enumerate_points_pairs (chunks : list string) :
  forall (idx : Z) (points ps : list (point V)) (w w' : world E),
    Ingest.enumerate_points idx chunks points w = (Ok ps, w') ->
    map (fun p => (point_id p, App.payload_text p)) ps
    = map (fun p => (point_id p, App.payload_text p)) points
      ++ zip (map (fun k => idx + Z.of_nat k) (seq 0 (length chunks)))
             chunks.
Proof.
  induction chunks as [|chunk rest IH]; intros idx points ps w w' Hrun.
  - cbn in Hrun. unfold ret in Hrun. injection Hrun as <- _.
    cbn. now rewrite app_nil_r.
  - cbn [Ingest.enumerate_points] in Hrun. unfold Ingest.embed in Hrun.
    unfold_effects.
    destruct (encode false chunk (services w)) as [[vec|e] e1];
      [|discriminate].
    rewrite (IH _ _ _ _ _ Hrun), map_app, <- app_assoc.
    f_equal. cbn [length seq map app zip zip_with]. f_equal.
    + f_equal. cbn. lia.
    + rewrite <- seq_shift, map_map. f_equal.
      apply map_ext. intros k. lia.
Qed.

(** X25.  The points ingest.py builds for a chunk list are the chunks
    numbered from 0: the point at position k has id k and carries chunk k
    as its text. *)
Theorem X25_stored_points_are_the_numbered_chunks (chunks : list string)
    (ps : list (point V)) (w w' : world E) :
  Ingest.enumerate_points 0 chunks [] w = (Ok ps, w') ->
  map (fun p => (point_id p, App.payload_text p)) ps
  = zip (Py.range (Py.len chunks)) chunks.
Proof.
  intros Hrun. rewrite (enumerate_points_pairs chunks 0 [] ps w w' Hrun).
  unfold Py.range, Py.len. now rewrite Nat2Z.id.
Qed.

Context `{IngestCli.Probe E}.

(** X26.  A PDF whose text the upload tab would refuse as blank (nothing
    but whitespace) is not refused by ingest.py: it finds no chunk, still
    makes sure the collection exists, upserts an empty batch and, when
    these succeed, returns 0. *)
Theorem X26_ingest_of_blank_pdf (text : string) (w w1 : world E) :
  IngestCli.load_pdf_text IngestCli.PDF_PATH w = (Ok text, w1) ->
  App.non_blank text = false ->
  IngestCli.ingest w
  = (let* VECTOR_SIZE := App.get_vector_size in
     IngestCli.create_collection VECTOR_SIZE >>
     call (upsert COLLECTION_NAME []) >>
     ret 0) w1.
Proof.
  intros Hload Hblank. unfold IngestCli.ingest.
  unfold bind at 1. rewrite Hload. cbv zeta.
  assert (Hnone : IngestCli.chunk_text text = []).
  { unfold IngestCli.chunk_text.
    now rewrite chunk_text_whitespace
      by (try lia; now apply blank_is_whitespace). }
  rewrite Hnone. reflexivity.
Qed.

End IngestFacts.

Lemma X25_witness :
  exists ps w',
    Ingest.enumerate_points 0 ["alpha"; "beta"; "gamma"] []
                            (Sim.session Sim.fresh)
    = (Ok ps, w')
    /\ map (fun p => (point_id p, App.payload_text p)) ps
       = [(0, "alpha"); (1, "beta"); (2, "gamma")].
Proof.
  destruct (Ingest.enumerate_points 0 ["alpha"; "beta"; "gamma"] []
                                    (Sim.session Sim.fresh))
    as [[ps|e] w'] eqn:Hrun; [|vm_compute in Hrun; discriminate].
  exists ps, w'. split; [reflexivity|].
  exact (X25_stored_points_are_the_numbered_chunks _ _ _ _ Hrun).
Defined.

Lemma X26_witness :
  let w := Sim.with_file "data/demo.pdf" "%PDF   "
                         (Sim.session Sim.fresh) in
  fst (IngestCli.ingest w) = Ok 0
  /\ Sim.collection (services (snd (IngestCli.ingest w))) = Some [].
Proof.
  cbv zeta.
  destruct (IngestCli.load_pdf_text
              IngestCli.PDF_PATH
              (Sim.with_file "data/demo.pdf" "%PDF   "
                             (Sim.session Sim.fresh)))
    as [[text|e] w1] eqn:Hload; [|vm_compute in Hload; discriminate].
  assert (Hblank : App.non_blank text = false).
  { vm_compute in Hload. injection Hload as <- _. reflexivity. }
  rewrite (X26_ingest_of_blank_pdf text _ w1 Hload Hblank).
  vm_compute in Hload. injection Hload as _ <-.
  split; vm_compute; reflexivity.
Defined.

